(** * URL shortener: the allocation and redirect engine of [app.py]

  A shallow embedding of the request handlers of [app.py] (Flask + sqlite3)
  and of the library functions they call, followed by the properties of the
  short-code allocator, the redirect path and the statistics queries.

  Conventions.
  - A Python [str] is a [string]; every [ascii] is read as the code point of
    the same number (so the model covers text whose code points are below
    256).
  - The two sqlite tables are lists of rows in rowid order.
  - Everything the handlers read from outside the program (clock, random
    source, other processes writing [urls.db], two validators deep inside
    [urllib], the text Flask puts into its BadRequest) is a field of [Env].
  - The body of a request is a JSON value of any type, or no JSON at all.
  - A handler is a function from the process state to the way its run
    ends: a value, an exception, or a wait on [lock] that never ends. *)

From Stdlib Require Import List String Ascii ZArith Bool Lia Arith PeanoNat.
From Stdlib Require Import Sorting.Sorted Sorting.Permutation.
Import ListNotations.

Open Scope string_scope.
Open Scope bool_scope.

(** ** Python [str] operations *)

Module Str.

Definition code (c : ascii) : nat := nat_of_ascii c.

Definition between (lo hi : nat) (c : ascii) : bool :=
  (lo <=? code c)%nat && (code c <=? hi)%nat.

(** [str.isspace] on one code point below 256. *)
Definition isspace (c : ascii) : bool :=
  between 9 13 c || between 28 32 c || (code c =? 133)%nat || (code c =? 160)%nat.

Definition isascii (c : ascii) : bool := (code c <? 128)%nat.

Definition islower_ascii (c : ascii) : bool := between 97 122 c.
Definition isupper_ascii (c : ascii) : bool := between 65 90 c.
Definition isdigit_ascii (c : ascii) : bool := between 48 57 c.
Definition isalpha_ascii (c : ascii) : bool := islower_ascii c || isupper_ascii c.

(** [str.lower] on one code point; only ASCII letters are ever lowered by
    the callers below. *)
Definition lower_char (c : ascii) : ascii :=
  if isupper_ascii c then ascii_of_nat (code c + 32) else c.

Fixpoint lower (s : string) : string :=
  match s with
  | EmptyString => EmptyString
  | String c s' => String (lower_char c) (lower s')
  end.

Fixpoint all (p : ascii -> bool) (s : string) : bool :=
  match s with
  | EmptyString => true
  | String c s' => p c && all p s'
  end.

Fixpoint contains (c : ascii) (s : string) : bool :=
  match s with
  | EmptyString => false
  | String d s' => Ascii.eqb c d || contains c s'
  end.

(** [s.lstrip(chars)] with the set of characters given as a predicate. *)
Fixpoint lstrip (p : ascii -> bool) (s : string) : string :=
  match s with
  | EmptyString => EmptyString
  | String c s' => if p c then lstrip p s' else s
  end.

(** [s.rstrip(chars)]: the result is empty exactly when nothing but
    stripped characters remains to the right. *)
Fixpoint rstrip (p : ascii -> bool) (s : string) : string :=
  match s with
  | EmptyString => EmptyString
  | String c s' =>
      match rstrip p s' with
      | EmptyString => if p c then EmptyString else String c EmptyString
      | r => String c r
      end
  end.

(** [s.strip()] *)
Definition strip (s : string) : string := rstrip isspace (lstrip isspace s).

(** [s.replace(c, "")] for every [c] selected by [p]. *)
Fixpoint remove (p : ascii -> bool) (s : string) : string :=
  match s with
  | EmptyString => EmptyString
  | String c s' => if p c then remove p s' else String c (remove p s')
  end.

(** [s.partition(c)]: text before the first [c], whether [c] was found,
    text after it. *)
Fixpoint partition (c : ascii) (s : string) : string * bool * string :=
  match s with
  | EmptyString => (EmptyString, false, EmptyString)
  | String d s' =>
      if Ascii.eqb c d then (EmptyString, true, s')
      else let '(a, found, b) := partition c s' in (String d a, found, b)
  end.

(** [s.rpartition(c)]: split at the last [c]; when there is none the whole
    text is the third component. *)
Fixpoint rpartition (c : ascii) (s : string) : string * bool * string :=
  match s with
  | EmptyString => (EmptyString, false, EmptyString)
  | String d s' =>
      let '(a, found, b) := rpartition c s' in
      if found then (String d a, true, b)
      else if Ascii.eqb c d then (EmptyString, true, s')
      else (EmptyString, false, String d b)
  end.

(** Longest prefix whose characters satisfy [p], and the rest. *)
Fixpoint span (p : ascii -> bool) (s : string) : string * string :=
  match s with
  | EmptyString => (EmptyString, EmptyString)
  | String c s' =>
      if p c then let '(a, b) := span p s' in (String c a, b)
      else (EmptyString, s)
  end.

Definition nonempty (s : string) : bool :=
  match s with EmptyString => false | _ => true end.

Definition startswith (pre s : string) : bool := String.prefix pre s.

Definition head (s : string) : option ascii :=
  match s with EmptyString => None | String c _ => Some c end.

End Str.

(** ** [re.match(r'^[a-zA-Z0-9_-]+$', s)]

    The character class holds the ASCII letters, the digits, [_] and [-].
    Python's [$] matches at the end of the text and also just before a line
    feed that is the last character; the class excludes the line feed, so the
    greedy run followed by [$] matches exactly when the run is not empty and
    what follows it is nothing or one final line feed. *)

Module Re.

Definition LF : ascii := ascii_of_nat 10.

Definition code_char (c : ascii) : bool :=
  Str.islower_ascii c || Str.isupper_ascii c || Str.isdigit_ascii c
  || Ascii.eqb c "_" || Ascii.eqb c "-".

Definition at_dollar (rest : string) : bool :=
  match rest with
  | EmptyString => true
  | String c EmptyString => Ascii.eqb c LF
  | _ => false
  end.

Definition match_code (s : string) : bool :=
  let '(run, rest) := Str.span code_char s in
  Str.nonempty run && at_dollar rest.

End Re.

(** ** The database [urls.db]

    Table [urls] (id AUTOINCREMENT, short_code UNIQUE, original_url, clicks,
    created_at) and table [daily_stats] (date PRIMARY KEY, urls_created,
    total_clicks), as created by [init_db]. Rows are kept in rowid order;
    [urls_seq] is the AUTOINCREMENT counter sqlite keeps for [urls]. Integer
    columns are [Z]; [created_at] is CURRENT_TIMESTAMP, whose resolution is
    one second, counted in seconds. *)

Record UrlRow := mkUrlRow {
  id : Z;
  short_code : string;
  original_url : string;
  clicks : Z;
  created_at : Z }.

Record DailyRow := mkDailyRow {
  date : string;
  urls_created : Z;
  total_clicks : Z }.

Record Db := mkDb {
  urls : list UrlRow;
  urls_seq : Z;
  daily_stats : list DailyRow }.

Definition empty_db : Db := mkDb [] 0 [].

(** ** What a handler reads from outside the program *)

Record Env := mkEnv {
  (** [date.today().isoformat()] *)
  today : string;
  (** CURRENT_TIMESTAMP at the INSERT *)
  now : Z;
  (** the index picked by the k-th call of [random.choice] in this process
      (reduced modulo the length of the sequence) *)
  choice : nat -> nat;
  (** what other processes sharing [urls.db] commit between the handler's
      uniqueness SELECT and its INSERT; [lock] is a lock of this process
      only and does not exclude them. The identity when nobody interferes. *)
  concurrent_writer : Db -> Db;
  (** [urllib.parse._check_bracketed_host] returns without ValueError *)
  bracketed_host_ok : string -> bool;
  (** [urllib.parse._checknetloc] returns without ValueError on a netloc
      that is not ASCII (NFKC normalisation) *)
  nfkc_netloc_ok : string -> bool;
  (** the description of the BadRequest that Flask raises when the body of
      a request does not parse as JSON: werkzeug's standard text, or, in
      debug mode, the message of the decoder *)
  json_failure : string }.

(** ** [urllib.parse.urlsplit] (CPython 3.11), as far as [is_valid_url] looks *)

Module Urllib.

Record SplitResult := mkSplit {
  scheme : string;
  netloc : string;
  path : string;
  query : string;
  fragment : string }.

Definition scheme_char (c : ascii) : bool :=
  Str.islower_ascii c || Str.isupper_ascii c || Str.isdigit_ascii c
  || Ascii.eqb c "+" || Ascii.eqb c "-" || Ascii.eqb c ".".

(** [_WHATWG_C0_CONTROL_OR_SPACE] *)
Definition c0_control_or_space (c : ascii) : bool := (Str.code c <=? 32)%nat.

(** [_UNSAFE_URL_BYTES_TO_REMOVE]: tab, carriage return, line feed *)
Definition unsafe_byte (c : ascii) : bool :=
  (Str.code c =? 9)%nat || (Str.code c =? 13)%nat || (Str.code c =? 10)%nat.

Definition netloc_delim (c : ascii) : bool :=
  Ascii.eqb c "/" || Ascii.eqb c "?" || Ascii.eqb c "#".

(** [_splitnetloc(url, 2)] on a [url] that starts with two slashes, given
    without them: the netloc runs to the first of [/?#]. *)
Definition _splitnetloc (after_slashes : string) : string * string :=
  Str.span (fun c => negb (netloc_delim c)) after_slashes.

(** The scheme test of [urlsplit]: a colon at a positive index, a first
    character that is an ASCII letter, and nothing but [scheme_chars] before
    the colon. *)
Definition split_scheme (url : string) : string * string :=
  let '(before, found, after) := Str.partition ":" url in
  let first_alpha :=
    match Str.head url with
    | Some c => Str.isascii c && Str.isalpha_ascii c
    | None => false
    end in
  if found && Str.nonempty before && first_alpha && Str.all scheme_char before
  then (Str.lower before, after)
  else (EmptyString, url).

(** [_check_bracketed_netloc]; [true] when no ValueError is raised. *)
Definition _check_bracketed_netloc (env : Env) (netloc : string) : bool :=
  let '(_, _, hostname_and_port) := Str.rpartition "@" netloc in
  let '(before_bracket, have_open_br, bracketed) :=
    Str.partition "[" hostname_and_port in
  if have_open_br then
    if Str.nonempty before_bracket then false
    else
      let '(hostname, _, port) := Str.partition "]" bracketed in
      if Str.nonempty port && negb (Str.startswith ":" port) then false
      else bracketed_host_ok env hostname
  else
    let '(hostname, _, _) := Str.partition ":" hostname_and_port in
    bracketed_host_ok env hostname.

(** [_checknetloc]; [true] when no ValueError is raised. *)
Definition _checknetloc (env : Env) (netloc : string) : bool :=
  if negb (Str.nonempty netloc) || Str.all Str.isascii netloc then true
  else nfkc_netloc_ok env netloc.

(** [urlsplit(url)]; [None] stands for ValueError. *)
Definition urlsplit (env : Env) (url : string) : option SplitResult :=
  let url := Str.lstrip c0_control_or_space url in
  let url := Str.remove unsafe_byte url in
  let '(scheme, url) := split_scheme url in
  let after_netloc :=
    match url with
    | String "/" (String "/" rest) =>
        let '(netloc, url') := _splitnetloc rest in
        let lb := Str.contains "[" netloc in
        let rb := Str.contains "]" netloc in
        if (lb && negb rb) || (rb && negb lb) then None
        else if lb && rb && negb (_check_bracketed_netloc env netloc) then None
        else Some (netloc, url')
    | _ => Some (EmptyString, url)
    end in
  match after_netloc with
  | None => None
  | Some (netloc, url) =>
      let '(url, _, fragment) := Str.partition "#" url in
      let '(url, _, query) := Str.partition "?" url in
      if _checknetloc env netloc
      then Some (mkSplit scheme netloc url query fragment)
      else None
  end.

(** [urlparse(url)] splits [params] off the path of the result of
    [urlsplit] and changes no other component. *)
Definition urlparse (env : Env) (url : string) : option SplitResult :=
  urlsplit env url.

(** The [hostname] attribute of a parse result ([_hostinfo], then lower
    case outside the zone); [None] when the host is empty. *)
Definition hostname (r : SplitResult) : option string :=
  let '(_, _, hostinfo) := Str.rpartition "@" (netloc r) in
  let '(_, have_open_br, bracketed) := Str.partition "[" hostinfo in
  let host :=
    if have_open_br then let '(h, _, _) := Str.partition "]" bracketed in h
    else let '(h, _, _) := Str.partition ":" hostinfo in h in
  if Str.nonempty host then
    let '(h, percent, zone) := Str.partition "%" host in
    Some (Str.lower h ++ (if percent then "%" else "") ++ zone)
  else None.

End Urllib.

(** ** [is_valid_url] *)

Definition is_valid_url (env : Env) (url : string) : bool :=
  match Urllib.urlparse env url with
  | Some result =>
      (Str.nonempty (Urllib.scheme result) && Str.nonempty (Urllib.netloc result))
      && (String.eqb (Urllib.scheme result) "http"
          || String.eqb (Urllib.scheme result) "https")
  | None => false
  end.

(** ** The process state and the handler monad

    [db] is the committed content of [urls.db], which is what any other
    connection reads; [txn] is the open write transaction (sqlite allows one
    at a time), seen only by the connection that opened it until [commit];
    [lock_held] is the state of the module-level [lock = threading.Lock()],
    which is not reentrant; [draws] counts the calls of [random.choice];
    [log] records the storage accesses in order and is there only to state
    how often and in which order storage was touched. *)

Inductive Event :=
| EvConnect
| EvClose
| EvCommit
| EvSelectUrl (code : string)
| EvInsertUrl (code : string) (url : string)
| EvUpdateClicks (code : string)
| EvSelectDaily (day : string)
| EvUpdateDaily (day : string)
| EvInsertDaily (day : string)
| EvDeleteUrls
| EvDeleteDaily
| EvSelectTotals
| EvSelectRecent.

Record World := mkWorld {
  db : Db;
  txn : option Db;
  lock_held : bool;
  draws : nat;
  log : list Event }.

Definition fresh_world (d : Db) : World := mkWorld d None false 0 [].

(** The exceptions that can arise: [sqlite3.IntegrityError] from a
    constraint, [sqlite3.OperationalError] from an INSERT that finds no
    rowid left, [IndexError] from [random.choice] on an empty sequence,
    [AttributeError] from a method that a JSON value of the wrong type does
    not have, and werkzeug's [BadRequest] from [request.get_json()].
    [str(e)] is the message; for a BadRequest it is the status line followed
    by the description. *)
Inductive Exn :=
| IntegrityError (msg : string)
| IndexError (msg : string)
| OperationalError (msg : string)
| AttributeError (msg : string)
| BadRequest (description : string).

Definition str_exn (e : Exn) : string :=
  match e with
  | IntegrityError msg => msg
  | IndexError msg => msg
  | OperationalError msg => msg
  | AttributeError msg => msg
  | BadRequest description => "400 Bad Request: " ++ description
  end.

(** How running a piece of handler code from a world ends: it returns a
    value, it raises, or it waits on [lock.acquire()] for a lock that is
    never released, and then nothing after that point runs. *)
Inductive Result (A : Type) :=
| Done (a : A) (w : World)
| Raised (e : Exn) (w : World)
| Blocked (w : World).

Arguments Done {A} a w.
Arguments Raised {A} e w.
Arguments Blocked {A} w.

Definition M (A : Type) : Type := World -> Result A.

Definition ret {A} (a : A) : M A := fun w => Done a w.

Definition bind {A B} (m : M A) (k : A -> M B) : M B :=
  fun w =>
    match m w with
    | Done a w' => k a w'
    | Raised e w' => Raised e w'
    | Blocked w' => Blocked w'
    end.

Definition raise {A} (e : Exn) : M A := fun w => Raised e w.

Notation "x <- m ;; k" := (bind m (fun x => k))
  (at level 61, m at next level, right associativity).
Notation "m ;; k" := (bind m (fun _ => k))
  (at level 61, right associativity).

(** The world in which a run ended or got stuck. *)
Definition final_world {A} (r : Result A) : World :=
  match r with
  | Done _ w => w
  | Raised _ w => w
  | Blocked w => w
  end.

Definition returned {A} (r : Result A) : option A :=
  match r with
  | Done a _ => Some a
  | _ => None
  end.

(** [try: body finally: cleanup] *)
Definition try_finally {A} (body : M A) (cleanup : M unit) : M A :=
  fun w =>
    match body w with
    | Done a w' => (cleanup ;; ret a) w'
    | Raised e w' => (cleanup ;; raise e) w'
    | Blocked w' => Blocked w'
    end.

(** [try: body except Exception as e: handler(e)] *)
Definition try_except {A} (body : M A) (handler : Exn -> M A) : M A :=
  fun w =>
    match body w with
    | Done a w' => Done a w'
    | Raised e w' => handler e w'
    | Blocked w' => Blocked w'
    end.

(** [with lock: body]. [lock.acquire()] on a held lock waits for a release.
    A handler is followed on its own thread to its end, so a lock found held
    is held either by this very thread, further up its call stack, or by an
    earlier handler that is itself stuck; neither will release it. The same
    discipline with interleaved threads is in [Threads] below. *)
Definition with_lock {A} (body : M A) : M A :=
  fun w =>
    if lock_held w then Blocked w
    else
      let release w' :=
        mkWorld (db w') (txn w') false (draws w') (log w') in
      match body (mkWorld (db w) (txn w) true (draws w) (log w)) with
      | Done a w' => Done a (release w')
      | Raised e w' => Raised e (release w')
      | Blocked w' => Blocked w'
      end.

Definition emit (e : Event) : M unit :=
  fun w => Done tt (mkWorld (db w) (txn w) (lock_held w) (draws w) (log w ++ [e])).

(** ** sqlite statements on the handler's connection *)

(** What the handler's connection reads: its own pending writes if it has
    any, else the committed database. *)
Definition view (w : World) : Db :=
  match txn w with
  | Some d => d
  | None => db w
  end.

Definition set_txn (d : Db) : M unit :=
  fun w => Done tt (mkWorld (db w) (Some d) (lock_held w) (draws w) (log w)).

Definition read_view : M Db := fun w => Done (view w) w.

(** [get_db_connection()]: the database file is created with its two empty
    tables when it is missing, so a connection always sees both tables. A
    new connection has no pending transaction. *)
Definition get_db_connection : M unit :=
  fun w => Done tt (mkWorld (db w) None (lock_held w) (draws w) (log w ++ [EvConnect])).

(** [conn.commit()] *)
Definition commit : M unit :=
  fun w => Done tt (mkWorld (view w) None (lock_held w) (draws w) (log w ++ [EvCommit])).

(** [conn.close()]: pending writes are rolled back. *)
Definition close : M unit :=
  fun w => Done tt (mkWorld (db w) None (lock_held w) (draws w) (log w ++ [EvClose])).

Definition find_url (code : string) (d : Db) : option UrlRow :=
  find (fun r => String.eqb (short_code r) code) (urls d).

(** [SELECT ... FROM urls WHERE short_code = ?] followed by [fetchone()] *)
Definition select_url (code : string) : M (option UrlRow) :=
  emit (EvSelectUrl code) ;;
  d <- read_view ;;
  ret (find_url code d).

Definition max_id (rows : list UrlRow) : Z :=
  fold_right (fun r m => Z.max (id r) m) 0%Z rows.

(** The largest rowid of sqlite, 2^63 - 1. *)
Definition max_rowid : Z := 9223372036854775807.

(** [INSERT INTO urls (short_code, original_url) VALUES (?, ?)]. sqlite
    first takes the next AUTOINCREMENT id, one above the largest id the
    table ever held, and raises OperationalError (SQLITE_FULL) when that
    was the largest rowid there is; then the UNIQUE constraint on
    [short_code] raises IntegrityError; otherwise the row is written with
    [clicks] 0 and the current timestamp. *)
Definition insert_url (env : Env) (code url : string) : M unit :=
  emit (EvInsertUrl code url) ;;
  d <- read_view ;;
  if (max_rowid <=? Z.max (urls_seq d) (max_id (urls d)))%Z then
    raise (OperationalError "database or disk is full")
  else
    match find_url code d with
    | Some _ => raise (IntegrityError "UNIQUE constraint failed: urls.short_code")
    | None =>
        let i := (Z.max (urls_seq d) (max_id (urls d)) + 1)%Z in
        set_txn (mkDb (urls d ++ [mkUrlRow i code url 0 (now env)]) i (daily_stats d))
    end.

Definition bump_clicks (code : string) (r : UrlRow) : UrlRow :=
  if String.eqb (short_code r) code
  then mkUrlRow (id r) (short_code r) (original_url r) (clicks r + 1) (created_at r)
  else r.

(** [UPDATE urls SET clicks = clicks + 1 WHERE short_code = ?] *)
Definition update_clicks (code : string) : M unit :=
  emit (EvUpdateClicks code) ;;
  d <- read_view ;;
  set_txn (mkDb (map (bump_clicks code) (urls d)) (urls_seq d) (daily_stats d)).

Definition find_daily (day : string) (d : Db) : option DailyRow :=
  find (fun r => String.eqb (date r) day) (daily_stats d).

(** [SELECT * FROM daily_stats WHERE date = ?] followed by [fetchone()] *)
Definition select_daily (day : string) : M (option DailyRow) :=
  emit (EvSelectDaily day) ;;
  d <- read_view ;;
  ret (find_daily day d).

Definition add_daily (day : string) (created clicked : Z) (r : DailyRow) : DailyRow :=
  if String.eqb (date r) day
  then mkDailyRow (date r) (urls_created r + created) (total_clicks r + clicked)
  else r.

(** [UPDATE daily_stats SET urls_created = urls_created + ?,
    total_clicks = total_clicks + ? WHERE date = ?] *)
Definition update_daily (day : string) (created clicked : Z) : M unit :=
  emit (EvUpdateDaily day) ;;
  d <- read_view ;;
  set_txn (mkDb (urls d) (urls_seq d) (map (add_daily day created clicked) (daily_stats d))).

(** [INSERT INTO daily_stats (date, urls_created, total_clicks) VALUES (?, ?, ?)];
    [date] is the primary key. *)
Definition insert_daily (day : string) (created clicked : Z) : M unit :=
  emit (EvInsertDaily day) ;;
  d <- read_view ;;
  match find_daily day d with
  | Some _ => raise (IntegrityError "UNIQUE constraint failed: daily_stats.date")
  | None =>
      set_txn (mkDb (urls d) (urls_seq d) (daily_stats d ++ [mkDailyRow day created clicked]))
  end.

(** [DELETE FROM urls]; the AUTOINCREMENT counter is kept. *)
Definition delete_urls : M unit :=
  emit EvDeleteUrls ;;
  d <- read_view ;;
  set_txn (mkDb [] (urls_seq d) (daily_stats d)).

(** [DELETE FROM daily_stats] *)
Definition delete_daily : M unit :=
  emit EvDeleteDaily ;;
  d <- read_view ;;
  set_txn (mkDb (urls d) (urls_seq d) []).

(** The step of the environment between the uniqueness SELECT and the
    INSERT of [shorten_url]: other processes commit to [urls.db]. *)
Definition others_commit (env : Env) : M unit :=
  fun w => Done tt (mkWorld (concurrent_writer env (db w)) (txn w) (lock_held w) (draws w) (log w)).

(** ** Requests and responses *)

#[local] Set Warnings "-register-all".

(** A JSON value as [json.loads] hands it to Python: [None], a [bool], an
    [int], a [float], a [str], a [list] or a [dict]. Of a float the handler
    looks at its type and at whether it is zero, and that is what is kept
    of it. A dict is the list of its items, with each key once; a lookup
    takes the first item with the key. *)
Inductive Json :=
| JNull
| JBool (b : bool)
| JInt (n : Z)
| JFloat (zero : bool)
| JString (s : string)
| JArray (items : list Json)
| JObject (members : list (string * Json)).

(** A request carries what the handlers read of it: [request.is_json],
    the body as the JSON parser reads it ([None] for a body that is not
    JSON), and [request.url_root]. *)
Record Request := mkRequest {
  is_json : bool;
  parsed_body : option Json;
  url_root : string }.

Record RecentItem := mkRecentItem {
  item_short_code : string;
  item_short_url : string;
  item_original_url : string;
  item_clicks : Z;
  item_created_at : Z }.

Inductive Body :=
| JsonError (error : string)
| JsonShortened (short_url short_code original_url : string) (success : bool)
| JsonStats (total_urls total_clicks today_urls today_clicks : Z)
| JsonRecent (items : list RecentItem)
| JsonMessage (message : string)
| Text (text : string)
| NotFoundPage
| Redirect (location : string).

Record Response := mkResponse {
  body : Body;
  status : nat }.

(** [jsonify({'error': msg}), status] *)
Definition error_response (msg : string) (status : nat) : Response :=
  mkResponse (JsonError msg) status.

(** [x or ''] for a field that is a string or missing *)
Definition or_empty (x : option string) : string :=
  match x with
  | Some s => s
  | None => EmptyString
  end.

(** [request.get_json()]: the parsed body, or BadRequest. *)
Definition get_json (env : Env) (request : Request) : M Json :=
  match parsed_body request with
  | Some data => ret data
  | None => raise (BadRequest (json_failure env))
  end.

(** [type(v).__name__] *)
Definition type_name (v : Json) : string :=
  match v with
  | JNull => "NoneType"
  | JBool _ => "bool"
  | JInt _ => "int"
  | JFloat _ => "float"
  | JString _ => "str"
  | JArray _ => "list"
  | JObject _ => "dict"
  end.

(** [bool(v)] *)
Definition truthy (v : Json) : bool :=
  match v with
  | JNull => false
  | JBool b => b
  | JInt n => negb (n =? 0)%Z
  | JFloat zero => negb zero
  | JString s => Str.nonempty s
  | JArray items => match items with [] => false | _ => true end
  | JObject members => match members with [] => false | _ => true end
  end.

(** The AttributeError of [v.attr] for a method that the type of [v] does
    not have. *)
Definition no_attribute (v : Json) (attr : string) : Exn :=
  AttributeError ("'" ++ type_name v ++ "' object has no attribute '" ++ attr ++ "'").

Fixpoint dict_lookup (key : string) (members : list (string * Json)) : option Json :=
  match members with
  | [] => None
  | (k, v) :: rest => if String.eqb k key then Some v else dict_lookup key rest
  end.

(** [data.get(key)]: [None] for a key that the dict does not have; a value
    that is not a dict has no [get]. *)
Definition dict_get (data : Json) (key : string) : M Json :=
  match data with
  | JObject members =>
      ret (match dict_lookup key members with Some v => v | None => JNull end)
  | _ => raise (no_attribute data "get")
  end.

(** [(v or '').strip()]: a value that counts as false gives the empty text,
    a string is trimmed, and no other value has [strip]. *)
Definition or_empty_strip (v : Json) : M string :=
  if truthy v then
    match v with
    | JString s => ret (Str.strip s)
    | _ => raise (no_attribute v "strip")
    end
  else ret (Str.strip EmptyString).

(** ** [generate_short_code] *)

(** [string.ascii_letters + string.digits] *)
Definition characters : string :=
  "abcdefghijklmnopqrstuvwxyzABCDEFGHIJKLMNOPQRSTUVWXYZ0123456789".

(** [random.choice(seq)] *)
Definition random_choice (env : Env) (seq : string) : M ascii :=
  fun w =>
    match String.get (choice env (draws w) mod String.length seq) seq with
    | Some c => Done c (mkWorld (db w) (txn w) (lock_held w) (S (draws w)) (log w))
    | None => Raised (IndexError "Cannot choose from an empty sequence") w
    end.

(** [''.join(random.choice(characters) for _ in range(length))] *)
Fixpoint generate_short_code (env : Env) (length : nat) : M string :=
  match length with
  | O => ret EmptyString
  | S n =>
      c <- random_choice env characters ;;
      s <- generate_short_code env n ;;
      ret (String c s)
  end.

(** ** [update_daily_stats] *)

Definition update_daily_stats (env : Env) (urls_created clicks : Z) : M unit :=
  let today := today env in
  with_lock
    (get_db_connection ;;
     try_finally
       (existing <- select_daily today ;;
        match existing with
        | Some _ => update_daily today urls_created clicks
        | None => insert_daily today urls_created clicks
        end ;;
        commit)
       close).

(** ** [shorten_url] *)

(** The loop [while attempts < 10] of the random branch. [todo] is the loop
    variant [10 - attempts]; the loop is left by [break] on the first
    candidate without a row, or when the variant reaches 0. *)
Fixpoint random_loop (env : Env) (todo attempts : nat) (short_code : string)
  : M (nat * string) :=
  match todo with
  | O => ret (attempts, short_code)
  | S todo' =>
      candidate <- generate_short_code env 6 ;;
      existing <- select_url candidate ;;
      match existing with
      | None => ret (attempts, candidate)
      | Some _ => random_loop env todo' (S attempts) candidate
      end
  end.

(** Lines 134-164: the branch on [custom_code]. [inl] is an early [return]
    of a response, [inr] the chosen [short_code]. *)
Definition choose_short_code (env : Env) (custom_code : string)
  : M (Response + string) :=
  if Str.nonempty custom_code then
    if negb (Re.match_code custom_code) then
      ret (inl (error_response
        "Custom code can only contain letters, numbers, hyphens, and underscores" 400))
    else if (20 <? String.length custom_code)%nat then
      ret (inl (error_response "Custom code must be 20 characters or less" 400))
    else
      existing <- select_url custom_code ;;
      match existing with
      | Some _ =>
          ret (inl (error_response
            "Custom code already exists. Please choose a different one." 400))
      | None => ret (inr custom_code)
      end
  else
    r <- random_loop env 10 0 EmptyString ;;
    let '(attempts, short_code) := r in
    if (10 <=? attempts)%nat then
      ret (inl (error_response
        "Unable to generate unique short code. Please try again." 500))
    else ret (inr short_code).

(** Lines 166-186: insert, commit, daily statistics, response. *)
Definition store_mapping (env : Env) (request : Request)
  (short_code original_url : string) : M Response :=
  others_commit env ;;
  insert_url env short_code original_url ;;
  commit ;;
  update_daily_stats env 1 0 ;;
  let base_url := Str.rstrip (Ascii.eqb "/") (url_root request) in
  let short_url := base_url ++ "/" ++ short_code in
  ret (mkResponse (JsonShortened short_url short_code original_url true) 200).

(** Lines 130-189: the part of [shorten_url] under [with lock]. *)
Definition shorten_locked (env : Env) (request : Request)
  (original_url custom_code : string) : M Response :=
  with_lock
    (get_db_connection ;;
     try_finally
       (chosen <- choose_short_code env custom_code ;;
        match chosen with
        | inl response => ret response
        | inr short_code => store_mapping env request short_code original_url
        end)
       close).

(** Lines 113-189: the body of the [try] of [shorten_url]. *)
Definition shorten_body (env : Env) (request : Request) : M Response :=
  if negb (is_json request) then
    ret (error_response "Content-Type must be application/json" 400)
  else
    data <- get_json env request ;;
    match data with
    | JNull => ret (error_response "Invalid JSON data" 400)
    | _ =>
        url_field <- dict_get data "url" ;;
        original_url <- or_empty_strip url_field ;;
        code_field <- dict_get data "custom_code" ;;
        custom_code <- or_empty_strip code_field ;;
        if negb (Str.nonempty original_url) then
          ret (error_response "URL is required" 400)
        else if negb (is_valid_url env original_url) then
          ret (error_response
            "Invalid URL format. Must start with http:// or https://" 400)
        else shorten_locked env request original_url custom_code
    end.

Definition shorten_url (env : Env) (request : Request) : M Response :=
  try_except (shorten_body env request)
    (fun e => ret (error_response ("Server error: " ++ str_exn e) 500)).

(** ** [get_stats] *)

Definition sum_clicks (rows : list UrlRow) : Z :=
  fold_right (fun r acc => (clicks r + acc)%Z) 0%Z rows.

Definition get_stats (env : Env) : M Response :=
  try_except
    (get_db_connection ;;
     try_finally
       (emit EvSelectTotals ;;
        d <- read_view ;;
        let total_urls := Z.of_nat (List.length (urls d)) in
        let total_clicks_ := sum_clicks (urls d) in
        let today := today env in
        today_stats <- select_daily today ;;
        ret (mkResponse
          (JsonStats total_urls total_clicks_
             (match today_stats with Some r => urls_created r | None => 0%Z end)
             (match today_stats with Some r => total_clicks r | None => 0%Z end))
          200))
       close)
    (fun e => ret (error_response ("Server error: " ++ str_exn e) 500)).

(** ** [get_recent_urls] *)

(** [ORDER BY created_at DESC]: rows come out by decreasing timestamp. SQL
    leaves the order of rows with equal keys open; sqlite yields them in the
    order of the table scan, that is by increasing rowid, which is what this
    stable insertion does. *)
Fixpoint insert_desc (r : UrlRow) (sorted : list UrlRow) : list UrlRow :=
  match sorted with
  | [] => [r]
  | r' :: rest =>
      if (created_at r' <=? created_at r)%Z then r :: sorted
      else r' :: insert_desc r rest
  end.

Definition order_by_created_at_desc (rows : list UrlRow) : list UrlRow :=
  fold_right insert_desc [] rows.

(** [SELECT ... FROM urls ORDER BY created_at DESC LIMIT 10] *)
Definition select_recent : M (list UrlRow) :=
  emit EvSelectRecent ;;
  d <- read_view ;;
  ret (firstn 10 (order_by_created_at_desc (urls d))).

Definition recent_item (base_url : string) (r : UrlRow) : RecentItem :=
  mkRecentItem (short_code r) (base_url ++ "/" ++ short_code r)
    (original_url r) (clicks r) (created_at r).

Definition get_recent_urls (request : Request) : M Response :=
  try_except
    (get_db_connection ;;
     try_finally
       (rows <- select_recent ;;
        let base_url := Str.rstrip (Ascii.eqb "/") (url_root request) in
        ret (mkResponse (JsonRecent (map (recent_item base_url) rows)) 200))
       close)
    (fun e => ret (error_response ("Server error: " ++ str_exn e) 500)).

(** ** [clear_all_data] *)

Definition clear_all_data : M Response :=
  try_except
    (with_lock
       (get_db_connection ;;
        try_finally
          (delete_urls ;;
           delete_daily ;;
           commit ;;
           ret (mkResponse (JsonMessage "All data cleared successfully") 200))
          close))
    (fun e => ret (error_response ("Server error: " ++ str_exn e) 500)).

(** ** [redirect_to_url] *)

Definition redirect_to_url (env : Env) (short_code : string) : M Response :=
  try_except
    (if negb (Re.match_code short_code) then
       ret (mkResponse (Text "Invalid short code format") 400)
     else
       with_lock
         (get_db_connection ;;
          try_finally
            (url_record <- select_url short_code ;;
             match url_record with
             | None => ret (mkResponse NotFoundPage 404)
             | Some r =>
                 update_clicks short_code ;;
                 commit ;;
                 update_daily_stats env 0 1 ;;
                 ret (mkResponse (Redirect (original_url r)) 302)
             end)
            close))
    (fun e => ret (mkResponse (Text ("Server error: " ++ str_exn e)) 500)).

(** ** The lock among several threads

    The handlers above are followed one at a time. This is the lock
    discipline of the same code with any number of request threads
    interleaved: each thread has the list of what it still has to do, where
    only the operations on [lock] are told apart, and [lock] has at most one
    owner. [with lock:] is an [Acquire], the body, and a [Release]. *)

Module Threads.

Inductive Op :=
| Acquire
| Release
| Statement.

Definition Program : Type := list Op.

Record Pool := mkPool {
  owner : option nat;
  programs : list Program }.

Fixpoint set_nth (i : nat) (p : Program) (ps : list Program) : list Program :=
  match ps, i with
  | [], _ => []
  | _ :: ps', O => p :: ps'
  | q :: ps', S i' => q :: set_nth i' p ps'
  end.

(** One thread does its next operation. [Acquire] needs a free lock;
    [Release] is done by the owner, at the end of its [with] block. *)
Inductive step : Pool -> Pool -> Prop :=
| step_acquire (i : nat) (rest : Program) (ps : list Program) :
    nth_error ps i = Some (Acquire :: rest) ->
    step (mkPool None ps) (mkPool (Some i) (set_nth i rest ps))
| step_release (i : nat) (rest : Program) (ps : list Program) :
    nth_error ps i = Some (Release :: rest) ->
    step (mkPool (Some i) ps) (mkPool None (set_nth i rest ps))
| step_statement (i : nat) (rest : Program) (o : option nat) (ps : list Program) :
    nth_error ps i = Some (Statement :: rest) ->
    step (mkPool o ps) (mkPool o (set_nth i rest ps)).

Inductive steps : Pool -> Pool -> Prop :=
| steps_refl (p : Pool) : steps p p
| steps_next (p q r : Pool) : step p q -> steps q r -> steps p r.

(** The successful path of [shorten_url]: [with lock] (line 130), connect,
    SELECT, INSERT, commit, then [update_daily_stats] with its own
    [with lock] (line 71) around connect, SELECT, write, commit and close,
    then the response, close and the end of the outer [with]. *)
Definition shorten_success : Program :=
  [Acquire; Statement; Statement; Statement; Statement;
   Acquire; Statement; Statement; Statement; Statement; Statement; Release;
   Statement; Statement; Release].

(** The thread is at its second [Acquire] at the latest. *)
Definition not_past_inner_acquire (p : Program) : Prop :=
  exists k, k <= 5 /\ p = skipn k shorten_success.

End Threads.

(** ** Vocabulary of the specification *)

(** The allocation errors of the specification, and the response of
    [shorten_url] that reports each of them. *)
Inductive AllocError :=
| InvalidUrlError
| InvalidCodeFormatError
| CodeTakenError
| AllocationExhaustedError.

Definition allocation_error (r : Response) : option AllocError :=
  match body r with
  | JsonError msg =>
      if String.eqb msg "URL is required" then Some InvalidUrlError
      else if String.eqb msg "Invalid URL format. Must start with http:// or https://"
      then Some InvalidUrlError
      else if String.eqb msg
        "Custom code can only contain letters, numbers, hyphens, and underscores"
      then Some InvalidCodeFormatError
      else if String.eqb msg "Custom code must be 20 characters or less"
      then Some InvalidCodeFormatError
      else if String.eqb msg "Custom code already exists. Please choose a different one."
      then Some CodeTakenError
      else if String.eqb msg "Unable to generate unique short code. Please try again."
      then Some AllocationExhaustedError
      else None
  | _ => None
  end.

(** The run ended with the response that reports error [e]. *)
Definition fails_with (e : AllocError) (r : Result Response) : Prop :=
  exists resp w, r = Done resp w /\ allocation_error resp = Some e.

(** The code pattern read as the data model states it: one or more
    characters, all from the class. *)
Definition well_formed_code (s : string) : bool :=
  Str.nonempty s && Str.all Re.code_char s.

(** The character of [characters] at an index within range. *)
Definition char_at (i : nat) : ascii :=
  match String.get i characters with
  | Some c => c
  | None => " "%char
  end.

(** The code that [generate_short_code(length)] returns when [cursor]
    calls of [random.choice] precede it. *)
Fixpoint draw_code (env : Env) (length cursor : nat) : string :=
  match length with
  | O => EmptyString
  | S n =>
      String (char_at (choice env cursor mod String.length characters))
        (draw_code env n (S cursor))
  end.

(** The [i]-th candidate of a random allocation that starts at [cursor]. *)
Definition candidate (env : Env) (cursor i : nat) : string :=
  draw_code env 6 (cursor + 6 * i).

(** Sums over the [daily_stats] table. *)
Definition sum_urls_created (rows : list DailyRow) : Z :=
  fold_right (fun r acc => (urls_created r + acc)%Z) 0%Z rows.

Definition sum_total_clicks (rows : list DailyRow) : Z :=
  fold_right (fun r acc => (total_clicks r + acc)%Z) 0%Z rows.

(** ** Names for worlds and responses *)

(** The world after [n] more draws and the storage accesses [evs], with
    the database, the pending transaction and the lock as they were. *)
Definition advance (w : World) (n : nat) (evs : list Event) : World :=
  mkWorld (db w) (txn w) (lock_held w) (draws w + n) (log w ++ evs).

(** The uniqueness queries for the first [n] candidates from [cursor]. *)
Definition candidate_selects (env : Env) (cursor n : nat) : list Event :=
  map (fun i => EvSelectUrl (candidate env cursor i)) (seq 0 n).

(** The uniqueness check reports "taken". *)
Definition taken (code : string) (d : Db) : Prop := find_url code d <> None.

(** The item of a JSON object for a field that is a string, none for a
    field that is missing. *)
Definition json_field (key : string) (raw : option string) : list (string * Json) :=
  match raw with
  | Some s => [(key, JString s)]
  | None => []
  end.

(** A POST of a JSON object with the given raw fields. *)
Definition post_request (root : string) (raw_url raw_code : option string) : Request :=
  mkRequest true
    (Some (JObject (json_field "url" raw_url ++ json_field "custom_code" raw_code)))
    root.

(** What [with lock] and [get_db_connection] make of a world with the lock
    free, and what leaving [try/finally] and [with lock] makes of the world
    the body ended in. *)
Definition entered (w : World) : World :=
  mkWorld (db w) None true (draws w) (log w ++ [EvConnect]).

Definition finished (w : World) : World :=
  mkWorld (db w) None false (draws w) (log w ++ [EvClose]).

(** The row that [insert_url] appends. *)
Definition new_row (env : Env) (d : Db) (code url : string) : UrlRow :=
  mkUrlRow (Z.max (urls_seq d) (max_id (urls d)) + 1) code url 0 (now env).

Definition server_error (e : Exn) : Response :=
  error_response ("Server error: " ++ str_exn e) 500.

Definition duplicate_code : Exn :=
  IntegrityError "UNIQUE constraint failed: urls.short_code".

Definition disk_full : Exn := OperationalError "database or disk is full".

(** The table [urls] has held the largest rowid: no INSERT gets an id. *)
Definition rowids_exhausted (d : Db) : bool :=
  (max_rowid <=? Z.max (urls_seq d) (max_id (urls d)))%Z.

(** The exception with which sqlite refuses the INSERT of a mapping for
    [code] into [d]; [None] when the row is written. *)
Definition insert_refused (code : string) (d : Db) : option Exn :=
  if rowids_exhausted d then Some disk_full
  else match find_url code d with
       | Some _ => Some duplicate_code
       | None => None
       end.

Definition exhausted_response : Response :=
  error_response "Unable to generate unique short code. Please try again." 500.

Definition bad_characters_response : Response :=
  error_response
    "Custom code can only contain letters, numbers, hyphens, and underscores" 400.

Definition too_long_response : Response :=
  error_response "Custom code must be 20 characters or less" 400.

Definition code_taken_response : Response :=
  error_response "Custom code already exists. Please choose a different one." 400.

Definition url_required_response : Response :=
  error_response "URL is required" 400.

Definition invalid_url_response : Response :=
  error_response "Invalid URL format. Must start with http:// or https://" 400.

(** The status with which [shorten_url] reports each allocation error. *)
Definition reported_status (e : AllocError) : nat :=
  match e with
  | AllocationExhaustedError => 500
  | _ => 400
  end.

(** A 4xx status. *)
Definition client_error (status : nat) : Prop := 400 <= status < 500.

(** The acceptance condition in the words of the specification: not
    empty, parses as an absolute URL, scheme http or https, host not empty.
    The host is the [hostname] of the parse result. *)
Definition acceptable_by_spec (env : Env) (url : string) : bool :=
  Str.nonempty url
  && match Urllib.urlparse env url with
     | Some p =>
         (String.eqb (Urllib.scheme p) "http" || String.eqb (Urllib.scheme p) "https")
         && match Urllib.hostname p with
            | Some _ => true
            | None => false
            end
     | None => false
     end.

(** The last character of a text. *)
Fixpoint last_char (s : string) : option ascii :=
  match s with
  | EmptyString => None
  | String c EmptyString => Some c
  | String _ s' => last_char s'
  end.

(** [a] may stand before [b] in a listing by decreasing timestamp. *)
Definition not_older (a b : UrlRow) : Prop := (created_at b <= created_at a)%Z.

Definition cleared_response : Response :=
  mkResponse (JsonMessage "All data cleared successfully") 200.

(** The clicks of the items of a listing, added up. *)
Definition sum_item_clicks (items : list RecentItem) : Z :=
  fold_right (fun i acc => (item_clicks i + acc)%Z) 0%Z items.

(** ** Invariants of the store *)

(** A letter or a digit: the characters [generate_short_code] draws from. *)
Definition alphanumeric (c : ascii) : bool :=
  Str.islower_ascii c || Str.isupper_ascii c || Str.isdigit_ascii c.

(** The short codes and the dates in the store, in table order. *)
Definition codes (d : Db) : list string := map short_code (urls d).

Definition dates (d : Db) : list string := map date (daily_stats d).

(** The UNIQUE constraint on [urls.short_code] and the primary key of
    [daily_stats]. *)
Definition unique_codes (d : Db) : Prop := NoDup (codes d).

Definition unique_dates (d : Db) : Prop := NoDup (dates d).

(** A code as the data model wants it: over the class, 1 to 20 characters. *)
Definition valid_code (s : string) : Prop :=
  well_formed_code s = true /\ String.length s <= 20.

Definition codes_valid (d : Db) : Prop := Forall valid_code (codes d).

(** No row has an id above the AUTOINCREMENT counter. *)
Definition ids_counted (d : Db) : Prop :=
  Forall (fun r => (id r <= urls_seq d)%Z) (urls d).

(** The database after the INSERT of [shorten_url] is committed on [d]. *)
Definition with_mapping (env : Env) (d : Db) (code url : string) : Db :=
  mkDb (urls d ++ [new_row env d code url])
       (Z.max (urls_seq d) (max_id (urls d)) + 1) (daily_stats d).

(** The database after the UPDATE of [redirect_to_url] is committed. *)
Definition with_click (d : Db) (code : string) : Db :=
  mkDb (map (bump_clicks code) (urls d)) (urls_seq d) (daily_stats d).

(** The database after [update_daily_stats] has committed on [d]. *)
Definition with_daily (d : Db) (day : string) (created clicked : Z) : Db :=
  match find_daily day d with
  | Some _ =>
      mkDb (urls d) (urls_seq d) (map (add_daily day created clicked) (daily_stats d))
  | None =>
      mkDb (urls d) (urls_seq d) (daily_stats d ++ [mkDailyRow day created clicked])
  end.

(** The counters of a day as [get_stats] reports them: zero without a row. *)
Definition created_on (day : string) (d : Db) : Z :=
  match find_daily day d with
  | Some r => urls_created r
  | None => 0%Z
  end.

Definition clicked_on (day : string) (d : Db) : Z :=
  match find_daily day d with
  | Some r => total_clicks r
  | None => 0%Z
  end.

(** The ids in the store are counted and pairwise different. *)
Definition ids_ok (d : Db) : Prop :=
  ids_counted d /\ NoDup (map id (urls d)).

(** The store emptied by [clear_all_data]. *)
Definition cleared (d : Db) : Db := mkDb [] (urls_seq d) [].

(** How a run that started in [w] stands to the lock: if it returned,
    the lock is as it was found; no exception came out; if it is stuck, the
    lock is held. *)
Definition lock_outcome {A} (r : Result A) (w : World) : Prop :=
  match r with
  | Done _ w' => lock_held w' = lock_held w
  | Raised _ _ => False
  | Blocked w' => lock_held w' = true
  end.

(** The step of [urlsplit] that cuts the network location off a text that
    starts with two slashes ([None] for ValueError), by itself. *)
Definition authority (env : Env) (url : string) : option (string * string) :=
  match url with
  | String "/" (String "/" rest) =>
      let '(netloc, url') := Urllib._splitnetloc rest in
      let lb := Str.contains "[" netloc in
      let rb := Str.contains "]" netloc in
      if (lb && negb rb) || (rb && negb lb) then None
      else if lb && rb && negb (Urllib._check_bracketed_netloc env netloc) then None
      else Some (netloc, url')
  | _ => Some (EmptyString, url)
  end.

(** The text that [urlsplit] works on: leading control characters and
    spaces stripped, tabs and line breaks removed. *)
Definition normalised (url : string) : string :=
  Str.remove Urllib.unsafe_byte (Str.lstrip Urllib.c0_control_or_space url).

(** A character that may stand in a host without ending the network
    location and without any further check: ASCII, printable, none of
    [/?#] and no bracket. *)
Definition plain (c : ascii) : bool :=
  Str.isascii c && (32 <? Str.code c)%nat && negb (Urllib.netloc_delim c)
  && negb (Ascii.eqb c "[") && negb (Ascii.eqb c "]").

(** A text followed by one line feed. *)
Definition with_line_feed (s : string) : string := s ++ String Re.LF EmptyString.

(** ** Sample inputs *)

Module Sample.

(** A quiet environment: nobody else writes, the random source counts up. *)
Definition env : Env :=
  mkEnv "2024-05-01" 1714557600 (fun k => k) (fun d => d)
    (fun _ => false) (fun _ => true)
    "The browser (or proxy) sent a request that this server could not understand.".

Definition post (url : string) (custom_code : option string) : Request :=
  post_request "http://localhost:5000/" (Some url) custom_code.

Definition row (i : Z) (code url : string) (t : Z) : UrlRow :=
  mkUrlRow i code url 0 t.

(** One mapping, created by an earlier run of the service. *)
Definition one_mapping : Db :=
  mkDb [row 1 "abc123" "https://x.com" 1714550000] 1 [].

(** A random source that always picks the first character, and a store
    that already holds the only code it can produce. *)
Definition stuck_env : Env :=
  mkEnv "2024-05-01" 1714557600 (fun _ => 0) (fun d => d)
    (fun _ => false) (fun _ => true)
    "The browser (or proxy) sent a request that this server could not understand.".

Definition aaaaaa_taken : Db :=
  mkDb [row 1 "aaaaaa" "https://x.com" 1714550000] 1 [].

(** A store holding the first two codes of the counting random source. *)
Definition two_taken : Db :=
  mkDb [row 1 "abcdef" "https://x.com" 1714550000;
        row 2 "ghijkl" "https://y.org" 1714550001] 2 [].

(** Two mappings created within the same second, [first1] before
    [second2]. *)
Definition same_second : Db :=
  mkDb [row 1 "first1" "https://x.com" 1714557600;
        row 2 "second2" "https://y.org" 1714557600] 2 [].


(** Another process inserts [code] between check and insert. *)
Definition racing_env (code : string) : Env :=
  mkEnv "2024-05-01" 1714557600 (fun k => k)
    (fun d => mkDb (urls d ++ [row (urls_seq d + 1) code "https://other.example" 1714557600])
                   (urls_seq d + 1) (daily_stats d))
    (fun _ => false) (fun _ => true)
    "The browser (or proxy) sent a request that this server could not understand.".

(** The path [/abc%0A]: three letters and a final line feed. *)
Definition abc_lf : string := "abc" ++ String Re.LF EmptyString.

(** An empty table [urls] that once held the row with the largest rowid. *)
Definition no_rowid_left : Db := mkDb [] max_rowid [].


End Sample.

(** Further sample inputs. *)
Module Cases.

(** A store with one mapping and one day of statistics. *)
Definition one_day : Db :=
  mkDb [Sample.row 1 "abc123" "https://x.com" 1714550000] 1
       [mkDailyRow "2024-05-01" 1 0].

(** Three mappings, the second with five clicks, and two days. *)
Definition busy : Db :=
  mkDb [mkUrlRow 1 "abc123" "https://x.com" 2 1714550000;
        mkUrlRow 2 "promo" "https://y.org/sale" 5 1714553600;
        mkUrlRow 4 "Zz9_-" "http://z.example/" 0 1714557000] 4
       [mkDailyRow "2024-04-30" 2 4; mkDailyRow "2024-05-01" 1 3].

(** Two request threads: one on the successful path of [shorten_url], one
    in [clear_all_data]. *)
Definition two_requests : Threads.Pool :=
  Threads.mkPool None
    [Threads.shorten_success;
     [Threads.Acquire; Threads.Statement; Threads.Statement; Threads.Statement;
      Threads.Statement; Threads.Statement; Threads.Release]].

End Cases.

(** * Properties *)

(** Unfolds the statement layer, down to functions on worlds. *)
Ltac unfold_statements :=
  unfold with_lock, try_finally, try_except, get_db_connection, select_url,
    select_daily, update_daily, insert_daily, update_clicks, delete_urls,
    delete_daily, select_recent, insert_url, others_commit, commit, close,
    emit, read_view, set_txn, raise, ret, view, bind.

(** ** The lock *)

Lemma with_lock_held {A} (body : M A) (w : World) :
  lock_held w = true -> with_lock body w = Blocked w.
Proof. intros H. unfold with_lock. now rewrite H. Qed.

(** Called with [lock] held, [update_daily_stats] waits for it and touches
    nothing. *)
Lemma update_daily_stats_held (env : Env) (created clicked : Z) (w : World) :
  lock_held w = true -> update_daily_stats env created clicked w = Blocked w.
Proof. intros H. unfold update_daily_stats. now apply with_lock_held. Qed.

(** With [lock] free it returns, having added to today's row. *)
Lemma update_daily_stats_free (env : Env) (created clicked : Z) (w : World) :
  lock_held w = false ->
  exists w', update_daily_stats env created clicked w = Done tt w'
             /\ lock_held w' = false /\ urls (db w') = urls (db w).
Proof.
  intros H. destruct w as [d t l n lg]. simpl in H. subst l.
  unfold update_daily_stats. unfold_statements; cbn.
  destruct (find_daily (today env) d) eqn:E; cbn; rewrite ?E; cbn;
    eexists; repeat split; reflexivity.
Qed.

(** C1. The specification lets every operation complete or fail; the
    handlers do neither once they have written. [shorten_url] inserts and
    commits the mapping under [with lock] and then calls
    [update_daily_stats], which waits for the same lock: the request for
    https://x.com on an empty store never returns. [redirect_to_url] does
    the same after the click increment. *)
Theorem handlers_wait_for_their_own_lock :
  shorten_url Sample.env (Sample.post "https://x.com" None) (fresh_world empty_db)
  = Blocked (mkWorld
      (mkDb [mkUrlRow 1 "abcdef" "https://x.com" 0 1714557600] 1 [])
      None true 6
      [EvConnect; EvSelectUrl "abcdef"; EvInsertUrl "abcdef" "https://x.com"; EvCommit])
  /\ redirect_to_url Sample.env "abc123" (fresh_world Sample.one_mapping)
  = Blocked (mkWorld
      (mkDb [mkUrlRow 1 "abc123" "https://x.com" 1 1714550000] 1 [])
      None true 0
      [EvConnect; EvSelectUrl "abc123"; EvUpdateClicks "abc123"; EvCommit]).
Proof. split; vm_compute; reflexivity. Qed.

(** C2. After the redirect of an existing code the click is committed on
    the mapping and no daily row has it: the read API reports one click in
    total and none today, and the sums over the two tables differ; a
    process started afterwards on the same file, with nothing in flight,
    reads the same. The creation counter is left behind in the same way. *)
Theorem click_committed_without_daily_total :
  (let w := final_world
              (redirect_to_url Sample.env "abc123" (fresh_world Sample.one_mapping)) in
   sum_clicks (urls (db w)) = 1%Z
   /\ sum_total_clicks (daily_stats (db w)) = 0%Z
   /\ returned (get_stats Sample.env w) = Some (mkResponse (JsonStats 1 1 0 0) 200)
   /\ returned (get_stats Sample.env (fresh_world (db w)))
      = Some (mkResponse (JsonStats 1 1 0 0) 200))
  /\
  (let w := final_world
              (shorten_url Sample.env (Sample.post "https://x.com" None)
                 (fresh_world empty_db)) in
   List.length (urls (db w)) = 1
   /\ sum_urls_created (daily_stats (db w)) = 0%Z
   /\ returned (get_stats Sample.env w) = Some (mkResponse (JsonStats 1 0 0 0) 200)).
Proof. repeat split; vm_compute; reflexivity. Qed.

(** C10. A code made of three letters and a final line feed is not a
    string over the class, yet [re.match] accepts it: the handler takes the
    lock, runs the SELECT and answers with the not-found page. *)
Theorem trailing_line_feed_reaches_lookup :
  well_formed_code Sample.abc_lf = false
  /\ Re.match_code Sample.abc_lf = true
  /\ redirect_to_url Sample.env Sample.abc_lf (fresh_world empty_db)
     = Done (mkResponse NotFoundPage 404)
         (mkWorld empty_db None false 0
            [EvConnect; EvSelectUrl Sample.abc_lf; EvClose]).
Proof. repeat split; vm_compute; reflexivity. Qed.

(** ** The random source and the retry loop *)

Lemma get_in_range (s : string) :
  forall i, i < String.length s -> exists c, String.get i s = Some c.
Proof.
  induction s as [|a s IH]; intros i Hi; simpl in *.
  - lia.
  - destruct i as [|i]; [eauto|]. apply IH. lia.
Qed.

Lemma random_choice_characters (env : Env) (w : World) :
  random_choice env characters w
  = Done (char_at (choice env (draws w) mod String.length characters))
      (mkWorld (db w) (txn w) (lock_held w) (S (draws w)) (log w)).
Proof.
  unfold random_choice, char_at.
  destruct (get_in_range characters
              (choice env (draws w) mod String.length characters)) as [c Hc].
  - apply Nat.mod_upper_bound. discriminate.
  - now rewrite Hc.
Qed.

Lemma advance_0_nil (w : World) : advance w 0 [] = w.
Proof.
  destruct w; unfold advance; simpl. now rewrite Nat.add_0_r, app_nil_r.
Qed.

Lemma advance_advance (w : World) (n m : nat) (e f : list Event) :
  advance (advance w n e) m f = advance w (n + m) (e ++ f).
Proof.
  unfold advance; simpl. now rewrite Nat.add_assoc, app_assoc.
Qed.

Lemma view_advance (w : World) (n : nat) (e : list Event) :
  view (advance w n e) = view w.
Proof. reflexivity. Qed.

(** [generate_short_code] always returns, and consumes [length] draws. *)
Lemma generate_short_code_run (env : Env) (n : nat) :
  forall w, generate_short_code env n w
            = Done (draw_code env n (draws w)) (advance w n []).
Proof.
  induction n as [|n IH]; intros w.
  - cbn. now rewrite advance_0_nil.
  - cbn [generate_short_code draw_code]. unfold bind at 1.
    rewrite random_choice_characters. unfold bind at 1. rewrite IH.
    unfold ret, advance; cbn. do 2 f_equal. lia.
Qed.

Lemma select_url_run (code : string) (w : World) :
  select_url code w = Done (find_url code (view w)) (advance w 0 [EvSelectUrl code]).
Proof.
  unfold select_url, emit, read_view, ret, bind, advance, view; cbn.
  now rewrite Nat.add_0_r.
Qed.

(** One turn of the loop: a candidate is drawn and looked up. *)
Lemma random_loop_step (env : Env) (todo attempts : nat) (sc : string) (w : World) :
  random_loop env (S todo) attempts sc w
  = let c := candidate env (draws w) 0 in
    let w1 := advance w 6 [EvSelectUrl c] in
    match find_url c (view w) with
    | None => Done (attempts, c) w1
    | Some _ => random_loop env todo (S attempts) c w1
    end.
Proof.
  cbn [random_loop]. unfold bind at 1. rewrite generate_short_code_run.
  unfold bind at 1. rewrite select_url_run, view_advance, advance_advance.
  unfold candidate. rewrite Nat.mul_0_r, !Nat.add_0_r. cbn [app].
  destruct (find_url _ (view w)); reflexivity.
Qed.

Lemma candidate_shift (env : Env) (cursor i : nat) :
  candidate env (cursor + 6) i = candidate env cursor (S i).
Proof. unfold candidate. f_equal. lia. Qed.

Lemma candidate_selects_S (env : Env) (cursor n : nat) :
  candidate_selects env cursor (S n)
  = EvSelectUrl (candidate env cursor 0) :: candidate_selects env (cursor + 6) n.
Proof.
  unfold candidate_selects. cbn [seq map]. f_equal.
  rewrite <- seq_shift, map_map. apply map_ext. intros i.
  now rewrite candidate_shift.
Qed.

(** Every candidate taken: the loop runs its whole variant. *)
Lemma random_loop_all_taken (env : Env) (todo : nat) :
  forall attempts sc w,
    (forall i, i < todo -> taken (candidate env (draws w) i) (view w)) ->
    exists last,
      random_loop env todo attempts sc w
      = Done (attempts + todo, last)
          (advance w (6 * todo) (candidate_selects env (draws w) todo)).
Proof.
  induction todo as [|todo IH]; intros attempts sc w Hall.
  - exists sc. cbn. now rewrite Nat.add_0_r, advance_0_nil.
  - rewrite random_loop_step. cbv zeta.
    destruct (find_url (candidate env (draws w) 0) (view w)) eqn:E.
    + destruct (IH (S attempts) (candidate env (draws w) 0)
                  (advance w 6 [EvSelectUrl (candidate env (draws w) 0)]))
        as [last Hlast].
      * intros i Hi. rewrite view_advance. cbn [advance draws].
        rewrite candidate_shift. apply Hall. lia.
      * exists last. rewrite Hlast, advance_advance, candidate_selects_S.
        cbn [advance draws app]. do 2 f_equal; lia.
    + exfalso. apply (Hall 0); [lia | exact E].
Qed.

(** The first free candidate ends the loop. *)
Lemma random_loop_first_free (env : Env) (todo : nat) :
  forall k attempts sc w,
    k < todo ->
    (forall i, i < k -> taken (candidate env (draws w) i) (view w)) ->
    find_url (candidate env (draws w) k) (view w) = None ->
    random_loop env todo attempts sc w
    = Done (attempts + k, candidate env (draws w) k)
        (advance w (6 * S k) (candidate_selects env (draws w) (S k))).
Proof.
  induction todo as [|todo IH]; intros k attempts sc w Hk Htaken Hfree; [lia|].
  rewrite random_loop_step. cbv zeta.
  destruct k as [|k].
  - rewrite Hfree, Nat.add_0_r. reflexivity.
  - destruct (find_url (candidate env (draws w) 0) (view w)) eqn:E.
    + rewrite (IH k); cbn [advance draws]; rewrite ?view_advance.
      * rewrite advance_advance, candidate_shift,
          (candidate_selects_S env (draws w) (S k)).
        cbn [app]. do 2 f_equal; lia.
      * lia.
      * intros i Hi. rewrite candidate_shift. apply Htaken. lia.
      * now rewrite candidate_shift.
    + exfalso. apply (Htaken 0); [lia | exact E].
Qed.

(** ** [shorten_url], step by step *)

(** The two fields of a JSON object whose fields are strings or missing. *)
Lemma or_empty_strip_string (s : string) (w : World) :
  or_empty_strip (JString s) w = Done (Str.strip s) w.
Proof. unfold or_empty_strip. cbn [truthy]. now destruct s. Qed.

(** What the body of the [try] does with such a request. *)
Lemma shorten_body_post (env : Env) (root : string)
  (raw_url raw_code : option string) (w : World) :
  shorten_body env (post_request root raw_url raw_code) w
  = (let url := Str.strip (or_empty raw_url) in
     if negb (Str.nonempty url) then ret url_required_response
     else if negb (is_valid_url env url) then ret invalid_url_response
     else shorten_locked env (post_request root raw_url raw_code) url
            (Str.strip (or_empty raw_code))) w.
Proof.
  unfold shorten_body, post_request, get_json, dict_get.
  cbn [is_json parsed_body negb]. unfold bind at 1, ret at 1.
  assert (Hnull : or_empty_strip JNull w = Done (Str.strip EmptyString) w)
    by reflexivity.
  destruct raw_url as [u|], raw_code as [c|];
    cbn [json_field app dict_lookup String.eqb Ascii.eqb Bool.eqb or_empty];
    unfold bind, ret;
    repeat (rewrite ?or_empty_strip_string, ?Hnull; cbv beta iota);
    reflexivity.
Qed.

(** A request that passes the checks before [with lock] goes on to the
    locked part. *)
Lemma shorten_url_validated (env : Env) (root : string)
  (raw_url raw_code : option string) (w : World) :
  Str.nonempty (Str.strip (or_empty raw_url)) = true ->
  is_valid_url env (Str.strip (or_empty raw_url)) = true ->
  shorten_url env (post_request root raw_url raw_code) w
  = try_except
      (shorten_locked env (post_request root raw_url raw_code)
         (Str.strip (or_empty raw_url)) (Str.strip (or_empty raw_code)))
      (fun e => ret (server_error e)) w.
Proof.
  intros Hne Hvalid. unfold shorten_url, try_except.
  rewrite shorten_body_post. cbv zeta. now rewrite Hne, Hvalid.
Qed.

(** A request that does not pass them is answered with status 400, and
    nothing else happens. *)
Lemma shorten_url_rejected (env : Env) (root : string)
  (raw_url raw_code : option string) (w : World) :
  Str.nonempty (Str.strip (or_empty raw_url)) = false
  \/ is_valid_url env (Str.strip (or_empty raw_url)) = false ->
  shorten_url env (post_request root raw_url raw_code) w
  = Done (if Str.nonempty (Str.strip (or_empty raw_url))
          then invalid_url_response else url_required_response) w.
Proof.
  intros H. unfold shorten_url, try_except.
  rewrite shorten_body_post. cbv zeta.
  destruct (Str.nonempty (Str.strip (or_empty raw_url))); cbn [negb]; [|reflexivity].
  destruct H as [H | H]; [discriminate|]. now rewrite H.
Qed.

Lemma or_empty_strip_cases (v : Json) (w : World) :
  (exists s, or_empty_strip v w = Done (Str.strip s) w)
  \/ or_empty_strip v w = Raised (no_attribute v "strip") w.
Proof.
  unfold or_empty_strip. destruct (truthy v); [|left; now exists EmptyString].
  destruct v; try (right; reflexivity). left. now exists s.
Qed.

(** Every request: the body of the [try] answers with one of four fixed
    responses, or raises before the lock is taken, or goes on to the locked
    part with a trimmed URL that passed [is_valid_url] and a trimmed custom
    code. *)
Lemma shorten_body_cases (env : Env) (request : Request) (w : World) :
  (exists resp,
     shorten_body env request w = Done resp w
     /\ (resp = error_response "Content-Type must be application/json" 400
         \/ resp = error_response "Invalid JSON data" 400
         \/ resp = url_required_response \/ resp = invalid_url_response))
  \/ (exists e,
        shorten_body env request w = Raised e w
        /\ (e = BadRequest (json_failure env) \/ exists v attr, e = no_attribute v attr))
  \/ (exists raw_url raw_code,
        Str.nonempty (Str.strip raw_url) = true
        /\ is_valid_url env (Str.strip raw_url) = true
        /\ shorten_body env request w
           = shorten_locked env request (Str.strip raw_url) (Str.strip raw_code) w).
Proof.
  remember (shorten_body env request w) as r eqn:Hr. unfold shorten_body in Hr.
  destruct (is_json request); cbn [negb] in Hr;
    [|subst r; left; eexists; split; [reflexivity | auto]].
  unfold get_json, bind, ret, raise in Hr.
  destruct (parsed_body request) as [data|];
    [|subst r; right; left; eexists; split; [reflexivity | auto]].
  destruct data as [| b | n | z | s | items | members];
    unfold dict_get, ret, raise in Hr;
    try (subst r; right; left; eexists; split;
         [reflexivity | right; now eexists _, _]).
  - subst r. left. eexists. split; [reflexivity | auto].
  - destruct (or_empty_strip_cases
                (match dict_lookup "url" members with Some v => v | None => JNull end) w)
      as [[raw_url Hurl] | Hurl]; rewrite Hurl in Hr;
      [|subst r; right; left; eexists; split;
        [reflexivity | right; now eexists _, _]].
    destruct (or_empty_strip_cases
                (match dict_lookup "custom_code" members with
                 | Some v => v
                 | None => JNull
                 end) w)
      as [[raw_code Hcode] | Hcode]; rewrite Hcode in Hr;
      [|subst r; right; left; eexists; split;
        [reflexivity | right; now eexists _, _]].
    destruct (Str.nonempty (Str.strip raw_url)) eqn:Hne; cbn [negb] in Hr;
      [|subst r; left; eexists; split; [reflexivity | auto]].
    destruct (is_valid_url env (Str.strip raw_url)) eqn:Hv; cbn [negb] in Hr;
      [|subst r; left; eexists; split; [reflexivity | auto 6]].
    right; right. now exists raw_url, raw_code.
Qed.

(** Insert, commit and the call of [update_daily_stats], with the lock
    held: either the INSERT raises, or the row is committed and the handler
    waits. *)
Lemma store_mapping_run (env : Env) (request : Request) (code url : string) (w : World) :
  lock_held w = true -> txn w = None ->
  store_mapping env request code url w
  = let d := concurrent_writer env (db w) in
    match insert_refused code d with
    | Some e =>
        Raised e (mkWorld d None true (draws w) (log w ++ [EvInsertUrl code url]))
    | None =>
        Blocked
          (mkWorld (mkDb (urls d ++ [new_row env d code url])
                         (Z.max (urls_seq d) (max_id (urls d)) + 1) (daily_stats d))
             None true (draws w) (log w ++ [EvInsertUrl code url; EvCommit]))
    end.
Proof.
  destruct w as [d t l n lg]. cbn [lock_held txn]. intros -> ->.
  unfold store_mapping, insert_refused, rowids_exhausted. unfold_statements; cbn.
  destruct (max_rowid <=? Z.max (urls_seq (concurrent_writer env d))
                            (max_id (urls (concurrent_writer env d))))%Z; cbn;
    [reflexivity|].
  destruct (find_url code (concurrent_writer env d)) eqn:E; cbn; rewrite ?E; cbn.
  - reflexivity.
  - unfold new_row. now rewrite <- app_assoc.
Qed.

(** The locked part, given how the choice of the code ends. *)
Lemma shorten_locked_early (env : Env) (request : Request) (url custom : string)
  (w w1 : World) (resp : Response) :
  lock_held w = false ->
  choose_short_code env custom (entered w) = Done (inl resp) w1 ->
  shorten_locked env request url custom w = Done resp (finished w1).
Proof.
  intros Hfree Hchoose.
  unfold shorten_locked, with_lock, try_finally, get_db_connection, bind.
  rewrite Hfree. cbn [db txn lock_held draws log].
  unfold entered in Hchoose. rewrite Hchoose. reflexivity.
Qed.

Lemma shorten_locked_chosen (env : Env) (request : Request) (url custom : string)
  (w w1 : World) (code : string) :
  lock_held w = false ->
  choose_short_code env custom (entered w) = Done (inr code) w1 ->
  lock_held w1 = true -> txn w1 = None ->
  shorten_locked env request url custom w
  = let d := concurrent_writer env (db w1) in
    match insert_refused code d with
    | Some e =>
        Raised e
          (mkWorld d None false (draws w1)
             (log w1 ++ [EvInsertUrl code url; EvClose]))
    | None =>
        Blocked
          (mkWorld (mkDb (urls d ++ [new_row env d code url])
                         (Z.max (urls_seq d) (max_id (urls d)) + 1) (daily_stats d))
             None true (draws w1) (log w1 ++ [EvInsertUrl code url; EvCommit]))
    end.
Proof.
  intros Hfree Hchoose Hheld Htxn.
  unfold shorten_locked, with_lock, try_finally, get_db_connection, bind.
  rewrite Hfree. cbn [db txn lock_held draws log].
  unfold entered in Hchoose. rewrite Hchoose.
  rewrite store_mapping_run by assumption. cbv zeta.
  destruct (insert_refused code (concurrent_writer env (db w1))); [|reflexivity].
  unfold close, raise; cbn. now rewrite <- app_assoc.
Qed.

(** What the INSERT is refused with. *)
Lemma insert_refused_cases (code : string) (d : Db) (e : Exn) :
  insert_refused code d = Some e -> e = duplicate_code \/ e = disk_full.
Proof.
  unfold insert_refused. destruct (rowids_exhausted d).
  - intros H; inversion H; auto.
  - destruct (find_url code d); intros H; inversion H; auto.
Qed.

Lemma insert_refused_none (code : string) (d : Db) :
  insert_refused code d = None
  <-> rowids_exhausted d = false /\ find_url code d = None.
Proof.
  unfold insert_refused. destruct (rowids_exhausted d).
  - split; [discriminate | intros [H _]; discriminate].
  - destruct (find_url code d); split; try discriminate; auto.
    intros [_ H]; discriminate.
Qed.

(** No text of the catch-all handler is the reason of an allocation
    error. *)
Lemma server_error_is_no_allocation_error (e : Exn) :
  allocation_error (server_error e) = None.
Proof. reflexivity. Qed.

(** ** The choice of the code *)

Lemma choose_random_exhausted (env : Env) (w : World) :
  (forall i, i < 10 -> taken (candidate env (draws w) i) (view w)) ->
  choose_short_code env EmptyString w
  = Done (inl exhausted_response)
      (advance w 60 (candidate_selects env (draws w) 10)).
Proof.
  intros Hall. unfold choose_short_code. cbn [Str.nonempty]. unfold bind.
  destruct (random_loop_all_taken env 10 0 EmptyString w Hall) as [last Hlast].
  rewrite Hlast. reflexivity.
Qed.

Lemma choose_random_first_free (env : Env) (w : World) (k : nat) :
  k < 10 ->
  (forall i, i < k -> taken (candidate env (draws w) i) (view w)) ->
  find_url (candidate env (draws w) k) (view w) = None ->
  choose_short_code env EmptyString w
  = Done (inr (candidate env (draws w) k))
      (advance w (6 * S k) (candidate_selects env (draws w) (S k))).
Proof.
  intros Hk Htaken Hfree. unfold choose_short_code. cbn [Str.nonempty].
  unfold bind. rewrite (random_loop_first_free env 10 k 0) by assumption.
  cbn [Nat.add]. destruct (Nat.leb_spec 10 k); [lia | reflexivity].
Qed.

(** C3. Random path. If the uniqueness check finds every candidate taken,
    the request ends with the exhaustion response after exactly ten
    candidates: sixty draws of [random.choice] and ten lookups, then the
    connection is closed and nothing is inserted. If the first [k]
    candidates are taken and the next one is free ([k < 10]), the loop stops
    there: [k + 1] candidates are drawn and looked up, and the next storage
    access is the INSERT of that candidate. *)
Theorem random_allocation_retry_budget (env : Env) (root : string)
  (raw_url raw_code : option string) (w : World) :
  Str.nonempty (Str.strip (or_empty raw_url)) = true ->
  is_valid_url env (Str.strip (or_empty raw_url)) = true ->
  Str.strip (or_empty raw_code) = EmptyString ->
  lock_held w = false ->
  let request := post_request root raw_url raw_code in
  let cand := candidate env (draws w) in
  ((forall i, i < 10 -> taken (cand i) (db w)) ->
   shorten_url env request w
   = Done exhausted_response
       (mkWorld (db w) None false (draws w + 60)
          (log w ++ [EvConnect] ++ candidate_selects env (draws w) 10 ++ [EvClose]))
   /\ fails_with AllocationExhaustedError (shorten_url env request w)
   /\ List.length (candidate_selects env (draws w) 10) = 10)
  /\
  (forall k, k < 10 ->
     (forall i, i < k -> taken (cand i) (db w)) ->
     find_url (cand k) (db w) = None ->
     let w' := final_world (shorten_url env request w) in
     draws w' = draws w + 6 * S k
     /\ exists rest,
          log w' = (log w ++ [EvConnect] ++ candidate_selects env (draws w) (S k)
                    ++ EvInsertUrl (cand k) (Str.strip (or_empty raw_url)) :: rest)%list).
Proof.
  intros Hne Hvalid Hnone Hfree request cand. subst request cand.
  rewrite shorten_url_validated by assumption. rewrite Hnone.
  split.
  - intros Hall.
    assert (Hrun : try_except
              (shorten_locked env (post_request root raw_url raw_code)
                 (Str.strip (or_empty raw_url)) EmptyString)
              (fun e => ret (server_error e)) w
            = Done exhausted_response
                (mkWorld (db w) None false (draws w + 60)
                   (log w ++ [EvConnect] ++ candidate_selects env (draws w) 10
                    ++ [EvClose]))).
    { unfold try_except.
      rewrite (shorten_locked_early env _ _ _ w
                 (advance (entered w) 60 (candidate_selects env (draws w) 10))
                 exhausted_response Hfree).
      - unfold finished, advance, entered; cbn [db txn lock_held draws log].
        now rewrite <- !app_assoc.
      - apply (choose_random_exhausted env (entered w)). exact Hall. }
    rewrite Hrun. split; [reflexivity|]. split.
    + eexists _, _. split; reflexivity.
    + unfold candidate_selects. now rewrite length_map, length_seq.
  - intros k Hk Htaken Hfreek. cbv zeta. unfold try_except.
    rewrite (shorten_locked_chosen env _ _ _ w
               (advance (entered w) (6 * S k) (candidate_selects env (draws w) (S k)))
               (candidate env (draws w) k) Hfree);
      [| apply (choose_random_first_free env (entered w) k Hk Htaken Hfreek)
       | reflexivity | reflexivity].
    cbv zeta. unfold advance, entered; cbn [db txn lock_held draws log].
    destruct (insert_refused _ (concurrent_writer env (db w)));
      cbn [final_world ret draws log]; (split; [reflexivity|]).
    + exists [EvClose]. now rewrite <- !app_assoc.
    + exists [EvCommit]. now rewrite <- !app_assoc.
Qed.

Lemma random_allocation_retry_budget_witness :
  (lock_held (fresh_world Sample.aaaaaa_taken) = false
   /\ is_valid_url Sample.stuck_env "https://x.com" = true
   /\ forall i, i < 10 ->
        taken (candidate Sample.stuck_env 0 i) Sample.aaaaaa_taken)
  /\ shorten_url Sample.stuck_env (post_request "http://h/" (Some "https://x.com") None)
       (fresh_world Sample.aaaaaa_taken)
     = Done exhausted_response
         (mkWorld Sample.aaaaaa_taken None false 60
            ([EvConnect] ++ candidate_selects Sample.stuck_env 0 10 ++ [EvClose]))
  /\ draws (final_world
       (shorten_url Sample.env (post_request "http://h/" (Some "https://x.com") None)
          (fresh_world Sample.two_taken))) = 18.
Proof.
  assert (Hall : forall i, i < 10 ->
            taken (candidate Sample.stuck_env 0 i) Sample.aaaaaa_taken).
  { intros i Hi.
    do 10 (destruct i as [|i]; [vm_compute; discriminate|]). lia. }
  split; [repeat split; assumption|]. split.
  - pose proof (random_allocation_retry_budget Sample.stuck_env "http://h/"
                  (Some "https://x.com") None (fresh_world Sample.aaaaaa_taken)
                  eq_refl eq_refl eq_refl eq_refl) as [Hexhausted _].
    exact (proj1 (Hexhausted Hall)).
  - pose proof (random_allocation_retry_budget Sample.env "http://h/"
                  (Some "https://x.com") None (fresh_world Sample.two_taken)
                  eq_refl eq_refl eq_refl eq_refl) as [_ Hstop].
    refine (proj1 (Hstop 2 _ _ _)).
    + lia.
    + intros i Hi. do 2 (destruct i as [|i]; [vm_compute; discriminate|]). lia.
    + reflexivity.
Defined.

Lemma fails_with_done (e : AllocError) (resp : Response) (w : World) :
  fails_with e (Done resp w) <-> allocation_error resp = Some e.
Proof.
  split.
  - intros (resp' & w' & Heq & Herr). now inversion Heq; subst.
  - intros H. now exists resp, w.
Qed.

Lemma choose_custom_bad_characters (env : Env) (custom : string) (w : World) :
  Str.nonempty custom = true -> Re.match_code custom = false ->
  choose_short_code env custom w = Done (inl bad_characters_response) w.
Proof. intros Hne Hm. unfold choose_short_code. now rewrite Hne, Hm. Qed.

Lemma choose_custom_too_long (env : Env) (custom : string) (w : World) :
  Str.nonempty custom = true -> Re.match_code custom = true ->
  (20 <? String.length custom)%nat = true ->
  choose_short_code env custom w = Done (inl too_long_response) w.
Proof. intros Hne Hm Hl. unfold choose_short_code. now rewrite Hne, Hm, Hl. Qed.

Lemma choose_custom_lookup (env : Env) (custom : string) (w : World) :
  Str.nonempty custom = true -> Re.match_code custom = true ->
  (20 <? String.length custom)%nat = false ->
  choose_short_code env custom w
  = Done (match find_url custom (view w) with
          | Some _ => inl code_taken_response
          | None => inr custom
          end) (advance w 0 [EvSelectUrl custom]).
Proof.
  intros Hne Hm Hl. unfold choose_short_code. rewrite Hne, Hm, Hl.
  cbn [negb]. unfold bind. rewrite select_url_run.
  now destruct (find_url custom (view w)).
Qed.

(** Among the first [n] values of [f] either none is [None] or there is a
    first [None]. *)
Lemma first_none {A} (f : nat -> option A) (n : nat) :
  (forall i, i < n -> f i <> None)
  \/ exists k, k < n /\ (forall i, i < k -> f i <> None) /\ f k = None.
Proof.
  induction n as [|n [Hall | (k & Hk & Hbefore & Hnone)]].
  - left. intros i Hi. lia.
  - destruct (f n) eqn:E.
    + left. intros i Hi. destruct (Nat.eq_dec i n) as [->|Hne];
        [now rewrite E | apply Hall; lia].
    + right. exists n. repeat split; [lia | | exact E].
      intros i Hi. now apply Hall.
  - right. exists k. repeat split; [lia | exact Hbefore | exact Hnone].
Qed.

(** The choice of the code always ends: with one of four error responses,
    or with a code that the lookup under the lock did not find. It reads the
    store and the random source and writes neither the store nor the lock. *)
Lemma choose_short_code_total (env : Env) (custom : string) (w : World) :
  exists x n evs,
    choose_short_code env custom w = Done x (advance w n evs)
    /\ match x with
       | inl resp =>
           resp = bad_characters_response \/ resp = too_long_response
           \/ resp = code_taken_response \/ resp = exhausted_response
       | inr code => find_url code (view w) = None
       end.
Proof.
  destruct (Str.nonempty custom) eqn:Hne.
  - destruct (Re.match_code custom) eqn:Hm.
    + destruct (20 <? String.length custom)%nat eqn:Hl.
      * exists (inl too_long_response), 0, [].
        rewrite advance_0_nil, choose_custom_too_long by assumption. auto.
      * exists (match find_url custom (view w) with
                | Some _ => inl code_taken_response
                | None => inr custom
                end), 0, [EvSelectUrl custom].
        rewrite choose_custom_lookup by assumption.
        split; [reflexivity|]. destruct (find_url custom (view w)) eqn:E; auto.
    + exists (inl bad_characters_response), 0, [].
      rewrite advance_0_nil, choose_custom_bad_characters by assumption. auto.
  - destruct custom; [|discriminate].
    destruct (first_none (fun i => find_url (candidate env (draws w) i) (view w)) 10)
      as [Hall | (k & Hk & Hbefore & Hnone)].
    + eexists _, _, _. rewrite choose_random_exhausted by exact Hall.
      split; [reflexivity|]. cbn. do 3 right. reflexivity.
    + eexists _, _, _.
      rewrite (choose_random_first_free env w k Hk Hbefore Hnone).
      split; [reflexivity | exact Hnone].
Qed.

Lemma choose_short_code_frame (env : Env) (custom : string) (w w1 : World)
  (x : Response + string) :
  choose_short_code env custom w = Done x w1 ->
  db w1 = db w /\ txn w1 = txn w /\ lock_held w1 = lock_held w.
Proof.
  intros H. destruct (choose_short_code_total env custom w) as (y & n & evs & Hy & _).
  rewrite Hy in H. inversion H; subst. now repeat split.
Qed.

(** C4, as the code has it. When the chosen code is taken by the time of
    the INSERT (another process committed it since the lookup), neither
    path retries and neither reports a taken code: the exception that
    sqlite raises reaches the catch-all handler and the request ends with
    status 500 and the text of the exception. That exception is the
    IntegrityError of the UNIQUE constraint, unless the table has used up
    its rowids, which sqlite reports, as an OperationalError, before it
    looks at the constraint. No further candidate is drawn, nothing is
    written by the handler, and the lock is released. *)
Theorem lost_race_ends_in_server_error (env : Env) (root : string)
  (raw_url raw_code : option string) (w w1 : World) (code : string) :
  Str.nonempty (Str.strip (or_empty raw_url)) = true ->
  is_valid_url env (Str.strip (or_empty raw_url)) = true ->
  lock_held w = false ->
  choose_short_code env (Str.strip (or_empty raw_code)) (entered w)
  = Done (inr code) w1 ->
  taken code (concurrent_writer env (db w1)) ->
  let failure :=
    if rowids_exhausted (concurrent_writer env (db w1)) then disk_full
    else duplicate_code in
  shorten_url env (post_request root raw_url raw_code) w
  = Done (server_error failure)
      (mkWorld (concurrent_writer env (db w)) None false (draws w1)
         (log w1 ++ [EvInsertUrl code (Str.strip (or_empty raw_url)); EvClose]))
  /\ status (server_error failure) = 500
  /\ body (server_error duplicate_code)
     = JsonError "Server error: UNIQUE constraint failed: urls.short_code"
  /\ body (server_error disk_full)
     = JsonError "Server error: database or disk is full"
  /\ allocation_error (server_error failure) = None.
Proof.
  intros Hne Hvalid Hfree Hchoose Htaken. cbv zeta.
  destruct (choose_short_code_frame _ _ _ _ _ Hchoose) as (Hdb & Htxn & Hlock).
  cbn [entered db txn lock_held] in Hdb, Htxn, Hlock.
  rewrite shorten_url_validated by assumption. unfold try_except.
  rewrite (shorten_locked_chosen env _ _ _ w w1 code Hfree Hchoose Hlock Htxn).
  cbv zeta. unfold taken in Htaken. unfold insert_refused.
  destruct (rowids_exhausted (concurrent_writer env (db w1))).
  - rewrite Hdb. repeat split.
  - destruct (find_url code (concurrent_writer env (db w1))); [|contradiction].
    rewrite Hdb. repeat split.
Qed.

Lemma lost_race_ends_in_server_error_witness :
  (taken "ab" (concurrent_writer (Sample.racing_env "ab") empty_db)
   /\ taken "abcdef" (concurrent_writer (Sample.racing_env "abcdef") empty_db))
  /\ returned (shorten_url (Sample.racing_env "ab")
                 (post_request "http://h/" (Some "https://x.com") (Some "ab"))
                 (fresh_world empty_db))
     = Some (server_error duplicate_code)
  /\ returned (shorten_url (Sample.racing_env "abcdef")
                 (post_request "http://h/" (Some "https://x.com") None)
                 (fresh_world empty_db))
     = Some (server_error duplicate_code).
Proof.
  split; [split; vm_compute; discriminate|]. split.
  - rewrite (proj1 (lost_race_ends_in_server_error (Sample.racing_env "ab")
               "http://h/" (Some "https://x.com") (Some "ab")
               (fresh_world empty_db)
               (advance (entered (fresh_world empty_db)) 0 [EvSelectUrl "ab"]) "ab"
               eq_refl eq_refl eq_refl eq_refl
               ltac:(vm_compute; discriminate))).
    reflexivity.
  - rewrite (proj1 (lost_race_ends_in_server_error (Sample.racing_env "abcdef")
               "http://h/" (Some "https://x.com") None
               (fresh_world empty_db)
               (advance (entered (fresh_world empty_db)) 6 [EvSelectUrl "abcdef"])
               "abcdef"
               eq_refl eq_refl eq_refl eq_refl
               ltac:(vm_compute; discriminate))).
    reflexivity.
Defined.

(** C4, as stated, fails. Custom code [ab], free at the lookup and inserted
    by another process before the INSERT: the caller gets the 500 with the
    constraint message, not the taken-code response. Random path, first
    candidate lost in the same way: the same 500 after a single candidate
    (six draws), with no second candidate drawn. *)
Lemma lost_race_not_retried_not_code_taken :
  (let r := shorten_url (Sample.racing_env "ab")
              (post_request "http://h/" (Some "https://x.com") (Some "ab"))
              (fresh_world empty_db) in
   find_url "ab" empty_db = None
   /\ returned r = Some (server_error duplicate_code)
   /\ ~ fails_with CodeTakenError r)
  /\
  (let r := shorten_url (Sample.racing_env "abcdef")
              (post_request "http://h/" (Some "https://x.com") None)
              (fresh_world empty_db) in
   returned r = Some (server_error duplicate_code)
   /\ draws (final_world r) = 6
   /\ ~ fails_with AllocationExhaustedError r).
Proof.
  split; cbv zeta.
  - repeat split; try (vm_compute; reflexivity).
    intros (resp & w & Heq & Herr). vm_compute in Heq. inversion Heq; subst.
    vm_compute in Herr. discriminate.
  - repeat split; try (vm_compute; reflexivity).
    intros (resp & w & Heq & Herr). vm_compute in Heq. inversion Heq; subst.
    vm_compute in Herr. discriminate.
Qed.

(** ** Every way [shorten_url] can end *)

Lemma shorten_locked_outcomes (env : Env) (request : Request) (url custom : string)
  (w : World) :
  match shorten_locked env request url custom w with
  | Done resp _ =>
      resp = bad_characters_response \/ resp = too_long_response
      \/ resp = code_taken_response \/ resp = exhausted_response
  | Raised e _ => e = duplicate_code \/ e = disk_full
  | Blocked _ => True
  end.
Proof.
  destruct (lock_held w) eqn:Hlock.
  - unfold shorten_locked. now rewrite with_lock_held.
  - destruct (choose_short_code_total env custom (entered w))
      as (x & n & evs & Hchoose & Hx).
    destruct x as [resp | code].
    + now rewrite (shorten_locked_early env request url custom w _ resp Hlock Hchoose).
    + rewrite (shorten_locked_chosen env request url custom w _ code Hlock Hchoose)
        by reflexivity.
      cbv zeta. clear Hx.
      destruct (insert_refused code (concurrent_writer env _)) eqn:E; [|exact I].
      eapply insert_refused_cases, E.
Qed.

(** The responses [shorten_url] can return. A success response is not
    among them: after a successful INSERT the handler waits for the lock. *)
Lemma shorten_url_responses (env : Env) (request : Request) (w w' : World)
  (resp : Response) :
  shorten_url env request w = Done resp w' ->
  resp = error_response "Content-Type must be application/json" 400
  \/ resp = error_response "Invalid JSON data" 400
  \/ resp = url_required_response \/ resp = invalid_url_response
  \/ resp = bad_characters_response \/ resp = too_long_response
  \/ resp = code_taken_response \/ resp = exhausted_response
  \/ exists e, shorten_body env request w = Raised e w' /\ resp = server_error e.
Proof.
  unfold shorten_url, try_except.
  destruct (shorten_body_cases env request w)
    as [(r & Hrun & Hr) | [(e & Hrun & _) | (u & c & _ & _ & Hrun)]].
  - rewrite Hrun. intros H; inversion H; subst. intuition auto 10.
  - rewrite Hrun. intros H; inversion H; subst. do 8 right. now exists e.
  - pose proof (shorten_locked_outcomes env request (Str.strip u) (Str.strip c) w)
      as Hout.
    rewrite Hrun.
    destruct (shorten_locked env request _ _ w) as [r w1 | e w1 | w1].
    + intros H; inversion H; subst. intuition auto 10.
    + intros H; inversion H; subst. do 8 right. now exists e.
    + discriminate.
Qed.

(** C9, as the code has it. Invalid URL, invalid code format and taken
    code are reported with status 400 and a fixed reason; exhaustion of the
    retry budget is reported with status 500 and a fixed reason; any other
    response is one of the two request-shape 400s or comes from the
    catch-all handler. Whatever exception leaves the body of the [try],
    from storage or from anywhere else, is answered with status 500 and the
    message "Server error: " followed by the text of that very exception.
    Two such failures of the request itself: a body that is not JSON is
    answered with the text of Flask's BadRequest, and a [url] field that is
    a number, a list, an object or [true] with the text of the
    AttributeError for [strip]; both before the lock is taken and with no
    storage access. *)
Theorem allocation_failure_statuses (env : Env) (request : Request) (w : World) :
  (forall resp w',
     shorten_url env request w = Done resp w' ->
     match allocation_error resp with
     | Some e =>
         status resp = reported_status e
         /\ (e <> AllocationExhaustedError -> client_error (status resp))
         /\ (e = AllocationExhaustedError -> resp = exhausted_response)
     | None =>
         resp = error_response "Content-Type must be application/json" 400
         \/ resp = error_response "Invalid JSON data" 400
         \/ exists ex,
              shorten_body env request w = Raised ex w'
              /\ resp = mkResponse (JsonError ("Server error: " ++ str_exn ex)) 500
     end)
  /\ (forall ex w',
        shorten_body env request w = Raised ex w' ->
        shorten_url env request w
        = Done (mkResponse (JsonError ("Server error: " ++ str_exn ex)) 500) w')
  /\ (is_json request = true -> parsed_body request = None ->
      shorten_url env request w
      = Done (mkResponse
                (JsonError ("Server error: 400 Bad Request: " ++ json_failure env)) 500)
          w)
  /\ (forall members v,
        is_json request = true -> parsed_body request = Some (JObject members) ->
        dict_lookup "url" members = Some v ->
        truthy v = true -> (forall s, v <> JString s) ->
        shorten_url env request w
        = Done (mkResponse
                  (JsonError
                     ("Server error: '" ++ type_name v
                      ++ "' object has no attribute 'strip'")) 500)
            w).
Proof.
  split; [|split; [|split]].
  - intros resp w' H. apply shorten_url_responses in H.
    unfold client_error.
    destruct H as [-> | [-> | [-> | [-> | [-> | [-> | [-> | [-> | (ex & Hex & ->)]]]]]]]];
      try (cbn; repeat split; auto; try lia; try discriminate; congruence).
    rewrite server_error_is_no_allocation_error. right; right. now exists ex.
  - intros ex w' H. unfold shorten_url, try_except. now rewrite H.
  - intros Hjson Hbody. unfold shorten_url, try_except, shorten_body, get_json.
    now rewrite Hjson, Hbody.
  - intros members v Hjson Hbody Hurl Htruthy Hother.
    unfold shorten_url, try_except, shorten_body, get_json, dict_get.
    rewrite Hjson, Hbody. cbn [negb]. unfold bind at 1, ret at 1.
    unfold bind at 1, ret at 1. rewrite Hurl.
    unfold bind at 1, or_empty_strip. rewrite Htruthy.
    destruct v; try reflexivity. now elim (Hother s).
Qed.

Lemma allocation_failure_statuses_witness :
  (let request := mkRequest true (Some (JObject [("url", JInt 5)])) "http://h/" in
   shorten_body Sample.env request (fresh_world empty_db)
   = Raised (AttributeError "'int' object has no attribute 'strip'")
       (fresh_world empty_db)
   /\ shorten_url Sample.env request (fresh_world empty_db)
      = Done (mkResponse
                (JsonError "Server error: 'int' object has no attribute 'strip'") 500)
          (fresh_world empty_db))
  /\ returned (shorten_url Sample.env (mkRequest true None "http://h/")
                 (fresh_world empty_db))
     = Some (mkResponse
               (JsonError
                  ("Server error: 400 Bad Request: "
                   ++ "The browser (or proxy) sent a request that this server could not understand."))
               500)
  /\ returned (shorten_url Sample.env (Sample.post "https://x.com" None)
                 (fresh_world Sample.no_rowid_left))
     = Some (mkResponse (JsonError "Server error: database or disk is full") 500)
  /\ returned (shorten_url (Sample.racing_env "ab")
                 (Sample.post "https://x.com" (Some "ab")) (fresh_world empty_db))
     = Some (mkResponse
               (JsonError "Server error: UNIQUE constraint failed: urls.short_code")
               500).
Proof.
  split; [|repeat split; vm_compute; reflexivity].
  cbv zeta.
  assert (Hraise : shorten_body Sample.env
                     (mkRequest true (Some (JObject [("url", JInt 5)])) "http://h/")
                     (fresh_world empty_db)
                   = Raised (AttributeError "'int' object has no attribute 'strip'")
                       (fresh_world empty_db)) by reflexivity.
  split; [exact Hraise|].
  exact (proj1 (proj2 (allocation_failure_statuses Sample.env _ _)) _ _ Hraise).
Defined.

(** C9, as stated, fails twice. The exhaustion of the retry budget is an
    allocation failure and is reported with status 500, which is no 4xx;
    and the response to a storage failure carries the message of sqlite,
    which names the table and the column. *)
Lemma exhaustion_is_500_and_errors_leak :
  (let r := shorten_url Sample.stuck_env
              (post_request "http://h/" (Some "https://x.com") None)
              (fresh_world Sample.aaaaaa_taken) in
   fails_with AllocationExhaustedError r
   /\ exists resp, returned r = Some resp /\ ~ client_error (status resp))
  /\
  (let r := shorten_url (Sample.racing_env "ab")
              (post_request "http://h/" (Some "https://x.com") (Some "ab"))
              (fresh_world empty_db) in
   returned r
   = Some (mkResponse
             (JsonError "Server error: UNIQUE constraint failed: urls.short_code")
             500)).
Proof.
  split; cbv zeta.
  - split.
    + eexists _, _. split; vm_compute; reflexivity.
    + eexists. split; [vm_compute; reflexivity|].
      unfold client_error; cbn. lia.
  - vm_compute; reflexivity.
Qed.

(** ** URL validation *)

Lemma nonempty_true (s : string) : Str.nonempty s = true <-> s <> EmptyString.
Proof. destruct s; cbn; split; congruence. Qed.

(** [is_valid_url] in words: the text parses, the scheme is http or https,
    and the network location is not empty. *)
Lemma is_valid_url_iff (env : Env) (url : string) :
  is_valid_url env url = true
  <-> exists p, Urllib.urlparse env url = Some p
                /\ (Urllib.scheme p = "http" \/ Urllib.scheme p = "https")
                /\ Urllib.netloc p <> EmptyString.
Proof.
  unfold is_valid_url. split.
  - destruct (Urllib.urlparse env url) as [p|]; [|discriminate].
    intros H. apply andb_prop in H as [H1 H2]. apply andb_prop in H1 as [_ Hn].
    exists p. split; [reflexivity|]. split.
    + apply orb_prop in H2 as [H2 | H2]; apply String.eqb_eq in H2; auto.
    + now apply nonempty_true.
  - intros (p & -> & Hs & Hn). apply nonempty_true in Hn. rewrite Hn.
    destruct Hs as [-> | ->]; reflexivity.
Qed.

Lemma locked_part_is_no_url_error (env : Env) (request : Request)
  (url custom : string) (w : World) :
  ~ fails_with InvalidUrlError
      (try_except (shorten_locked env request url custom)
         (fun e => ret (server_error e)) w).
Proof.
  intros (resp & w' & Heq & Herr). unfold try_except in Heq.
  pose proof (shorten_locked_outcomes env request url custom w) as Hout.
  destruct (shorten_locked env request url custom w) as [r w1 | e w1 | w1].
  - inversion Heq; subst.
    destruct Hout as [-> | [-> | [-> | ->]]]; discriminate.
  - inversion Heq; subst. discriminate.
  - discriminate.
Qed.

(** C5, as the code has it. The URL, trimmed, is rejected as invalid
    exactly when it is empty or [is_valid_url] refuses it, and [is_valid_url]
    accepts exactly the texts that parse with scheme http or https and a
    network location that is not empty. A rejection comes with status 400
    and leaves the whole process state as it was: no lock taken, no storage
    access. "not-a-url" and "ftp://x.com" are rejected, "https://x.com"
    passes the validation. *)
Theorem url_validation (env : Env) (root : string)
  (raw_url raw_code : option string) (w : World) :
  let url := Str.strip (or_empty raw_url) in
  let run (raw : option string) := shorten_url env (post_request root raw raw_code) w in
  (fails_with InvalidUrlError (run raw_url)
   <-> url = EmptyString \/ is_valid_url env url = false)
  /\ (fails_with InvalidUrlError (run raw_url)
      -> exists resp, run raw_url = Done resp w /\ status resp = 400)
  /\ (is_valid_url env url = true
      <-> exists p, Urllib.urlparse env url = Some p
                    /\ (Urllib.scheme p = "http" \/ Urllib.scheme p = "https")
                    /\ Urllib.netloc p <> EmptyString)
  /\ fails_with InvalidUrlError (run (Some "not-a-url"))
  /\ fails_with InvalidUrlError (run (Some "ftp://x.com"))
  /\ ~ fails_with InvalidUrlError (run (Some "https://x.com")).
Proof.
  cbv zeta.
  assert (Hcases :
    forall raw,
      (Str.nonempty (Str.strip (or_empty raw)) = false
       /\ shorten_url env (post_request root raw raw_code) w
          = Done url_required_response w)
      \/ (Str.nonempty (Str.strip (or_empty raw)) = true
          /\ is_valid_url env (Str.strip (or_empty raw)) = false
          /\ shorten_url env (post_request root raw raw_code) w
             = Done invalid_url_response w)
      \/ (Str.nonempty (Str.strip (or_empty raw)) = true
          /\ is_valid_url env (Str.strip (or_empty raw)) = true
          /\ ~ fails_with InvalidUrlError
                 (shorten_url env (post_request root raw raw_code) w))).
  { intros raw.
    destruct (Str.nonempty (Str.strip (or_empty raw))) eqn:Hne.
    - destruct (is_valid_url env (Str.strip (or_empty raw))) eqn:Hv.
      + right; right. repeat split.
        rewrite shorten_url_validated by assumption.
        apply locked_part_is_no_url_error.
      + right; left. repeat split.
        rewrite shorten_url_rejected by (now right). now rewrite Hne.
    - left. split; [reflexivity|].
      rewrite shorten_url_rejected by (now left). now rewrite Hne. }
  split; [|split; [|split; [apply is_valid_url_iff|]]].
  - destruct (Hcases raw_url) as [[Hne Hrun] | [(Hne & Hv & Hrun) | (Hne & Hv & Hno)]].
    + split; [|intros _; rewrite Hrun; now apply fails_with_done].
      intros _. left. destruct (Str.strip (or_empty raw_url)); [reflexivity|discriminate].
    + split; [auto|]. intros _. rewrite Hrun. now apply fails_with_done.
    + split; [contradiction|]. intros [Hempty | Hinv]; [|congruence].
      rewrite Hempty in Hne. discriminate.
  - destruct (Hcases raw_url) as [[Hne Hrun] | [(Hne & Hv & Hrun) | (Hne & Hv & Hno)]].
    + intros _. rewrite Hrun. now eexists.
    + intros _. rewrite Hrun. now eexists.
    + contradiction.
  - repeat split.
    + destruct (Hcases (Some "not-a-url"))
        as [[Hne Hrun] | [(Hne & Hv & Hrun) | (Hne & Hv & Hno)]];
        [discriminate | | vm_compute in Hv; discriminate].
      rewrite Hrun. now apply fails_with_done.
    + destruct (Hcases (Some "ftp://x.com"))
        as [[Hne Hrun] | [(Hne & Hv & Hrun) | (Hne & Hv & Hno)]];
        [discriminate | | vm_compute in Hv; discriminate].
      rewrite Hrun. now apply fails_with_done.
    + destruct (Hcases (Some "https://x.com"))
        as [[Hne Hrun] | [(Hne & Hv & Hrun) | (Hne & Hv & Hno)]];
        [discriminate | vm_compute in Hv; discriminate | exact Hno].
Qed.

Lemma url_validation_witness :
  is_valid_url Sample.env "ftp://x.com" = false
  /\ fails_with InvalidUrlError
       (shorten_url Sample.env (post_request "http://h/" (Some " ftp://x.com ") None)
          (fresh_world empty_db)).
Proof.
  split; [reflexivity|].
  apply (proj1 (url_validation Sample.env "http://h/" (Some " ftp://x.com ") None
                  (fresh_world empty_db))).
  right. reflexivity.
Defined.

(** C5, as stated, fails. "http://:80" has the scheme http and the network
    location ":80", whose host is empty; the specification's condition
    refuses it, the handler accepts it and stores a mapping for it. *)
Lemma url_without_host_is_accepted :
  acceptable_by_spec Sample.env "http://:80" = false
  /\ Urllib.urlparse Sample.env "http://:80"
     = Some (Urllib.mkSplit "http" ":80" EmptyString EmptyString EmptyString)
  /\ Urllib.hostname (Urllib.mkSplit "http" ":80" EmptyString EmptyString EmptyString)
     = None
  /\ (let r := shorten_url Sample.env (post_request "http://h/" (Some "http://:80") None)
                 (fresh_world empty_db) in
      ~ fails_with InvalidUrlError r
      /\ urls (db (final_world r))
         = [mkUrlRow 1 "abcdef" "http://:80" 0 1714557600]).
Proof.
  repeat split; try (vm_compute; reflexivity).
  intros (resp & w & Heq & _). vm_compute in Heq. discriminate.
Qed.

(** ** The pattern on trimmed text *)

Lemma last_char_cons (c : ascii) (s : string) :
  last_char (String c s) = match s with EmptyString => Some c | _ => last_char s end.
Proof. now destruct s. Qed.

(** What [rstrip] leaves does not end in a stripped character. *)
Lemma last_char_rstrip (p : ascii -> bool) (s : string) (c : ascii) :
  last_char (Str.rstrip p s) = Some c -> p c = false.
Proof.
  induction s as [|a s IH]; cbn [Str.rstrip]; [discriminate|].
  destruct (Str.rstrip p s) as [|b r] eqn:E.
  - destruct (p a) eqn:Hp; cbn; [discriminate|]. intros H; now inversion H; subst.
  - rewrite last_char_cons. exact IH.
Qed.

Lemma last_char_strip (s : string) : last_char (Str.strip s) <> Some Re.LF.
Proof.
  intros H. apply last_char_rstrip in H. vm_compute in H. discriminate.
Qed.

(** After the longest run of class characters, [$] matches exactly when the
    whole text is in the class, provided the text does not end in a line
    feed. *)
Lemma at_dollar_after_run (s : string) :
  last_char s <> Some Re.LF ->
  Re.at_dollar (snd (Str.span Re.code_char s)) = Str.all Re.code_char s.
Proof.
  induction s as [|c s IH]; intros Hlast; [reflexivity|].
  cbn [Str.span Str.all]. destruct (Re.code_char c) eqn:Hc.
  - destruct (Str.span Re.code_char s) as [a b] eqn:E. cbn [snd andb].
    cbn [snd] in IH. apply IH. rewrite last_char_cons in Hlast.
    destruct s; [discriminate | exact Hlast].
  - cbn [snd andb Re.at_dollar]. destruct s; [|reflexivity].
    destruct (Ascii.eqb c Re.LF) eqn:Heq; [|reflexivity].
    apply Ascii.eqb_eq in Heq. subst c. now elim Hlast.
Qed.

(** On a text that does not end in a line feed, [re.match] with the code
    pattern decides membership in the character class, as the pattern
    reads. *)
Lemma match_code_well_formed (s : string) :
  last_char s <> Some Re.LF -> Re.match_code s = well_formed_code s.
Proof.
  intros Hlast. unfold Re.match_code, well_formed_code.
  pose proof (at_dollar_after_run s Hlast) as H.
  destruct s as [|c s]; [reflexivity|].
  cbn [Str.span Str.all Str.nonempty] in *.
  destruct (Re.code_char c); [|reflexivity].
  destruct (Str.span Re.code_char s) as [a b]. exact H.
Qed.


(** ** Custom codes *)




(** ** Clearing *)

(** C7. With the lock free [clear_all_data] completes; and whenever it
    completes, both tables are empty in the committed database, nothing is
    pending, the listing of recent mappings is empty and the four
    statistics are zero. The two DELETEs are published by one commit. *)
Theorem clear_all_leaves_nothing (env : Env) (request : Request) (w : World) :
  (lock_held w = false -> exists w1, clear_all_data w = Done cleared_response w1)
  /\ forall resp w1,
       clear_all_data w = Done resp w1 ->
       resp = cleared_response
       /\ urls (db w1) = [] /\ daily_stats (db w1) = [] /\ txn w1 = None
       /\ log w1
          = (log w ++ [EvConnect; EvDeleteUrls; EvDeleteDaily; EvCommit; EvClose])%list
       /\ returned (get_recent_urls request w1)
          = Some (mkResponse (JsonRecent []) 200)
       /\ returned (get_stats env w1)
          = Some (mkResponse (JsonStats 0 0 0 0) 200).
Proof.
  destruct w as [d t l n lg]. destruct l.
  - split; [discriminate|]. intros resp w1 H.
    unfold clear_all_data, try_except in H. rewrite with_lock_held in H by reflexivity.
    discriminate.
  - assert (Hrun : clear_all_data (mkWorld d t false n lg)
                   = Done cleared_response
                       (mkWorld (mkDb [] (urls_seq d) []) None false n
                          (lg ++ [EvConnect; EvDeleteUrls; EvDeleteDaily; EvCommit;
                                  EvClose]))).
    { unfold clear_all_data. unfold_statements; cbn.
      now rewrite <- !app_assoc. }
    split; [intros _; eexists; exact Hrun|].
    intros resp w1 H. rewrite Hrun in H. inversion H; subst.
    repeat split.
Qed.

Lemma clear_all_leaves_nothing_witness :
  exists w1,
    clear_all_data (fresh_world Sample.same_second) = Done cleared_response w1
    /\ db w1 = mkDb [] 2 []
    /\ returned (get_stats Sample.env w1) = Some (mkResponse (JsonStats 0 0 0 0) 200).
Proof.
  destruct (clear_all_leaves_nothing Sample.env (mkRequest false None "http://h/")
              (fresh_world Sample.same_second)) as [Hcompletes Hempty].
  destruct (Hcompletes eq_refl) as [w1 Hrun].
  exists w1. split; [exact Hrun|].
  destruct (Hempty _ _ Hrun) as (_ & _ & _ & _ & _ & _ & Hstats).
  split; [|exact Hstats].
  vm_compute in Hrun. inversion Hrun. reflexivity.
Defined.

(** ** The listing of recent mappings *)

Lemma insert_desc_perm (r : UrlRow) (l : list UrlRow) :
  Permutation (insert_desc r l) (r :: l).
Proof.
  induction l as [|a l IH]; cbn [insert_desc]; [reflexivity|].
  destruct (created_at a <=? created_at r)%Z; [reflexivity|].
  rewrite IH. apply perm_swap.
Qed.

Lemma order_by_created_at_desc_perm (rows : list UrlRow) :
  Permutation (order_by_created_at_desc rows) rows.
Proof.
  induction rows as [|r rows IH]; cbn; [reflexivity|].
  fold (order_by_created_at_desc rows). rewrite insert_desc_perm. now constructor.
Qed.

Lemma insert_desc_sorted (r : UrlRow) (l : list UrlRow) :
  StronglySorted not_older l -> StronglySorted not_older (insert_desc r l).
Proof.
  induction l as [|a l IH]; intros Hs; cbn [insert_desc].
  - repeat constructor.
  - apply StronglySorted_inv in Hs as [Hl Ha].
    destruct (Z.leb_spec (created_at a) (created_at r)) as [Hle | Hlt].
    + constructor; [now constructor|]. constructor; [exact Hle|].
      eapply Forall_impl; [|exact Ha]. unfold not_older. intros x Hx. lia.
    + constructor; [now apply IH|].
      eapply Permutation_Forall; [symmetry; apply insert_desc_perm|].
      constructor; [unfold not_older; lia | exact Ha].
Qed.

Lemma order_by_created_at_desc_sorted (rows : list UrlRow) :
  StronglySorted not_older (order_by_created_at_desc rows).
Proof.
  induction rows as [|r rows IH]; cbn; [constructor|].
  now apply insert_desc_sorted.
Qed.

(** Rows that share a timestamp keep the order of the table. *)
Lemma insert_desc_tie (r : UrlRow) (l : list UrlRow) :
  Forall (fun x => created_at x = created_at r) l -> insert_desc r l = r :: l.
Proof.
  destruct l as [|a l]; [reflexivity|]. intros H. inversion H; subst.
  cbn [insert_desc]. destruct (Z.leb_spec (created_at a) (created_at r)); [reflexivity|lia].
Qed.

(** C8, as the code has it. The listing always returns; it holds at most
    ten mappings, taken from the front of the table's rows arranged by
    decreasing creation timestamp, so every listed mapping is at least as
    recent, by its timestamp, as every mapping after it and as every mapping
    left out. Nothing places the mapping created last before another one of
    the same second. *)
Theorem recent_urls_by_timestamp (request : Request) (w : World) :
  exists rows w',
    get_recent_urls request w
    = Done (mkResponse
              (JsonRecent
                 (map (recent_item (Str.rstrip (Ascii.eqb "/") (url_root request)))
                    (firstn 10 rows)))
              200) w'
    /\ db w' = db w
    /\ Permutation rows (urls (db w))
    /\ StronglySorted not_older rows
    /\ List.length (firstn 10 rows) <= 10
    /\ (forall a b, In a (firstn 10 rows) -> In b (skipn 10 rows) -> not_older a b).
Proof.
  exists (order_by_created_at_desc (urls (db w))).
  eexists. split; [|split; [|split; [|split; [|split]]]].
  - unfold get_recent_urls. unfold_statements; cbn. reflexivity.
  - reflexivity.
  - apply order_by_created_at_desc_perm.
  - apply order_by_created_at_desc_sorted.
  - rewrite length_firstn. lia.
  - intros a b Ha Hb.
    pose proof (order_by_created_at_desc_sorted (urls (db w))) as Hs.
    rewrite <- (firstn_skipn 10 (order_by_created_at_desc (urls (db w)))) in Hs.
    revert Ha Hb Hs.
    generalize (firstn 10 (order_by_created_at_desc (urls (db w)))) as front.
    generalize (skipn 10 (order_by_created_at_desc (urls (db w)))) as back.
    intros back front. induction front as [|x front IH]; intros Ha Hb Hs; [easy|].
    cbn in Hs. apply StronglySorted_inv in Hs as [Hrest Hx].
    destruct Ha as [-> | Ha]; [|now apply IH].
    rewrite Forall_forall in Hx. apply Hx, in_or_app. now right.
Qed.

(** C8, as stated, fails. Two mappings created within the same second:
    the listing shows the one created first before the one created last. *)
Lemma same_second_lists_oldest_first :
  db (final_world
        ((insert_url Sample.env "first1" "https://x.com" ;; commit ;;
          insert_url Sample.env "second2" "https://y.org" ;; commit)
           (fresh_world empty_db)))
  = Sample.same_second
  /\ returned (get_recent_urls (mkRequest false None "http://h/")
                 (fresh_world Sample.same_second))
     = Some (mkResponse
               (JsonRecent
                  [mkRecentItem "first1" "http://h/first1" "https://x.com" 0 1714557600;
                   mkRecentItem "second2" "http://h/second2" "https://y.org" 0 1714557600])
               200).
Proof. split; vm_compute; reflexivity. Qed.

(** ** The two handlers that write, in general *)

(** No run of [shorten_url] returns the success response. *)
Lemma shorten_url_never_succeeds (env : Env) (request : Request) (w w' : World)
  (resp : Response) :
  shorten_url env request w = Done resp w' -> status resp <> 200.
Proof.
  intros H. apply shorten_url_responses in H.
  destruct H as [-> | [-> | [-> | [-> | [-> | [-> | [-> | [-> | (e & _ & ->)]]]]]]]];
    discriminate.
Qed.

(** A code that [re.match] refuses is answered with status 400 and nothing
    else happens: no lock, no storage access. *)
Lemma redirect_refuses_unmatched (env : Env) (code : string) (w : World) :
  Re.match_code code = false ->
  redirect_to_url env code w
  = Done (mkResponse (Text "Invalid short code format") 400) w.
Proof. intros H. unfold redirect_to_url, try_except. now rewrite H. Qed.

(** A code without a mapping gets the not-found page. *)
Lemma redirect_unknown (env : Env) (code : string) (w : World) :
  Re.match_code code = true -> lock_held w = false ->
  find_url code (db w) = None ->
  redirect_to_url env code w
  = Done (mkResponse NotFoundPage 404)
      (mkWorld (db w) None false (draws w)
         (log w ++ [EvConnect; EvSelectUrl code; EvClose])).
Proof.
  intros Hm Hfree Hnone. destruct w as [d t l n lg]. cbn in Hfree, Hnone. subst l.
  unfold redirect_to_url, try_except. rewrite Hm. cbn [negb].
  unfold_statements; cbn. rewrite Hnone. cbn.
  now rewrite <- !app_assoc.
Qed.

(** A code with a mapping: the click is committed and the handler waits
    for the lock it holds; the redirect is never sent. *)
Lemma redirect_existing_blocks (env : Env) (code : string) (w : World) (r : UrlRow) :
  Re.match_code code = true -> lock_held w = false ->
  find_url code (db w) = Some r ->
  redirect_to_url env code w
  = Blocked
      (mkWorld (mkDb (map (bump_clicks code) (urls (db w))) (urls_seq (db w))
                  (daily_stats (db w)))
         None true (draws w)
         (log w ++ [EvConnect; EvSelectUrl code; EvUpdateClicks code; EvCommit])).
Proof.
  intros Hm Hfree Hsome. destruct w as [d t l n lg]. cbn in Hfree, Hsome. subst l.
  unfold redirect_to_url, try_except. rewrite Hm. cbn [negb].
  unfold_statements; cbn. rewrite Hsome. cbn. now rewrite <- !app_assoc.
Qed.

(** ** The lock among several threads *)

Lemma nth_error_set_nth_same (i : nat) (p : Threads.Program) :
  forall ps q, nth_error ps i = Some q ->
               nth_error (Threads.set_nth i p ps) i = Some p.
Proof.
  induction i as [|i IH]; intros [|a ps] q H; cbn in *; try discriminate.
  - reflexivity.
  - eapply IH, H.
Qed.

Lemma nth_error_set_nth_other (i j : nat) (p : Threads.Program) :
  i <> j ->
  forall ps, nth_error (Threads.set_nth i p ps) j = nth_error ps j.
Proof.
  revert j. induction i as [|i IH]; intros [|j] Hne [|a ps]; cbn; try reflexivity.
  - contradiction.
  - apply IH. congruence.
Qed.

(** A thread that waits for a lock it owns waits in every later state,
    whatever the other threads do. *)
Lemma waits_for_own_lock_forever (me : nat) (rest : Threads.Program) :
  forall p q,
    Threads.steps p q ->
    Threads.owner p = Some me ->
    nth_error (Threads.programs p) me = Some (Threads.Acquire :: rest) ->
    Threads.owner q = Some me
    /\ nth_error (Threads.programs q) me = Some (Threads.Acquire :: rest).
Proof.
  intros p q Hsteps. induction Hsteps as [p | p q r Hstep _ IH]; intros Hown Hme.
  - now split.
  - apply IH; destruct Hstep as [i r' ps Hi | i r' ps Hi | i r' o ps Hi];
      cbn [Threads.owner Threads.programs] in *; try discriminate.
    + inversion Hown; subst i. congruence.
    + exact Hown.
    + inversion Hown; subst i. congruence.
    + destruct (Nat.eq_dec i me) as [-> | Hne]; [congruence|].
      now rewrite nth_error_set_nth_other.
Qed.

(** A request thread on the successful path of [shorten_url] never gets
    past the [with lock] of [update_daily_stats], in any interleaving with
    any other threads: it never reaches its response. *)
Lemma shorten_success_never_returns (me : nat) :
  forall p q,
    Threads.steps p q ->
    (exists k, k <= 5
               /\ nth_error (Threads.programs p) me
                  = Some (skipn k Threads.shorten_success)
               /\ (1 <= k -> Threads.owner p = Some me)) ->
    exists prog, nth_error (Threads.programs q) me = Some prog
                 /\ Threads.not_past_inner_acquire prog.
Proof.
  intros p q Hsteps. induction Hsteps as [p | p q r Hstep _ IH].
  - intros (k & Hk & Hprog & _). eexists. split; [exact Hprog|]. now exists k.
  - intros (k & Hk & Hprog & Hown). apply IH. clear IH.
    destruct Hstep as [i r' ps Hi | i r' ps Hi | i r' o ps Hi];
      cbn [Threads.owner Threads.programs] in *.
    + destruct (Nat.eq_dec i me) as [-> | Hne].
      * rewrite Hi in Hprog. destruct k as [|k].
        -- rewrite (nth_error_set_nth_same _ _ _ _ Hi).
           inversion Hprog; subst. exists 1.
           split; [lia | split; reflexivity].
        -- specialize (Hown ltac:(lia)). discriminate.
      * exists k. rewrite nth_error_set_nth_other by exact Hne.
        split; [exact Hk|]. split; [exact Hprog|].
        intros Hk1. specialize (Hown Hk1). discriminate.
    + destruct (Nat.eq_dec i me) as [-> | Hne].
      * rewrite Hi in Hprog. exfalso.
        do 6 (destruct k as [|k]; [discriminate|]). lia.
      * exists k. rewrite nth_error_set_nth_other by exact Hne.
        split; [exact Hk|]. split; [exact Hprog|].
        intros Hk1. specialize (Hown Hk1). congruence.
    + destruct (Nat.eq_dec i me) as [-> | Hne].
      * rewrite Hi in Hprog. rewrite (nth_error_set_nth_same _ _ _ _ Hi).
        destruct k as [|k]; [discriminate|].
        destruct k as [|k]; [inversion Hprog; subst; exists 2;
                            split; [lia | split; [reflexivity | intros _; apply Hown; lia]]|].
        destruct k as [|k]; [inversion Hprog; subst; exists 3;
                            split; [lia | split; [reflexivity | intros _; apply Hown; lia]]|].
        destruct k as [|k]; [inversion Hprog; subst; exists 4;
                            split; [lia | split; [reflexivity | intros _; apply Hown; lia]]|].
        destruct k as [|k]; [inversion Hprog; subst; exists 5;
                            split; [lia | split; [reflexivity | intros _; apply Hown; lia]]|].
        destruct k as [|k]; [discriminate | lia].
      * exists k. rewrite nth_error_set_nth_other by exact Hne.
        split; [exact Hk|]. split; [exact Hprog | exact Hown].
Qed.

(** * Further properties of the code *)

(** ** Generated codes *)

Lemma all_get (p : ascii -> bool) (s : string) :
  Str.all p s = true ->
  forall i c, String.get i s = Some c -> p c = true.
Proof.
  induction s as [|a s IH]; intros Hall i c Hget; cbn in *; [discriminate|].
  apply andb_prop in Hall as [Ha Hs]. destruct i as [|i].
  - now inversion Hget; subst.
  - eapply IH; eassumption.
Qed.

Lemma char_at_alphanumeric (i : nat) :
  i < String.length characters -> alphanumeric (char_at i) = true.
Proof.
  intros Hi. unfold char_at.
  destruct (get_in_range characters i Hi) as [c Hc]. rewrite Hc.
  eapply (all_get alphanumeric characters); [reflexivity | exact Hc].
Qed.

Lemma draw_code_length (env : Env) (n : nat) :
  forall k, String.length (draw_code env n k) = n.
Proof. induction n as [|n IH]; intros k; cbn; [reflexivity | now rewrite IH]. Qed.

Lemma draw_code_alphanumeric (env : Env) (n : nat) :
  forall k, Str.all alphanumeric (draw_code env n k) = true.
Proof.
  induction n as [|n IH]; intros k; cbn [draw_code Str.all]; [reflexivity|].
  rewrite IH, char_at_alphanumeric; [reflexivity|].
  apply Nat.mod_upper_bound. discriminate.
Qed.

Lemma all_impl (p q : ascii -> bool) (s : string) :
  (forall c, p c = true -> q c = true) -> Str.all p s = true -> Str.all q s = true.
Proof.
  intros Hpq. induction s as [|a s IH]; cbn; [reflexivity|].
  intros H. apply andb_prop in H as [Ha Hs]. now rewrite (Hpq a Ha), IH.
Qed.

Lemma all_last_char (p : ascii -> bool) (s : string) (c : ascii) :
  Str.all p s = true -> last_char s = Some c -> p c = true.
Proof.
  induction s as [|a s IH]; [discriminate|].
  cbn [Str.all]. intros H Hlast. apply andb_prop in H as [Ha Hs].
  rewrite last_char_cons in Hlast. destruct s as [|b s].
  - now inversion Hlast; subst.
  - now apply IH.
Qed.

Lemma alphanumeric_code_char (c : ascii) :
  alphanumeric c = true -> Re.code_char c = true.
Proof. unfold alphanumeric, Re.code_char. intros ->. reflexivity. Qed.

(** A non-empty text over the class is accepted by [re.match] too. *)
Lemma well_formed_match_code (s : string) :
  well_formed_code s = true -> Re.match_code s = true.
Proof.
  intros Hwf. rewrite match_code_well_formed; [exact Hwf|].
  intros Hlast. unfold well_formed_code in Hwf. apply andb_prop in Hwf as [_ Hall].
  pose proof (all_last_char _ _ _ Hall Hlast) as H. vm_compute in H. discriminate.
Qed.

Lemma draw_code_valid (env : Env) (n k : nat) :
  1 <= S n <= 20 -> valid_code (draw_code env (S n) k).
Proof.
  intros Hn. split; [|rewrite draw_code_length; lia].
  unfold well_formed_code. apply andb_true_intro. split; [reflexivity|].
  eapply all_impl; [exact alphanumeric_code_char | apply draw_code_alphanumeric].
Qed.

(** X1. [generate_short_code] always returns. Its result has the requested
    length and holds letters and digits only, each draw advancing the random
    source by one; a result that is not empty is a text over the code class
    and is accepted by the pattern that [redirect_to_url] and the custom
    path check with. *)
Theorem generated_code_shape (env : Env) (n : nat) (w : World) :
  exists code,
    generate_short_code env n w = Done code (advance w n [])
    /\ String.length code = n
    /\ Str.all alphanumeric code = true
    /\ (n <> 0 -> well_formed_code code = true /\ Re.match_code code = true).
Proof.
  exists (draw_code env n (draws w)). split; [apply generate_short_code_run|].
  split; [apply draw_code_length|]. split; [apply draw_code_alphanumeric|].
  intros Hn. destruct n as [|n]; [contradiction|].
  assert (Hwf : well_formed_code (draw_code env (S n) (draws w)) = true).
  { unfold well_formed_code. apply andb_true_intro. split; [reflexivity|].
    eapply all_impl; [exact alphanumeric_code_char | apply draw_code_alphanumeric]. }
  split; [exact Hwf | now apply well_formed_match_code].
Qed.

(** ** What each handler can do to the database *)

Lemma choose_short_code_chosen (env : Env) (custom code : string) (w w1 : World) :
  choose_short_code env custom w = Done (inr code) w1 ->
  last_char custom <> Some Re.LF ->
  valid_code code /\ find_url code (view w) = None.
Proof.
  intros H Hlast.
  destruct (Str.nonempty custom) eqn:Hne.
  - destruct (Re.match_code custom) eqn:Hm.
    + destruct (20 <? String.length custom)%nat eqn:Hl.
      * rewrite choose_custom_too_long in H by assumption. discriminate.
      * rewrite choose_custom_lookup in H by assumption.
        destruct (find_url custom (view w)) eqn:E; inversion H; subst.
        split; [|exact E]. split.
        -- now rewrite <- match_code_well_formed.
        -- now apply Nat.ltb_ge.
    + rewrite choose_custom_bad_characters in H by assumption. discriminate.
  - destruct custom; [|discriminate].
    destruct (first_none (fun i => find_url (candidate env (draws w) i) (view w)) 10)
      as [Hall | (k & Hk & Hbefore & Hnone)].
    + rewrite choose_random_exhausted in H by exact Hall. discriminate.
    + rewrite (choose_random_first_free env w k Hk Hbefore Hnone) in H.
      inversion H; subst. split; [|exact Hnone].
      apply draw_code_valid. lia.
Qed.

(** The locked part of [shorten_url] leaves the database as it was, or as
    the other processes made it, or with one row added for a valid code
    that no row had. *)
Lemma shorten_locked_final_db (env : Env) (request : Request) (url custom : string)
  (w : World) :
  last_char custom <> Some Re.LF ->
  let d := db (final_world (try_except (shorten_locked env request url custom)
                              (fun e => ret (server_error e)) w)) in
  let d0 := concurrent_writer env (db w) in
  d = db w \/ d = d0
  \/ exists code,
       find_url code (db w) = None /\ find_url code d0 = None
       /\ valid_code code /\ d = with_mapping env d0 code url.
Proof.
  intros Hlast. cbv zeta. unfold try_except.
  destruct (lock_held w) eqn:Hlock.
  - unfold shorten_locked. rewrite with_lock_held by assumption. now left.
  - destruct (choose_short_code_total env custom (entered w))
      as (x & n & evs & Hchoose & _).
    destruct x as [resp | code].
    + rewrite (shorten_locked_early env request url custom w _ resp Hlock Hchoose).
      now left.
    + destruct (choose_short_code_chosen _ _ _ _ _ Hchoose Hlast) as [Hvalid Hnone].
      rewrite (shorten_locked_chosen env request url custom w _ code Hlock Hchoose)
        by reflexivity.
      cbv zeta. cbn [advance entered db] in *.
      destruct (insert_refused code (concurrent_writer env (db w))) eqn:E.
      * right; left. reflexivity.
      * right; right. exists code. apply insert_refused_none in E as [_ E].
        split; [exact Hnone|]. split; [exact E|]. split; [exact Hvalid | reflexivity].
Qed.

Lemma shorten_url_final_db (env : Env) (request : Request) (w : World) :
  let d := db (final_world (shorten_url env request w)) in
  let d0 := concurrent_writer env (db w) in
  d = db w \/ d = d0
  \/ exists code url,
       find_url code (db w) = None /\ find_url code d0 = None
       /\ valid_code code /\ is_valid_url env url = true
       /\ d = with_mapping env d0 code url.
Proof.
  cbv zeta. unfold shorten_url.
  destruct (shorten_body_cases env request w)
    as [(r & Hrun & _) | [(e & Hrun & _) | (u & c & _ & Hv & Hrun)]].
  - unfold try_except. rewrite Hrun. now left.
  - unfold try_except. rewrite Hrun. now left.
  - assert (Hsame : try_except (shorten_body env request)
                      (fun e => ret (error_response ("Server error: " ++ str_exn e) 500)) w
                    = try_except (shorten_locked env request (Str.strip u) (Str.strip c))
                        (fun e => ret (server_error e)) w).
    { unfold try_except. now rewrite Hrun. }
    rewrite Hsame.
    destruct (shorten_locked_final_db env request (Str.strip u) (Str.strip c) w
                (last_char_strip _)) as [H | [H | (code & H1 & H2 & H3 & H4)]].
    + now left.
    + now right; left.
    + right; right. exists code, (Str.strip u).
      split; [exact H1|]. split; [exact H2|]. split; [exact H3|].
      split; [exact Hv | exact H4].
Qed.

Lemma redirect_final_db (env : Env) (code : string) (w : World) :
  let d := db (final_world (redirect_to_url env code w)) in
  d = db w
  \/ (exists r, find_url code (db w) = Some r) /\ d = with_click (db w) code.
Proof.
  cbv zeta. destruct (Re.match_code code) eqn:Hm.
  - destruct (lock_held w) eqn:Hlock.
    + unfold redirect_to_url, try_except. rewrite Hm. cbn [negb].
      rewrite with_lock_held by assumption. now left.
    + destruct (find_url code (db w)) as [r|] eqn:E.
      * rewrite (redirect_existing_blocks env code w r Hm Hlock E).
        right. split; [now exists r | reflexivity].
      * rewrite (redirect_unknown env code w Hm Hlock E). now left.
  - rewrite redirect_refuses_unmatched by assumption. now left.
Qed.

Lemma clear_final_db (w : World) :
  let d := db (final_world (clear_all_data w)) in
  d = db w \/ d = mkDb [] (urls_seq (db w)) [].
Proof.
  cbv zeta. destruct w as [d t l n lg]. destruct l.
  - unfold clear_all_data, try_except. rewrite with_lock_held by reflexivity. now left.
  - right. unfold clear_all_data. unfold_statements; cbn. reflexivity.
Qed.

Lemma update_daily_stats_run (env : Env) (created clicked : Z) (w : World) :
  lock_held w = false ->
  update_daily_stats env created clicked w
  = Done tt
      (mkWorld (with_daily (db w) (today env) created clicked) None false (draws w)
         (log w ++ [EvConnect; EvSelectDaily (today env);
                    match find_daily (today env) (db w) with
                    | Some _ => EvUpdateDaily (today env)
                    | None => EvInsertDaily (today env)
                    end; EvCommit; EvClose])).
Proof.
  intros H. destruct w as [d t l n lg]. cbn in H. subst l.
  unfold update_daily_stats, with_daily. unfold_statements; cbn.
  destruct (find_daily (today env) d) eqn:E; cbn; rewrite ?E; cbn;
    now rewrite <- !app_assoc.
Qed.

Lemma update_daily_final_db (env : Env) (created clicked : Z) (w : World) :
  let d := db (final_world (update_daily_stats env created clicked w)) in
  d = db w \/ d = with_daily (db w) (today env) created clicked.
Proof.
  cbv zeta. destruct (lock_held w) eqn:Hlock.
  - rewrite update_daily_stats_held by assumption. now left.
  - rewrite update_daily_stats_run by assumption. now right.
Qed.

(** ** Invariants *)

(** A property of the database that the five possible changes keep is kept
    by the four handlers that can write, wherever their run ends. *)
Lemma handlers_preserve (P : Db -> Prop) (env : Env) :
  (forall d, P d -> P (concurrent_writer env d)) ->
  (forall d code url,
     P d -> find_url code d = None -> valid_code code ->
     P (with_mapping env d code url)) ->
  (forall d code, P d -> P (with_click d code)) ->
  (forall d day created clicked, P d -> P (with_daily d day created clicked)) ->
  (forall d, P d -> P (cleared d)) ->
  forall (request : Request) (code : string) (created clicked : Z) (w : World),
    P (db w) ->
    P (db (final_world (shorten_url env request w)))
    /\ P (db (final_world (redirect_to_url env code w)))
    /\ P (db (final_world (update_daily_stats env created clicked w)))
    /\ P (db (final_world (clear_all_data w))).
Proof.
  intros Hwriter Hmap Hclick Hdaily Hclear request code created clicked w Hw.
  split; [|split; [|split]].
  - destruct (shorten_url_final_db env request w)
      as [-> | [-> | (c & u & _ & Hnone & Hvalid & _ & ->)]]; auto.
  - destruct (redirect_final_db env code w) as [-> | [_ ->]]; auto.
  - destruct (update_daily_final_db env created clicked w) as [-> | ->]; auto.
  - destruct (clear_final_db w) as [-> | ->]; [assumption|]. now apply Hclear.
Qed.

Lemma find_url_none_not_in (code : string) (d : Db) :
  find_url code d = None -> ~ In code (codes d).
Proof.
  unfold find_url, codes. intros Hnone Hin. apply in_map_iff in Hin as (r & Hr & Hin).
  apply (find_none _ _ Hnone) in Hin. rewrite Hr, String.eqb_refl in Hin. discriminate.
Qed.

Lemma codes_with_mapping (env : Env) (d : Db) (code url : string) :
  codes (with_mapping env d code url) = (codes d ++ [code])%list.
Proof. unfold codes, with_mapping. cbn. now rewrite map_app. Qed.

Lemma short_code_bump (code : string) (r : UrlRow) :
  short_code (bump_clicks code r) = short_code r.
Proof. unfold bump_clicks. now destruct (String.eqb (short_code r) code). Qed.

Lemma codes_with_click (d : Db) (code : string) :
  codes (with_click d code) = codes d.
Proof.
  unfold codes, with_click. cbn. rewrite map_map. apply map_ext, short_code_bump.
Qed.

Lemma urls_with_daily (d : Db) (day : string) (created clicked : Z) :
  urls (with_daily d day created clicked) = urls d
  /\ urls_seq (with_daily d day created clicked) = urls_seq d.
Proof. unfold with_daily. now destruct (find_daily day d). Qed.

(** X2. No handler makes two mappings share a short code: if the store
    has pairwise different codes, and the other processes writing to the
    file keep it so, the store has pairwise different codes wherever a run
    of [shorten_url], [redirect_to_url], [update_daily_stats] or
    [clear_all_data] ends, be it returned, failed or stuck. *)
Theorem short_codes_stay_unique (env : Env) (request : Request) (code : string)
  (created clicked : Z) (w : World) :
  (forall d, unique_codes d -> unique_codes (concurrent_writer env d)) ->
  unique_codes (db w) ->
  unique_codes (db (final_world (shorten_url env request w)))
  /\ unique_codes (db (final_world (redirect_to_url env code w)))
  /\ unique_codes (db (final_world (update_daily_stats env created clicked w)))
  /\ unique_codes (db (final_world (clear_all_data w))).
Proof.
  intros Hwriter Hw.
  apply (handlers_preserve unique_codes env); try assumption; unfold unique_codes.
  - intros d c u Hd Hnone _. rewrite codes_with_mapping.
    apply NoDup_app; [assumption | repeat constructor; intros [] |].
    intros a Ha [Heq | []]. subst a. now apply (find_url_none_not_in c d).
  - intros d c Hd. now rewrite codes_with_click.
  - intros d day a b Hd. unfold codes.
    now rewrite (proj1 (urls_with_daily d day a b)).
  - intros d _. constructor.
Qed.

Lemma short_codes_stay_unique_witness :
  unique_codes Sample.one_mapping
  /\ codes (db (final_world
       (shorten_url Sample.env (Sample.post "https://y.org" (Some "promo"))
          (fresh_world Sample.one_mapping))))
     = ["abc123"; "promo"]
  /\ unique_codes (db (final_world
       (shorten_url Sample.env (Sample.post "https://y.org" (Some "promo"))
          (fresh_world Sample.one_mapping)))).
Proof.
  assert (Hstart : unique_codes Sample.one_mapping).
  { repeat constructor. intros []. }
  split; [exact Hstart|]. split; [reflexivity|].
  exact (proj1 (short_codes_stay_unique Sample.env
                  (Sample.post "https://y.org" (Some "promo")) "abc123" 0 0
                  (fresh_world Sample.one_mapping) (fun d H => H) Hstart)).
Defined.

(** X3. Every code that [shorten_url] stores is a text over the class
    [A-Za-z0-9_-] of 1 to 20 characters, custom or random: if all codes in
    the store are such, and the other processes keep it so, they are such
    wherever a run of a writing handler ends. *)
Theorem stored_codes_stay_valid (env : Env) (request : Request) (code : string)
  (created clicked : Z) (w : World) :
  (forall d, codes_valid d -> codes_valid (concurrent_writer env d)) ->
  codes_valid (db w) ->
  codes_valid (db (final_world (shorten_url env request w)))
  /\ codes_valid (db (final_world (redirect_to_url env code w)))
  /\ codes_valid (db (final_world (update_daily_stats env created clicked w)))
  /\ codes_valid (db (final_world (clear_all_data w))).
Proof.
  intros Hwriter Hw.
  apply (handlers_preserve codes_valid env); try assumption; unfold codes_valid.
  - intros d c u Hd _ Hvalid. rewrite codes_with_mapping.
    apply Forall_app. split; [assumption | constructor; [exact Hvalid | constructor]].
  - intros d c Hd. now rewrite codes_with_click.
  - intros d day a b Hd. unfold codes.
    now rewrite (proj1 (urls_with_daily d day a b)).
  - intros d _. constructor.
Qed.

Lemma stored_codes_stay_valid_witness :
  codes_valid Sample.one_mapping
  /\ codes (db (final_world
       (shorten_url Sample.env (Sample.post "https://y.org" None)
          (fresh_world Sample.one_mapping))))
     = ["abc123"; "abcdef"]
  /\ codes_valid (db (final_world
       (shorten_url Sample.env (Sample.post "https://y.org" None)
          (fresh_world Sample.one_mapping)))).
Proof.
  assert (Hstart : codes_valid Sample.one_mapping).
  { repeat constructor. }
  split; [exact Hstart|]. split; [reflexivity|].
  exact (proj1 (stored_codes_stay_valid Sample.env
                  (Sample.post "https://y.org" None) "abc123" 0 0
                  (fresh_world Sample.one_mapping) (fun d H => H) Hstart)).
Defined.

Lemma id_bump (code : string) (r : UrlRow) : id (bump_clicks code r) = id r.
Proof. unfold bump_clicks. now destruct (String.eqb (short_code r) code). Qed.

Lemma ids_ok_with_mapping (env : Env) (d : Db) (code url : string) :
  ids_ok d -> ids_ok (with_mapping env d code url).
Proof.
  intros [Hcounted Hnodup]. unfold ids_ok, ids_counted, with_mapping in *. cbn. split.
  - apply Forall_app. split.
    + eapply Forall_impl; [|exact Hcounted]. cbn. intros r Hr. lia.
    + constructor; [cbn; lia | constructor].
  - rewrite map_app. apply NoDup_app; [assumption | repeat constructor; intros [] |].
    intros a Ha [Heq | []]. apply in_map_iff in Ha as (r & Hr & Hin).
    rewrite Forall_forall in Hcounted. specialize (Hcounted r Hin).
    cbn in Heq. lia.
Qed.

Lemma ids_ok_with_click (d : Db) (code : string) : ids_ok d -> ids_ok (with_click d code).
Proof.
  intros [Hcounted Hnodup]. unfold ids_ok, ids_counted, with_click in *. cbn. split.
  - apply Forall_map. eapply Forall_impl; [|exact Hcounted].
    cbn. intros r Hr. now rewrite id_bump.
  - rewrite map_map. erewrite map_ext; [exact Hnodup|]. apply id_bump.
Qed.

(** X4. Ids stay pairwise different and never exceed the AUTOINCREMENT
    counter, wherever a run of a writing handler ends, provided the store
    starts so and the other processes keep it so. *)
Theorem ids_stay_unique (env : Env) (request : Request) (code : string)
  (created clicked : Z) (w : World) :
  (forall d, ids_ok d -> ids_ok (concurrent_writer env d)) ->
  ids_ok (db w) ->
  ids_ok (db (final_world (shorten_url env request w)))
  /\ ids_ok (db (final_world (redirect_to_url env code w)))
  /\ ids_ok (db (final_world (update_daily_stats env created clicked w)))
  /\ ids_ok (db (final_world (clear_all_data w))).
Proof.
  intros Hwriter Hw.
  apply (handlers_preserve ids_ok env); try assumption.
  - intros d c u Hd _ _. now apply ids_ok_with_mapping.
  - intros d c Hd. now apply ids_ok_with_click.
  - intros d day a b Hd. unfold ids_ok, ids_counted.
    destruct (urls_with_daily d day a b) as [-> ->]. exact Hd.
  - intros d _. split; constructor.
Qed.

Lemma ids_stay_unique_witness :
  ids_ok Cases.busy
  /\ map id (urls (db (final_world
       (shorten_url Sample.env (Sample.post "https://y.org" None)
          (fresh_world Cases.busy)))))
     = [1; 2; 4; 5]%Z
  /\ ids_ok (db (final_world
       (shorten_url Sample.env (Sample.post "https://y.org" None)
          (fresh_world Cases.busy)))).
Proof.
  assert (Hstart : ids_ok Cases.busy).
  { split.
    - repeat constructor; cbn; lia.
    - repeat constructor; cbn; intuition lia. }
  split; [exact Hstart|]. split; [reflexivity|].
  exact (proj1 (ids_stay_unique Sample.env
                  (Sample.post "https://y.org" None) "abc123" 0 0
                  (fresh_world Cases.busy) (fun d H => H) Hstart)).
Defined.

(** X5. Clearing does not give ids back. After [clear_all_data] a mapping
    stored by [shorten_url] gets an id above the id of every mapping that
    was in the store before the clearing (the DELETE leaves the counter of
    AUTOINCREMENT alone). *)
Theorem ids_not_reused_after_clearing (env : Env) (request : Request) (w : World) :
  ids_counted (db w) ->
  lock_held w = false ->
  (forall d, concurrent_writer env d = d) ->
  forall old new,
    In old (urls (db w)) ->
    In new (urls (db (final_world
                        (shorten_url env request (final_world (clear_all_data w)))))) ->
    (id old < id new)%Z.
Proof.
  intros Hcounted Hfree Hquiet old new Hold Hnew.
  destruct (clear_final_db w) as [Hsame | Hcleared].
  - exfalso. destruct w as [d t l n lg]. cbn in Hfree. subst l.
    revert Hsame. unfold clear_all_data. unfold_statements; cbn.
    intros Hsame. rewrite <- Hsame in Hold. exact Hold.
  - set (wc := final_world (clear_all_data w)) in *.
    destruct (shorten_url_final_db env request wc)
      as [H | [H | (c & u & _ & _ & _ & _ & H)]];
      rewrite H, ?Hquiet, ?Hcleared in Hnew; try contradiction.
    unfold with_mapping in Hnew. cbn in Hnew. destruct Hnew as [<- | []].
    unfold ids_counted in Hcounted. rewrite Forall_forall in Hcounted.
    specialize (Hcounted old Hold). cbn. lia.
Qed.

Lemma ids_not_reused_after_clearing_witness :
  urls (db (final_world
              (shorten_url Sample.env (Sample.post "https://y.org" (Some "again"))
                 (final_world (clear_all_data (fresh_world Cases.busy))))))
  = [mkUrlRow 5 "again" "https://y.org" 0 1714557600]
  /\ (id (mkUrlRow 4 "Zz9_-" "http://z.example/" 0 1714557000)
      < id (mkUrlRow 5 "again" "https://y.org" 0 1714557600))%Z.
Proof.
  split; [reflexivity|].
  apply (ids_not_reused_after_clearing Sample.env
           (Sample.post "https://y.org" (Some "again")) (fresh_world Cases.busy)).
  - repeat constructor; cbn; lia.
  - reflexivity.
  - reflexivity.
  - right; right; left; reflexivity.
  - left; reflexivity.
Defined.

(** ** The redirect *)

Lemma bump_other (code : string) (r : UrlRow) :
  short_code r <> code -> bump_clicks code r = r.
Proof.
  intros H. unfold bump_clicks.
  destruct (String.eqb_spec (short_code r) code); [contradiction | reflexivity].
Qed.

Lemma bump_absent (code : string) (rows : list UrlRow) :
  ~ In code (map short_code rows) -> map (bump_clicks code) rows = rows.
Proof.
  induction rows as [|a rows IH]; intros H; cbn in *; [reflexivity|].
  rewrite bump_other, IH; auto.
Qed.

Lemma find_url_some (code : string) (d : Db) (r : UrlRow) :
  find_url code d = Some r -> In r (urls d) /\ short_code r = code.
Proof.
  unfold find_url. intros H. apply find_some in H as [Hin Heq].
  split; [exact Hin | now apply String.eqb_eq].
Qed.

Lemma find_url_with_click (c code : string) (d : Db) :
  find_url c (with_click d code)
  = option_map (bump_clicks code) (find_url c d).
Proof.
  unfold find_url, with_click. cbn. induction (urls d) as [|a rows IH]; cbn; [reflexivity|].
  rewrite short_code_bump. destruct (String.eqb (short_code a) c); [reflexivity | exact IH].
Qed.

Lemma sum_clicks_cons (a : UrlRow) (rows : list UrlRow) :
  sum_clicks (a :: rows) = (clicks a + sum_clicks rows)%Z.
Proof. reflexivity. Qed.

Lemma sum_clicks_bump (code : string) (rows : list UrlRow) (r : UrlRow) :
  NoDup (map short_code rows) ->
  find (fun x => String.eqb (short_code x) code) rows = Some r ->
  sum_clicks (map (bump_clicks code) rows) = (sum_clicks rows + 1)%Z.
Proof.
  induction rows as [|a rows IH]; intros Hnodup Hfind; [discriminate|].
  cbn [map find] in *. rewrite !sum_clicks_cons.
  inversion Hnodup as [|x l Hnotin Hrest]; subst.
  destruct (String.eqb_spec (short_code a) code) as [Heq | Hne].
  - rewrite bump_absent by (now rewrite <- Heq).
    unfold bump_clicks. rewrite (proj2 (String.eqb_eq _ _) Heq). cbn [clicks]. lia.
  - rewrite bump_other by exact Hne. rewrite (IH Hrest Hfind). lia.
Qed.

(** X6. The redirect of an existing code counts exactly one click. With
    pairwise different codes in the store and the lock free, the run of
    [redirect_to_url] commits the mapping of that code with [clicks] one
    higher and everything else of it as before; every other mapping is
    found as before, no mapping is added or removed, and the sum of all
    clicks is one higher. *)
Theorem redirect_counts_one_click (env : Env) (code : string) (w : World) (r : UrlRow) :
  unique_codes (db w) ->
  lock_held w = false ->
  Re.match_code code = true ->
  find_url code (db w) = Some r ->
  let d := db (final_world (redirect_to_url env code w)) in
  find_url code d
  = Some (mkUrlRow (id r) (short_code r) (original_url r) (clicks r + 1) (created_at r))
  /\ (forall c, c <> code -> find_url c d = find_url c (db w))
  /\ codes d = codes (db w)
  /\ sum_clicks (urls d) = (sum_clicks (urls (db w)) + 1)%Z.
Proof.
  intros Hunique Hfree Hmatch Hfind. cbv zeta.
  rewrite (redirect_existing_blocks env code w r Hmatch Hfree Hfind).
  cbn [final_world db]. fold (with_click (db w) code).
  destruct (find_url_some _ _ _ Hfind) as [_ Hcode].
  split; [|split; [|split]].
  - rewrite find_url_with_click, Hfind. cbn. unfold bump_clicks.
    now rewrite (proj2 (String.eqb_eq _ _) Hcode).
  - intros c Hc. rewrite find_url_with_click.
    destruct (find_url c (db w)) as [r'|] eqn:E; [|reflexivity].
    destruct (find_url_some _ _ _ E) as [_ Hc']. cbn.
    rewrite bump_other; [reflexivity | congruence].
  - apply codes_with_click.
  - unfold with_click. cbn. now apply (sum_clicks_bump code (urls (db w)) r).
Qed.

Lemma redirect_counts_one_click_witness :
  unique_codes Cases.busy
  /\ sum_clicks (urls Cases.busy) = 7%Z
  /\ sum_clicks (urls (db (final_world
       (redirect_to_url Sample.env "promo" (fresh_world Cases.busy))))) = 8%Z.
Proof.
  assert (Hunique : unique_codes Cases.busy).
  { repeat constructor; cbn; intuition discriminate. }
  split; [exact Hunique|]. split; [reflexivity|].
  exact (proj2 (proj2 (proj2
    (redirect_counts_one_click Sample.env "promo" (fresh_world Cases.busy)
       (mkUrlRow 2 "promo" "https://y.org/sale" 5 1714553600)
       Hunique eq_refl eq_refl eq_refl)))).
Defined.

(** X7. A code that passes the pattern gets the not-found page exactly
    when no mapping has it (lock free); the page comes with status 404,
    the database is as before and the lock is free again. *)
Theorem redirect_not_found_iff (env : Env) (code : string) (w : World) :
  Re.match_code code = true ->
  lock_held w = false ->
  (returned (redirect_to_url env code w) = Some (mkResponse NotFoundPage 404)
   <-> find_url code (db w) = None)
  /\ (find_url code (db w) = None ->
      db (final_world (redirect_to_url env code w)) = db w
      /\ lock_held (final_world (redirect_to_url env code w)) = false).
Proof.
  intros Hmatch Hfree. destruct (find_url code (db w)) as [r|] eqn:E.
  - rewrite (redirect_existing_blocks env code w r Hmatch Hfree E). cbn.
    split; [split|]; discriminate.
  - rewrite (redirect_unknown env code w Hmatch Hfree E). cbn.
    split; [split; reflexivity | split; reflexivity].
Qed.

Lemma redirect_not_found_iff_witness :
  find_url "nosuch" Cases.busy = None
  /\ returned (redirect_to_url Sample.env "nosuch" (fresh_world Cases.busy))
     = Some (mkResponse NotFoundPage 404).
Proof.
  split; [reflexivity|].
  apply (proj1 (redirect_not_found_iff Sample.env "nosuch" (fresh_world Cases.busy)
                  eq_refl eq_refl)).
  reflexivity.
Defined.

(** ** Daily statistics *)

Lemma find_snoc {A} (p : A -> bool) (l : list A) (x : A) :
  find p (l ++ [x])
  = match find p l with
    | Some y => Some y
    | None => if p x then Some x else None
    end.
Proof.
  induction l as [|a l IH]; cbn; [reflexivity|].
  destruct (p a); [reflexivity | exact IH].
Qed.

Lemma date_add_daily (day : string) (a b : Z) (r : DailyRow) :
  date (add_daily day a b r) = date r.
Proof. unfold add_daily. now destruct (String.eqb (date r) day). Qed.

Lemma add_daily_other (day : string) (a b : Z) (r : DailyRow) :
  date r <> day -> add_daily day a b r = r.
Proof.
  intros H. unfold add_daily.
  destruct (String.eqb_spec (date r) day); [contradiction | reflexivity].
Qed.

Lemma add_daily_absent (day : string) (a b : Z) (rows : list DailyRow) :
  ~ In day (map date rows) -> map (add_daily day a b) rows = rows.
Proof.
  induction rows as [|x rows IH]; intros H; cbn in *; [reflexivity|].
  rewrite add_daily_other, IH; auto.
Qed.

Lemma find_daily_none_not_in (day : string) (d : Db) :
  find_daily day d = None -> ~ In day (dates d).
Proof.
  unfold find_daily, dates. intros Hnone Hin. apply in_map_iff in Hin as (r & Hr & Hin).
  apply (find_none _ _ Hnone) in Hin. rewrite Hr, String.eqb_refl in Hin. discriminate.
Qed.

Lemma find_daily_some (day : string) (d : Db) (r : DailyRow) :
  find_daily day d = Some r -> date r = day.
Proof.
  unfold find_daily. intros H. apply find_some in H as [_ Heq].
  now apply String.eqb_eq.
Qed.

Lemma find_map_add_daily (day today_ : string) (a b : Z) (rows : list DailyRow) :
  find (fun r => String.eqb (date r) day) (map (add_daily today_ a b) rows)
  = option_map (add_daily today_ a b) (find (fun r => String.eqb (date r) day) rows).
Proof.
  induction rows as [|x rows IH]; cbn; [reflexivity|].
  rewrite date_add_daily. destruct (String.eqb (date x) day); [reflexivity | exact IH].
Qed.

(** Looking a day up after the upsert. *)
Lemma find_daily_with_daily (day today_ : string) (a b : Z) (d : Db) :
  find_daily day (with_daily d today_ a b)
  = if String.eqb day today_
    then Some (mkDailyRow today_ (created_on today_ d + a) (clicked_on today_ d + b))
    else find_daily day d.
Proof.
  unfold with_daily, created_on, clicked_on.
  destruct (find_daily today_ d) as [r|] eqn:E.
  - unfold find_daily at 1. cbn [daily_stats]. rewrite find_map_add_daily.
    fold (find_daily day d).
    destruct (String.eqb_spec day today_) as [-> | Hdt].
    + rewrite E. cbn [option_map]. unfold add_daily.
      pose proof (find_daily_some _ _ _ E) as Hdate.
      rewrite (proj2 (String.eqb_eq _ _) Hdate). now rewrite Hdate.
    + destruct (find_daily day d) as [r'|] eqn:E'; [|reflexivity].
      cbn. rewrite add_daily_other; [reflexivity|].
      rewrite (find_daily_some _ _ _ E'). exact Hdt.
  - unfold find_daily in *. cbn [daily_stats]. rewrite find_snoc. cbn [date].
    destruct (String.eqb_spec day today_) as [-> | Hdt].
    + rewrite E, String.eqb_refl. now rewrite !Z.add_0_l.
    + destruct (find (fun r => String.eqb (date r) day) (daily_stats d));
        [reflexivity|].
      destruct (String.eqb_spec today_ day); [congruence | reflexivity].
Qed.

Lemma sum_urls_created_cons (x : DailyRow) (rows : list DailyRow) :
  sum_urls_created (x :: rows) = (urls_created x + sum_urls_created rows)%Z.
Proof. reflexivity. Qed.

Lemma sum_total_clicks_cons (x : DailyRow) (rows : list DailyRow) :
  sum_total_clicks (x :: rows) = (total_clicks x + sum_total_clicks rows)%Z.
Proof. reflexivity. Qed.

Lemma sums_add_daily (day : string) (a b : Z) (rows : list DailyRow) (r : DailyRow) :
  NoDup (map date rows) ->
  find (fun x => String.eqb (date x) day) rows = Some r ->
  sum_urls_created (map (add_daily day a b) rows) = (sum_urls_created rows + a)%Z
  /\ sum_total_clicks (map (add_daily day a b) rows) = (sum_total_clicks rows + b)%Z.
Proof.
  induction rows as [|x rows IH]; intros Hnodup Hfind; [discriminate|].
  cbn [map find] in *. rewrite !sum_urls_created_cons, !sum_total_clicks_cons.
  inversion Hnodup as [|y l Hnotin Hrest]; subst.
  destruct (String.eqb_spec (date x) day) as [Heq | Hne].
  - rewrite add_daily_absent by (now rewrite <- Heq).
    unfold add_daily. rewrite (proj2 (String.eqb_eq _ _) Heq).
    cbn [urls_created total_clicks]. lia.
  - rewrite add_daily_other by exact Hne.
    destruct (IH Hrest Hfind) as [-> ->]. lia.
Qed.

Lemma sums_snoc (rows : list DailyRow) (x : DailyRow) :
  sum_urls_created (rows ++ [x]) = (sum_urls_created rows + urls_created x)%Z
  /\ sum_total_clicks (rows ++ [x]) = (sum_total_clicks rows + total_clicks x)%Z.
Proof.
  induction rows as [|y rows [IH1 IH2]]; cbn [app].
  - rewrite !sum_urls_created_cons, !sum_total_clicks_cons. cbn. lia.
  - rewrite !sum_urls_created_cons, !sum_total_clicks_cons, IH1, IH2. lia.
Qed.

(** X8. [update_daily_stats] is an upsert that adds. With the lock free
    and one row per date it returns; afterwards today's counters are the
    former ones (zero without a row) plus the two arguments, every other
    day is found as before, the sums over the table have grown by exactly
    the arguments, there is still one row per date, the mappings are
    untouched and the lock is free. *)
Theorem daily_upsert_adds (env : Env) (created clicked : Z) (w : World) :
  unique_dates (db w) ->
  lock_held w = false ->
  exists w',
    update_daily_stats env created clicked w = Done tt w'
    /\ lock_held w' = false
    /\ created_on (today env) (db w') = (created_on (today env) (db w) + created)%Z
    /\ clicked_on (today env) (db w') = (clicked_on (today env) (db w) + clicked)%Z
    /\ (forall day, day <> today env -> find_daily day (db w') = find_daily day (db w))
    /\ sum_urls_created (daily_stats (db w'))
       = (sum_urls_created (daily_stats (db w)) + created)%Z
    /\ sum_total_clicks (daily_stats (db w'))
       = (sum_total_clicks (daily_stats (db w)) + clicked)%Z
    /\ unique_dates (db w')
    /\ urls (db w') = urls (db w).
Proof.
  intros Hunique Hfree. eexists. split; [apply update_daily_stats_run, Hfree|].
  cbn [lock_held db]. split; [reflexivity|].
  split; [|split; [|split; [|split; [|split; [|split]]]]].
  - unfold created_on at 1. now rewrite find_daily_with_daily, String.eqb_refl.
  - unfold clicked_on at 1. now rewrite find_daily_with_daily, String.eqb_refl.
  - intros day Hday. rewrite find_daily_with_daily.
    destruct (String.eqb_spec day (today env)); [contradiction | reflexivity].
  - unfold with_daily. destruct (find_daily (today env) (db w)) as [r|] eqn:E;
      cbn [daily_stats].
    + apply (sums_add_daily _ _ _ _ r Hunique E).
    + now rewrite (proj1 (sums_snoc _ _)).
  - unfold with_daily. destruct (find_daily (today env) (db w)) as [r|] eqn:E;
      cbn [daily_stats].
    + apply (sums_add_daily _ _ _ _ r Hunique E).
    + now rewrite (proj2 (sums_snoc _ _)).
  - unfold unique_dates, dates, with_daily in *.
    destruct (find_daily (today env) (db w)) as [r|] eqn:E; cbn [daily_stats].
    + rewrite map_map. erewrite map_ext; [exact Hunique|]. apply date_add_daily.
    + rewrite map_app. apply NoDup_app; [assumption | repeat constructor; intros [] |].
      intros a Ha [Heq | []]. cbn in Heq. subst a.
      now apply (find_daily_none_not_in (today env) (db w)).
  - apply urls_with_daily.
Qed.

Lemma daily_upsert_adds_witness :
  unique_dates Cases.busy
  /\ exists w',
       update_daily_stats Sample.env 1 0 (fresh_world Cases.busy) = Done tt w'
       /\ daily_stats (db w')
          = [mkDailyRow "2024-04-30" 2 4; mkDailyRow "2024-05-01" 2 3]
       /\ sum_urls_created (daily_stats (db w')) = 4%Z.
Proof.
  assert (Hunique : unique_dates Cases.busy).
  { repeat constructor; cbn; intuition discriminate. }
  split; [exact Hunique|].
  destruct (daily_upsert_adds Sample.env 1 0 (fresh_world Cases.busy) Hunique eq_refl)
    as (w' & Hrun & _ & _ & _ & _ & Hsum & _).
  exists w'. split; [exact Hrun|].
  vm_compute in Hrun. inversion Hrun. split; reflexivity.
Defined.

(** ** The handlers that read *)

Lemma get_stats_run (env : Env) (w : World) :
  get_stats env w
  = Done (mkResponse
            (JsonStats (Z.of_nat (List.length (urls (db w)))) (sum_clicks (urls (db w)))
               (created_on (today env) (db w)) (clicked_on (today env) (db w)))
            200)
      (mkWorld (db w) None (lock_held w) (draws w)
         (log w ++ [EvConnect; EvSelectTotals; EvSelectDaily (today env); EvClose])).
Proof.
  destruct w as [d t l n lg].
  unfold get_stats, created_on, clicked_on. unfold_statements; cbn.
  now rewrite <- !app_assoc.
Qed.

Lemma get_recent_urls_run (request : Request) (w : World) :
  get_recent_urls request w
  = Done (mkResponse
            (JsonRecent
               (map (recent_item (Str.rstrip (Ascii.eqb "/") (url_root request)))
                  (firstn 10 (order_by_created_at_desc (urls (db w))))))
            200)
      (mkWorld (db w) None (lock_held w) (draws w)
         (log w ++ [EvConnect; EvSelectRecent; EvClose])).
Proof.
  destruct w as [d t l n lg].
  unfold get_recent_urls. unfold_statements; cbn.
  now rewrite <- !app_assoc.
Qed.

Lemma in_firstn {A} (n : nat) (x : A) :
  forall l, In x (firstn n l) -> In x l.
Proof.
  induction n as [|n IH]; intros [|a l] H; cbn in *; try contradiction.
  destruct H as [-> | H]; [now left | right; now apply IH].
Qed.

Lemma sum_clicks_perm (l l' : list UrlRow) :
  Permutation l l' -> sum_clicks l = sum_clicks l'.
Proof.
  induction 1 as [| x l l' _ IH | x y l | l l' l'' _ IH1 _ IH2].
  - reflexivity.
  - now rewrite !sum_clicks_cons, IH.
  - rewrite !sum_clicks_cons. lia.
  - now rewrite IH1.
Qed.

Lemma sum_item_clicks_map (base : string) (rows : list UrlRow) :
  sum_item_clicks (map (recent_item base) rows) = sum_clicks rows.
Proof.
  induction rows as [|r rows IH]; [reflexivity|].
  cbn [map]. rewrite sum_clicks_cons, <- IH. reflexivity.
Qed.

(** X9. The statistics and the listing agree. When, in the same state,
    [get_stats] answers with [n] mappings and [c] clicks in total and
    [get_recent_urls] answers with a listing, the listing has the smaller
    of ten and [n] items, each built from a mapping of the store; and when
    there are at most ten mappings it shows them all: the listed codes are
    the codes of the store in some order and the clicks of the items add up
    to [c]. The listing leaves the database and the lock as they were. *)
Theorem stats_agree_with_listing (env : Env) (request : Request) (w w' : World)
  (n c t k : Z) (items : list RecentItem) :
  returned (get_stats env w) = Some (mkResponse (JsonStats n c t k) 200) ->
  get_recent_urls request w = Done (mkResponse (JsonRecent items) 200) w' ->
  db w' = db w /\ lock_held w' = lock_held w
  /\ Z.of_nat (List.length items) = Z.min 10 n
  /\ (forall item, In item items ->
        exists r, In r (urls (db w))
                  /\ item = recent_item (Str.rstrip (Ascii.eqb "/") (url_root request)) r)
  /\ ((n <= 10)%Z ->
      Permutation (map item_short_code items) (codes (db w))
      /\ sum_item_clicks items = c).
Proof.
  intros Hstats Hrecent. rewrite get_stats_run in Hstats. cbn [returned] in Hstats.
  inversion Hstats; subst n c t k. clear Hstats.
  rewrite get_recent_urls_run in Hrecent.
  assert (Hitems : items
            = map (recent_item (Str.rstrip (Ascii.eqb "/") (url_root request)))
                (firstn 10 (order_by_created_at_desc (urls (db w)))))
    by congruence.
  assert (Hw' : db w' = db w /\ lock_held w' = lock_held w)
    by (inversion Hrecent; split; reflexivity).
  clear Hrecent. subst items. destruct Hw' as [Hdb Hlock].
  pose proof (order_by_created_at_desc_perm (urls (db w))) as Hperm.
  split; [exact Hdb|]. split; [exact Hlock|]. split; [|split].
  - rewrite length_map, length_firstn, (Permutation_length Hperm). lia.
  - intros item Hin. apply in_map_iff in Hin as (r & Hr & Hin).
    exists r. split; [|now symmetry].
    apply (Permutation_in _ Hperm). eapply in_firstn. exact Hin.
  - intros Hfew.
    rewrite firstn_all2 by (rewrite (Permutation_length Hperm); lia).
    split.
    + rewrite map_map. cbn [recent_item item_short_code].
      unfold codes. now apply Permutation_map.
    + rewrite sum_item_clicks_map. now apply sum_clicks_perm.
Qed.

Lemma stats_agree_with_listing_witness :
  returned (get_stats Sample.env (fresh_world Cases.busy))
  = Some (mkResponse (JsonStats 3 7 1 3) 200)
  /\ exists items w',
       get_recent_urls (mkRequest false None "http://h/") (fresh_world Cases.busy)
       = Done (mkResponse (JsonRecent items) 200) w'
       /\ map item_short_code items = ["Zz9_-"; "promo"; "abc123"]
       /\ sum_item_clicks items = 7%Z.
Proof.
  split; [reflexivity|]. eexists _, _. split; [reflexivity|]. split; [reflexivity|].
  pose proof (stats_agree_with_listing Sample.env (mkRequest false None "http://h/")
                (fresh_world Cases.busy) _ 3 7 1 3 _ eq_refl eq_refl)
    as (_ & _ & _ & _ & Hall).
  apply Hall. lia.
Defined.

(** X10. What [update_daily_stats] adds shows in [get_stats]: after a
    completed call with the lock free, the statistics of the same day
    report today's two counters raised by the two arguments and the two
    totals over the mappings unchanged. *)
Theorem stats_follow_the_upsert (env : Env) (created clicked : Z) (w : World)
  (n c t k : Z) :
  lock_held w = false ->
  returned (get_stats env w) = Some (mkResponse (JsonStats n c t k) 200) ->
  returned (get_stats env (final_world (update_daily_stats env created clicked w)))
  = Some (mkResponse (JsonStats n c (t + created) (k + clicked)) 200).
Proof.
  intros Hfree Hbefore. rewrite get_stats_run in *. cbn [returned] in *.
  inversion Hbefore; subst. clear Hbefore.
  rewrite update_daily_stats_run by assumption. cbn [final_world db].
  unfold created_on at 1, clicked_on at 1.
  rewrite find_daily_with_daily, String.eqb_refl. cbn [urls_created total_clicks].
  now rewrite (proj1 (urls_with_daily _ _ _ _)).
Qed.

Lemma stats_follow_the_upsert_witness :
  returned (get_stats Sample.env (fresh_world Cases.busy))
  = Some (mkResponse (JsonStats 3 7 1 3) 200)
  /\ returned (get_stats Sample.env
       (final_world (update_daily_stats Sample.env 0 1 (fresh_world Cases.busy))))
     = Some (mkResponse (JsonStats 3 7 (1 + 0) (3 + 1)) 200).
Proof.
  split; [reflexivity|].
  apply (stats_follow_the_upsert Sample.env 0 1 (fresh_world Cases.busy) 3 7 1 3);
    reflexivity.
Defined.

(** ** The lock and the exceptions *)

Lemma shorten_url_lock_outcome (env : Env) (request : Request) (w : World) :
  lock_outcome (shorten_url env request w) w.
Proof.
  unfold shorten_url, try_except.
  destruct (shorten_body_cases env request w)
    as [(r & Hrun & _) | [(e & Hrun & _) | (u & c & _ & _ & Hrun)]];
    rewrite Hrun; [reflexivity | reflexivity |].
  destruct (lock_held w) eqn:Hlock.
  - unfold shorten_locked. rewrite with_lock_held by assumption. exact Hlock.
  - destruct (choose_short_code_total env (Str.strip c) (entered w))
      as (x & n & evs & Hchoose & _).
    destruct x as [resp | code].
    + rewrite (shorten_locked_early env request _ _ w _ resp Hlock Hchoose).
      cbn. now rewrite Hlock.
    + rewrite (shorten_locked_chosen env request _ _ w _ code Hlock Hchoose)
        by reflexivity.
      cbv zeta. destruct (insert_refused code (concurrent_writer env _)); cbn;
        [now rewrite Hlock | reflexivity].
Qed.

Lemma redirect_lock_outcome (env : Env) (code : string) (w : World) :
  lock_outcome (redirect_to_url env code w) w.
Proof.
  destruct (Re.match_code code) eqn:Hm.
  - destruct (lock_held w) eqn:Hlock.
    + unfold redirect_to_url, try_except. rewrite Hm. cbn [negb].
      rewrite with_lock_held by assumption. exact Hlock.
    + destruct (find_url code (db w)) as [r|] eqn:E.
      * now rewrite (redirect_existing_blocks env code w r Hm Hlock E).
      * rewrite (redirect_unknown env code w Hm Hlock E). cbn. now rewrite Hlock.
  - rewrite redirect_refuses_unmatched by assumption. reflexivity.
Qed.

(** X11. No exception leaves a route handler, and a handler that returns
    leaves the lock as it found it, on every path: validation errors,
    taken codes, exhaustion, a failed INSERT and the not-found page all go
    through the end of [with lock]. A run that does not return is stuck
    with the lock held. *)
Theorem handlers_and_the_lock (env : Env) (request : Request) (code : string)
  (w : World) :
  lock_outcome (shorten_url env request w) w
  /\ lock_outcome (redirect_to_url env code w) w
  /\ lock_outcome (clear_all_data w) w
  /\ lock_outcome (get_stats env w) w
  /\ lock_outcome (get_recent_urls request w) w.
Proof.
  split; [|split; [|split; [|split]]].
  - apply shorten_url_lock_outcome.
  - apply redirect_lock_outcome.
  - destruct w as [d t l n lg]. destruct l.
    + unfold clear_all_data, try_except. now rewrite with_lock_held.
    + unfold clear_all_data. unfold_statements; cbn. reflexivity.
  - rewrite get_stats_run. reflexivity.
  - rewrite get_recent_urls_run. reflexivity.
Qed.

(** ** Trimming *)

Lemma rstrip_idempotent (p : ascii -> bool) (s : string) :
  Str.rstrip p (Str.rstrip p s) = Str.rstrip p s.
Proof.
  induction s as [|c s IH]; [reflexivity|].
  cbn [Str.rstrip]. destruct (Str.rstrip p s) as [|b r] eqn:E.
  - destruct (p c) eqn:Hp; [reflexivity|]. cbn. now rewrite Hp.
  - change (Str.rstrip p (String c (String b r)))
      with (match Str.rstrip p (String b r) with
            | EmptyString => if p c then EmptyString else String c EmptyString
            | String x y => String c (String x y)
            end).
    now rewrite IH.
Qed.

Lemma rstrip_keeps_head (p : ascii -> bool) (c : ascii) (s : string) :
  p c = false -> exists t, Str.rstrip p (String c s) = String c t.
Proof.
  intros Hp. cbn [Str.rstrip]. destruct (Str.rstrip p s).
  - rewrite Hp. now eexists.
  - now eexists.
Qed.

Lemma lstrip_head (p : ascii -> bool) (s : string) :
  Str.lstrip p s = EmptyString
  \/ exists c t, Str.lstrip p s = String c t /\ p c = false.
Proof.
  induction s as [|c s IH]; [now left|].
  cbn [Str.lstrip]. destruct (p c) eqn:Hp; [exact IH|].
  right. now exists c, s.
Qed.

Lemma strip_idempotent (s : string) : Str.strip (Str.strip s) = Str.strip s.
Proof.
  unfold Str.strip.
  destruct (lstrip_head Str.isspace s) as [-> | (c & t & -> & Hc)]; [reflexivity|].
  destruct (rstrip_keeps_head Str.isspace c t Hc) as [t' Ht'].
  rewrite Ht'. cbn [Str.lstrip]. rewrite Hc, <- Ht'. apply rstrip_idempotent.
Qed.

Lemma head_strip (s : string) (c : ascii) :
  Str.head (Str.strip s) = Some c -> Str.isspace c = false.
Proof.
  unfold Str.strip.
  destruct (lstrip_head Str.isspace s) as [-> | (a & t & -> & Ha)]; [discriminate|].
  destruct (rstrip_keeps_head Str.isspace a t Ha) as [t' ->].
  cbn. intros H. now inversion H; subst.
Qed.

(** X12. Whitespace around the two fields of the request is ignored. What
    [shorten_url] does with a request is what it does with the request whose
    fields are already trimmed; a field that is missing, null, empty or made
    of whitespace only counts as not given. Trimming a trimmed text changes
    nothing, and a trimmed text neither starts nor ends with whitespace. *)
Theorem surrounding_whitespace_is_ignored (env : Env) (root : string)
  (raw_url raw_code : option string) (w : World) :
  shorten_url env (post_request root raw_url raw_code) w
  = shorten_url env
      (post_request root (Some (Str.strip (or_empty raw_url)))
         (Some (Str.strip (or_empty raw_code)))) w
  /\ (forall s, Str.strip (Str.strip s) = Str.strip s)
  /\ (forall s c, Str.head (Str.strip s) = Some c -> Str.isspace c = false)
  /\ (forall s c, last_char (Str.strip s) = Some c -> Str.isspace c = false).
Proof.
  split; [|split; [exact strip_idempotent | split; [exact head_strip|]]].
  - unfold shorten_url, try_except. rewrite !shorten_body_post.
    cbn [or_empty]. cbv zeta. rewrite !strip_idempotent.
    unfold shorten_locked, store_mapping, post_request.
    cbn [url_root]. reflexivity.
  - intros s c H. unfold Str.strip in H. now apply last_char_rstrip in H.
Qed.

(** ** The shape of a valid URL *)

Lemma urlsplit_unfold (env : Env) (url : string) :
  Urllib.urlsplit env url
  = let '(scheme, rest) := Urllib.split_scheme (normalised url) in
    match authority env rest with
    | None => None
    | Some (netloc, url) =>
        let '(url, _, fragment) := Str.partition "#" url in
        let '(url, _, query) := Str.partition "?" url in
        if Urllib._checknetloc env netloc
        then Some (Urllib.mkSplit scheme netloc url query fragment)
        else None
    end.
Proof. reflexivity. Qed.

Lemma partition_found (c : ascii) (s a b : string) :
  Str.partition c s = (a, true, b) -> s = a ++ String c b.
Proof.
  revert a b. induction s as [|d s IH]; intros a b H; cbn in H; [discriminate|].
  destruct (Ascii.eqb_spec c d) as [-> | Hne].
  - now inversion H; subst.
  - destruct (Str.partition c s) as [[a' f] b'] eqn:E. inversion H; subst.
    cbn. f_equal. now apply IH.
Qed.

Lemma span_spec (p : ascii -> bool) (s a b : string) :
  Str.span p s = (a, b) ->
  s = a ++ b /\ Str.all p a = true
  /\ (b = EmptyString \/ exists c t, b = String c t /\ p c = false).
Proof.
  revert a b. induction s as [|d s IH]; intros a b H; cbn in H.
  - inversion H; subst. auto.
  - destruct (p d) eqn:Hp.
    + destruct (Str.span p s) as [a' b'] eqn:E. inversion H; subst.
      destruct (IH a' b eq_refl) as (-> & Hall & Hb).
      cbn. rewrite Hp, Hall. auto.
    + inversion H; subst. repeat split. right. now exists d, s.
Qed.

Lemma split_scheme_found (u scheme rest : string) :
  Urllib.split_scheme u = (scheme, rest) ->
  scheme <> EmptyString ->
  exists before, u = before ++ String ":" rest /\ scheme = Str.lower before.
Proof.
  unfold Urllib.split_scheme. destruct (Str.partition ":" u) as [[before found] after] eqn:E.
  destruct (found && Str.nonempty before && _ && Str.all Urllib.scheme_char before) eqn:C;
    intros H Hne; inversion H; subst; [|contradiction].
  exists before. split; [|reflexivity].
  destruct found; [|discriminate]. now apply partition_found.
Qed.

Lemma authority_found (env : Env) (rest netloc tail : string) :
  authority env rest = Some (netloc, tail) ->
  netloc <> EmptyString ->
  exists r, rest = String "/" (String "/" r)
            /\ Str.span (fun c => negb (Urllib.netloc_delim c)) r = (netloc, tail).
Proof.
  intros H Hne.
  destruct rest as [|c1 rest]; [cbn in H; inversion H; subst; contradiction|].
  destruct (Ascii.eqb_spec c1 "/") as [-> | Hc1].
  2:{ exfalso. destruct c1 as [[] [] [] [] [] [] [] []];
        try (apply Hc1; reflexivity); cbn in H; inversion H; subst; contradiction. }
  destruct rest as [|c2 rest]; [cbn in H; inversion H; subst; contradiction|].
  destruct (Ascii.eqb_spec c2 "/") as [-> | Hc2].
  2:{ exfalso. destruct c2 as [[] [] [] [] [] [] [] []];
        try (apply Hc2; reflexivity); cbn in H; inversion H; subst; contradiction. }
  exists rest. split; [reflexivity|].
  cbn [authority] in H. unfold Urllib._splitnetloc in H.
  destruct (Str.span (fun c => negb (Urllib.netloc_delim c)) rest) as [n t] eqn:E.
  cbv zeta in H.
  destruct ((Str.contains "[" n && negb (Str.contains "]" n))
            || (Str.contains "]" n && negb (Str.contains "[" n))); [discriminate|].
  destruct (Str.contains "[" n && Str.contains "]" n
            && negb (Urllib._check_bracketed_netloc env n)); [discriminate|].
  now inversion H; subst.
Qed.

(** X13. What [is_valid_url] accepts has the shape of an absolute http
    URL. Once leading control characters and spaces are stripped and tabs
    and line breaks removed, as [urlsplit] does, an accepted text reads
    scheme, "://", network location, rest: the scheme is http or https in
    any mix of cases, the network location is not empty and holds none of
    [/?#], and the rest is empty or starts with one of them. Nothing else is
    ever accepted. *)
Theorem valid_url_shape (env : Env) (url : string) :
  is_valid_url env url = true ->
  exists sch netloc tail,
    normalised url = sch ++ "://" ++ netloc ++ tail
    /\ (Str.lower sch = "http" \/ Str.lower sch = "https")
    /\ netloc <> EmptyString
    /\ Str.all (fun c => negb (Urllib.netloc_delim c)) netloc = true
    /\ (tail = EmptyString
        \/ exists c t, tail = String c t /\ Urllib.netloc_delim c = true).
Proof.
  intros Hvalid. apply is_valid_url_iff in Hvalid as (p & Hparse & Hscheme & Hnetloc).
  unfold Urllib.urlparse in Hparse. rewrite urlsplit_unfold in Hparse.
  destruct (Urllib.split_scheme (normalised url)) as [scheme rest] eqn:Hsplit.
  destruct (authority env rest) as [[netloc tail]|] eqn:Hauth; [|discriminate].
  destruct (Str.partition "#" tail) as [[u1 f1] fragment].
  destruct (Str.partition "?" u1) as [[u2 f2] query].
  destruct (Urllib._checknetloc env netloc); [|discriminate].
  inversion Hparse; subst p. cbn [Urllib.scheme Urllib.netloc] in *.
  destruct (split_scheme_found _ _ _ Hsplit) as (sch & Hu & Hlower).
  { destruct Hscheme as [-> | ->]; discriminate. }
  destruct (authority_found _ _ _ _ Hauth Hnetloc) as (r & -> & Hspan).
  destruct (span_spec _ _ _ _ Hspan) as (-> & Hall & Htail).
  exists sch, netloc, tail. split; [|split; [|split; [|split]]].
  - exact Hu.
  - now rewrite <- Hlower.
  - exact Hnetloc.
  - exact Hall.
  - destruct Htail as [-> | (c & t & -> & Hc)]; [now left|].
    right. exists c, t. split; [reflexivity|]. now apply negb_false_iff.
Qed.

Lemma valid_url_shape_witness :
  is_valid_url Sample.env "  HTTPS://user@Example.com:8080/a?b#c" = true
  /\ exists sch netloc tail,
       normalised "  HTTPS://user@Example.com:8080/a?b#c"
       = sch ++ "://" ++ netloc ++ tail
       /\ netloc <> EmptyString.
Proof.
  split; [reflexivity|].
  destruct (valid_url_shape Sample.env "  HTTPS://user@Example.com:8080/a?b#c" eq_refl)
    as (sch & netloc & tail & Hshape & _ & Hnetloc & _).
  now exists sch, netloc, tail.
Defined.

Lemma alpha_facts (c : ascii) :
  Str.isalpha_ascii c = true ->
  Urllib.c0_control_or_space c = false /\ Urllib.unsafe_byte c = false
  /\ Urllib.scheme_char c = true /\ Ascii.eqb ":" c = false
  /\ Str.isascii c = true.
Proof.
  destruct c as [[] [] [] [] [] [] [] []]; vm_compute; intros H;
    try discriminate; now repeat split.
Qed.

Lemma plain_facts (c : ascii) :
  plain c = true ->
  Urllib.unsafe_byte c = false /\ Urllib.netloc_delim c = false
  /\ Ascii.eqb "[" c = false /\ Ascii.eqb "]" c = false /\ Str.isascii c = true.
Proof.
  destruct c as [[] [] [] [] [] [] [] []]; vm_compute; intros H;
    try discriminate; now repeat split.
Qed.

Lemma delim_not_unsafe (c : ascii) :
  Urllib.netloc_delim c = true -> Urllib.unsafe_byte c = false.
Proof.
  destruct c as [[] [] [] [] [] [] [] []]; vm_compute; intros H;
    try discriminate; reflexivity.
Qed.

Lemma lower_char_alpha (c : ascii) :
  Str.isalpha_ascii (Str.lower_char c) = true -> Str.isalpha_ascii c = true.
Proof.
  destruct c as [[] [] [] [] [] [] [] []]; vm_compute; intros H;
    try discriminate; reflexivity.
Qed.

Lemma all_alpha_lower (s : string) :
  Str.all Str.isalpha_ascii (Str.lower s) = true -> Str.all Str.isalpha_ascii s = true.
Proof.
  induction s as [|c s IH]; [reflexivity|]. cbn [Str.lower Str.all].
  intros H. apply andb_prop in H as [Hc Hs].
  now rewrite (lower_char_alpha c Hc), IH.
Qed.

Lemma remove_app (p : ascii -> bool) (a b : string) :
  Str.remove p (a ++ b) = Str.remove p a ++ Str.remove p b.
Proof.
  induction a as [|c a IH]; [reflexivity|]. cbn. rewrite IH. now destruct (p c).
Qed.

Lemma remove_none (p : ascii -> bool) (s : string) :
  Str.all (fun c => negb (p c)) s = true -> Str.remove p s = s.
Proof.
  induction s as [|c s IH]; [reflexivity|]. cbn. intros H.
  apply andb_prop in H as [Hc Hs]. apply negb_true_iff in Hc. now rewrite Hc, IH.
Qed.

Lemma partition_app_absent (c : ascii) (a b : string) :
  Str.all (fun d => negb (Ascii.eqb c d)) a = true ->
  Str.partition c (a ++ String c b) = (a, true, b).
Proof.
  induction a as [|d a IH]; cbn; intros H.
  - now rewrite Ascii.eqb_refl.
  - apply andb_prop in H as [Hd Ha]. apply negb_true_iff in Hd.
    now rewrite Hd, (IH Ha).
Qed.

Lemma span_app (p : ascii -> bool) (a b : string) :
  Str.all p a = true ->
  (b = EmptyString \/ exists c t, b = String c t /\ p c = false) ->
  Str.span p (a ++ b) = (a, b).
Proof.
  intros Ha Hb. induction a as [|d a IH]; cbn in *.
  - destruct Hb as [-> | (c & t & -> & Hc)]; [reflexivity|]. cbn. now rewrite Hc.
  - apply andb_prop in Ha as [Hd Ha]. now rewrite Hd, (IH Ha).
Qed.

Lemma contains_absent (c : ascii) (s : string) :
  Str.all (fun d => negb (Ascii.eqb c d)) s = true -> Str.contains c s = false.
Proof.
  induction s as [|d s IH]; [reflexivity|]. cbn. intros H.
  apply andb_prop in H as [Hd Hs]. apply negb_true_iff in Hd. now rewrite Hd, IH.
Qed.

Lemma lstrip_keeps (p : ascii -> bool) (s x : string) :
  (exists c t, s = String c t /\ p c = false) ->
  Str.lstrip p (s ++ x) = s ++ x.
Proof. intros (c & t & -> & Hc). cbn. now rewrite Hc. Qed.

(** X14. Every ordinary http address is accepted. A text that reads
    scheme, "://", network location, rest is valid for [is_valid_url]
    whenever the scheme is http or https in any mix of cases, the network
    location is not empty and made of printable ASCII characters other than
    [/?#] and brackets, and the rest is empty or starts with one of [/?#]. *)
Theorem plain_http_url_is_valid (env : Env) (sch netloc tail : string) :
  (Str.lower sch = "http" \/ Str.lower sch = "https") ->
  netloc <> EmptyString ->
  Str.all plain netloc = true ->
  (tail = EmptyString \/ exists c t, tail = String c t /\ Urllib.netloc_delim c = true) ->
  is_valid_url env (sch ++ "://" ++ netloc ++ tail) = true.
Proof.
  intros Hscheme Hnetloc Hplain Htail.
  assert (Halpha : Str.all Str.isalpha_ascii sch = true).
  { apply all_alpha_lower. destruct Hscheme as [-> | ->]; reflexivity. }
  assert (Hsch : exists c t, sch = String c t /\ Str.isalpha_ascii c = true).
  { destruct sch as [|c t]; [destruct Hscheme; discriminate|].
    cbn in Halpha. apply andb_prop in Halpha as [Hc _]. now exists c, t. }
  set (tail' := Str.remove Urllib.unsafe_byte tail).
  assert (Htail' : tail' = EmptyString
                   \/ exists c t, tail' = String c t
                                  /\ negb (Urllib.netloc_delim c) = false).
  { subst tail'. destruct Htail as [-> | (c & t & -> & Hc)]; [now left|].
    right. cbn. rewrite (delim_not_unsafe c Hc). eexists _, _.
    split; [reflexivity|]. now rewrite Hc. }
  assert (Hnorm : normalised (sch ++ "://" ++ netloc ++ tail)
                  = sch ++ String ":" ("//" ++ netloc ++ tail')).
  { unfold normalised. rewrite lstrip_keeps.
    - rewrite remove_app, (remove_none _ sch).
      + f_equal.
        change (Str.remove Urllib.unsafe_byte ("://" ++ netloc ++ tail))
          with ("://" ++ Str.remove Urllib.unsafe_byte (netloc ++ tail)).
        rewrite remove_app, (remove_none _ netloc); [reflexivity|].
        eapply all_impl; [|exact Hplain]. intros x Hx.
        now rewrite (proj1 (plain_facts x Hx)).
      + eapply all_impl; [|exact Halpha]. intros x Hx.
        now rewrite (proj1 (proj2 (alpha_facts x Hx))).
    - destruct Hsch as (c & t & -> & Hc). exists c, t.
      split; [reflexivity | apply (alpha_facts c Hc)]. }
  assert (Hsplit : Urllib.split_scheme (sch ++ String ":" ("//" ++ netloc ++ tail'))
                   = (Str.lower sch, "//" ++ netloc ++ tail')).
  { unfold Urllib.split_scheme. rewrite partition_app_absent.
    - destruct Hsch as (c & t & -> & Hc).
      cbn [append Str.head Str.nonempty andb].
      rewrite Hc, (proj2 (proj2 (proj2 (proj2 (alpha_facts c Hc))))). cbn [andb].
      replace (Str.all Urllib.scheme_char (String c t)) with true; [reflexivity|].
      symmetry. eapply all_impl; [|exact Halpha]. intros x Hx.
      apply (alpha_facts x Hx).
    - eapply all_impl; [|exact Halpha]. intros x Hx.
      now rewrite (proj1 (proj2 (proj2 (proj2 (alpha_facts x Hx))))). }
  assert (Hauth : authority env ("//" ++ netloc ++ tail') = Some (netloc, tail')).
  { cbn [append authority]. unfold Urllib._splitnetloc. rewrite span_app.
    - rewrite !contains_absent; [reflexivity| |];
        (eapply all_impl; [|exact Hplain]); intros x Hx;
        destruct (plain_facts x Hx) as (_ & _ & H1 & H2 & _);
        [now rewrite H2 | now rewrite H1].
    - eapply all_impl; [|exact Hplain]. intros x Hx.
      now rewrite (proj1 (proj2 (plain_facts x Hx))).
    - exact Htail'. }
  unfold is_valid_url, Urllib.urlparse. rewrite urlsplit_unfold, Hnorm, Hsplit, Hauth.
  destruct (Str.partition "#" tail') as [[u1 f1] fragment].
  destruct (Str.partition "?" u1) as [[u2 f2] query].
  replace (Urllib._checknetloc env netloc) with true.
  - cbn [Urllib.scheme Urllib.netloc].
    apply nonempty_true in Hnetloc. rewrite Hnetloc.
    destruct Hscheme as [-> | ->]; reflexivity.
  - symmetry. unfold Urllib._checknetloc.
    replace (Str.all Str.isascii netloc) with true; [now rewrite orb_true_r|].
    symmetry. eapply all_impl; [|exact Hplain]. intros x Hx. apply (plain_facts x Hx).
Qed.

Lemma plain_http_url_is_valid_witness :
  Str.all plain "user:pw@shop.example.com:8443" = true
  /\ is_valid_url Sample.env ("hTtPs" ++ "://" ++ "user:pw@shop.example.com:8443"
                              ++ "/cart?item=1#top") = true.
Proof.
  split; [reflexivity|].
  apply (plain_http_url_is_valid Sample.env "hTtPs" "user:pw@shop.example.com:8443"
           "/cart?item=1#top").
  - right. reflexivity.
  - discriminate.
  - reflexivity.
  - right. now exists "/"%char, "cart?item=1#top".
Defined.

(** ** Allocation and the mappings already there *)

Lemma find_url_with_mapping (env : Env) (d : Db) (code url c : string) :
  find_url c (with_mapping env d code url)
  = match find_url c d with
    | Some r => Some r
    | None => if String.eqb code c then Some (new_row env d code url) else None
    end.
Proof. unfold find_url, with_mapping. cbn [urls]. now rewrite find_snoc. Qed.

(** X15. An allocation adds one mapping and touches no other. With no
    other process writing, the store after a run of [shorten_url] is the
    store before it, or the store before it with one row appended: a row
    with a valid code that no mapping had, a URL that passed
    [is_valid_url], no clicks and the current timestamp. That row is what a
    lookup of its code now finds, and every mapping found before is found
    unchanged. *)
Theorem allocation_adds_one_mapping (env : Env) (request : Request) (w : World) :
  (forall d, concurrent_writer env d = d) ->
  let d := db (final_world (shorten_url env request w)) in
  d = db w
  \/ exists row,
       urls d = (urls (db w) ++ [row])%list
       /\ valid_code (short_code row)
       /\ is_valid_url env (original_url row) = true
       /\ clicks row = 0%Z /\ created_at row = now env
       /\ find_url (short_code row) (db w) = None
       /\ find_url (short_code row) d = Some row
       /\ forall c r, find_url c (db w) = Some r -> find_url c d = Some r.
Proof.
  intros Hquiet. cbv zeta.
  destruct (shorten_url_final_db env request w)
    as [H | [H | (code & url & Hnone & _ & Hvalid & Hurl & H)]];
    rewrite H, ?Hquiet; [now left | now left |].
  right. exists (new_row env (db w) code url).
  split; [reflexivity|]. split; [exact Hvalid|]. split; [exact Hurl|].
  split; [reflexivity|]. split; [reflexivity|]. split; [exact Hnone|]. split.
  - cbn [new_row short_code].
    rewrite find_url_with_mapping, Hnone. now rewrite String.eqb_refl.
  - intros c r Hfound. now rewrite find_url_with_mapping, Hfound.
Qed.

Lemma allocation_adds_one_mapping_witness :
  urls (db (final_world
              (shorten_url Sample.env (Sample.post " https://y.org/sale " (Some "promo2"))
                 (fresh_world Cases.busy))))
  = (urls Cases.busy ++ [mkUrlRow 5 "promo2" "https://y.org/sale" 0 1714557600])%list
  /\ (db (final_world
            (shorten_url Sample.env (Sample.post " https://y.org/sale " (Some "promo2"))
               (fresh_world Cases.busy)))
      = db (fresh_world Cases.busy)
      \/ exists row,
           urls (db (final_world
                       (shorten_url Sample.env
                          (Sample.post " https://y.org/sale " (Some "promo2"))
                          (fresh_world Cases.busy))))
           = (urls (db (fresh_world Cases.busy)) ++ [row])%list
           /\ find_url (short_code row) (db (fresh_world Cases.busy)) = None).
Proof.
  split; [reflexivity|].
  destruct (allocation_adds_one_mapping Sample.env
              (Sample.post " https://y.org/sale " (Some "promo2"))
              (fresh_world Cases.busy) (fun d => eq_refl))
    as [H | (row & Hrows & _ & _ & _ & _ & Hnone & _)].
  - now left.
  - right. now exists row.
Defined.

(** X16. After [clear_all_data] every code is free again. With the lock
    free, no other process writing and the AUTOINCREMENT counter below the
    largest rowid, a request for a well-formed custom code of at most 20
    characters that follows a completed clearing stores that code, whatever
    the store held before; the new row is the only mapping. *)
Theorem cleared_store_takes_any_code (env : Env) (root : string)
  (raw_url raw_code : option string) (w : World) :
  let url := Str.strip (or_empty raw_url) in
  let custom := Str.strip (or_empty raw_code) in
  lock_held w = false ->
  (urls_seq (db w) < max_rowid)%Z ->
  (forall d, concurrent_writer env d = d) ->
  Str.nonempty url = true ->
  is_valid_url env url = true ->
  well_formed_code custom = true ->
  String.length custom <= 20 ->
  urls (db (final_world
              (shorten_url env (post_request root raw_url raw_code)
                 (final_world (clear_all_data w)))))
  = [mkUrlRow (Z.max (urls_seq (db w)) 0 + 1) custom url 0 (now env)].
Proof.
  cbv zeta. intros Hfree Hcounter Hquiet Hne Hvalid Hwf Hlen.
  assert (Hclear : exists lg,
            final_world (clear_all_data w)
            = mkWorld (cleared (db w)) None false (draws w) lg).
  { destruct w as [d t l n lg]. cbn in Hfree. subst l.
    eexists. unfold clear_all_data. unfold_statements; cbn. reflexivity. }
  destruct Hclear as [lg ->].
  set (wc := mkWorld (cleared (db w)) None false (draws w) lg).
  rewrite shorten_url_validated by assumption. unfold try_except.
  assert (Hsupplied : Str.nonempty (Str.strip (or_empty raw_code)) = true).
  { unfold well_formed_code in Hwf. now apply andb_prop in Hwf as [H _]. }
  assert (Hm : Re.match_code (Str.strip (or_empty raw_code)) = true)
    by now apply well_formed_match_code.
  assert (Hl : (20 <? String.length (Str.strip (or_empty raw_code)))%nat = false)
    by (apply Nat.ltb_ge; lia).
  pose proof (choose_custom_lookup env _ (entered wc) Hsupplied Hm Hl) as Hchoose.
  cbn [view entered txn db wc] in Hchoose. unfold find_url at 1 in Hchoose.
  cbn [cleared urls find] in Hchoose.
  rewrite (shorten_locked_chosen env _ _ _ wc _ _ eq_refl Hchoose) by reflexivity.
  cbv zeta. cbn [advance entered db wc]. rewrite Hquiet.
  assert (Hleft : insert_refused (Str.strip (or_empty raw_code)) (cleared (db w)) = None).
  { apply insert_refused_none. split; [|reflexivity].
    unfold rowids_exhausted. cbn [cleared urls urls_seq max_id fold_right].
    apply Z.leb_gt. unfold max_rowid in *. lia. }
  rewrite Hleft. cbn [cleared urls urls_seq max_id fold_right final_world db app].
  reflexivity.
Qed.

Lemma cleared_store_takes_any_code_witness :
  find_url "promo" Cases.busy
  = Some (mkUrlRow 2 "promo" "https://y.org/sale" 5 1714553600)
  /\ urls (db (final_world
       (shorten_url Sample.env (post_request "http://h/" (Some "https://new.example")
                                  (Some "promo"))
          (final_world (clear_all_data (fresh_world Cases.busy))))))
     = [mkUrlRow 5 "promo" "https://new.example" 0 1714557600].
Proof.
  split; [reflexivity|].
  apply (cleared_store_takes_any_code Sample.env "http://h/"
           (Some "https://new.example") (Some "promo") (fresh_world Cases.busy));
    try reflexivity.
  apply Nat.leb_le. reflexivity.
Defined.

(** ** Threads, an instance *)

Lemma shorten_success_never_returns_witness :
  exists q,
    Threads.steps Cases.two_requests q
    /\ Threads.owner q = Some 0
    /\ exists prog, nth_error (Threads.programs q) 0 = Some prog
                    /\ Threads.not_past_inner_acquire prog.
Proof.
  assert (Hrun : Threads.steps Cases.two_requests
            (Threads.mkPool (Some 0)
               (Threads.set_nth 0 (skipn 2 Threads.shorten_success)
                  (Threads.set_nth 0 (skipn 1 Threads.shorten_success)
                     (Threads.programs Cases.two_requests))))).
  { eapply Threads.steps_next.
    - apply (Threads.step_acquire 0 (skipn 1 Threads.shorten_success)). reflexivity.
    - eapply Threads.steps_next; [|apply Threads.steps_refl].
      apply (Threads.step_statement 0 (skipn 2 Threads.shorten_success)). reflexivity. }
  eexists. split; [exact Hrun|]. split; [reflexivity|].
  apply (shorten_success_never_returns 0 _ _ Hrun).
  exists 0. split; [lia|]. split; [reflexivity|]. intros H. lia.
Defined.

(** ** The pattern, exactly *)

Lemma string_app_nil (s : string) : s ++ EmptyString = s.
Proof. induction s as [|c s IH]; cbn; [reflexivity | now rewrite IH]. Qed.

(** X17. What [re.match] with the code pattern accepts, exactly: the
    non-empty texts over [A-Za-z0-9_-], and those same texts followed by one
    line feed. [redirect_to_url] answers "Invalid short code format" with
    status 400 for every other text and for no text of these two kinds,
    in whatever state the process is. *)
Theorem code_pattern_exactly (env : Env) (code : string) (w : World) :
  (Re.match_code code = true
   <-> well_formed_code code = true
       \/ exists t, code = with_line_feed t /\ well_formed_code t = true)
  /\ (returned (redirect_to_url env code w)
      = Some (mkResponse (Text "Invalid short code format") 400)
      <-> Re.match_code code = false).
Proof.
  split.
  - split.
    + unfold Re.match_code. destruct (Str.span Re.code_char code) as [run rest] eqn:E.
      destruct (span_spec _ _ _ _ E) as (-> & Hall & Hrest).
      intros H. apply andb_prop in H as [Hne Hdollar].
      destruct rest as [|c [|c' rest]]; cbn in Hdollar; [| |discriminate].
      * left. rewrite string_app_nil. unfold well_formed_code. now rewrite Hne, Hall.
      * right. apply Ascii.eqb_eq in Hdollar. subst c. exists run.
        split; [reflexivity|]. unfold well_formed_code. now rewrite Hne, Hall.
    + intros [Hwf | (t & -> & Hwf)].
      * now apply well_formed_match_code.
      * unfold well_formed_code in Hwf. apply andb_prop in Hwf as [Hne Hall].
        unfold Re.match_code, with_line_feed. rewrite span_app; [|exact Hall|].
        -- now rewrite Hne.
        -- right. now exists Re.LF, EmptyString.
  - split.
    + intros H. destruct (Re.match_code code) eqn:Hm; [|reflexivity]. exfalso.
      destruct (lock_held w) eqn:Hlock.
      * unfold redirect_to_url, try_except in H. rewrite Hm in H. cbn [negb] in H.
        rewrite with_lock_held in H by assumption. discriminate.
      * destruct (find_url code (db w)) as [r|] eqn:E.
        -- rewrite (redirect_existing_blocks env code w r Hm Hlock E) in H. discriminate.
        -- rewrite (redirect_unknown env code w Hm Hlock E) in H. discriminate.
    + intros Hm. now rewrite redirect_refuses_unmatched.
Qed.

(** ** Short URLs in the listing *)

Lemma rpartition_absent (c : ascii) (s : string) :
  Str.contains c s = false -> Str.rpartition c s = (EmptyString, false, s).
Proof.
  induction s as [|d s IH]; [reflexivity|]. cbn. intros H.
  apply orb_false_iff in H as [Hd Hs]. now rewrite (IH Hs), Hd.
Qed.

Lemma rpartition_last (c : ascii) (a b : string) :
  Str.contains c b = false ->
  Str.rpartition c (a ++ String c b) = (a, true, b).
Proof.
  intros Hb. induction a as [|d a IH]; cbn.
  - now rewrite (rpartition_absent c b Hb), Ascii.eqb_refl.
  - now rewrite IH.
Qed.

Lemma code_char_not_slash (c : ascii) :
  Re.code_char c = true -> negb (Ascii.eqb "/" c) = true.
Proof.
  destruct c as [[] [] [] [] [] [] [] []]; vm_compute; intros H;
    try discriminate; reflexivity.
Qed.

(** X18. The short URL of a listed mapping leads back to it. If the codes
    in the store are valid, every item that [get_recent_urls] returns has a
    short URL that is the root of the request without its trailing slashes,
    one slash, and the code; cutting the short URL at its last slash gives
    the code back, and that code passes the pattern of [redirect_to_url]
    and finds the mapping the item was built from. *)
Theorem listed_short_url_round_trip (request : Request) (w : World) :
  codes_valid (db w) ->
  unique_codes (db w) ->
  exists items w',
    get_recent_urls request w = Done (mkResponse (JsonRecent items) 200) w'
    /\ forall item, In item items ->
         let base := Str.rstrip (Ascii.eqb "/") (url_root request) in
         Str.rpartition "/" (item_short_url item) = (base, true, item_short_code item)
         /\ last_char base <> Some "/"%char
         /\ Re.match_code (item_short_code item) = true
         /\ exists r, find_url (item_short_code item) (db w) = Some r
                      /\ item = recent_item base r.
Proof.
  intros Hvalid Hunique. eexists _, _. split; [apply get_recent_urls_run|].
  intros item Hin. cbv zeta. apply in_map_iff in Hin as (r & <- & Hin).
  apply in_firstn in Hin.
  apply (Permutation_in _ (order_by_created_at_desc_perm (urls (db w)))) in Hin.
  assert (Hcode : valid_code (short_code r)).
  { unfold codes_valid in Hvalid. rewrite Forall_forall in Hvalid.
    apply Hvalid. unfold codes. now apply in_map. }
  destruct Hcode as [Hwf _].
  cbn [recent_item item_short_url item_short_code].
  split; [|split; [|split]].
  - change (Str.rstrip (Ascii.eqb "/") (url_root request) ++ "/" ++ short_code r)
      with (Str.rstrip (Ascii.eqb "/") (url_root request)
            ++ String "/" (short_code r)).
    apply rpartition_last, contains_absent.
    unfold well_formed_code in Hwf. apply andb_prop in Hwf as [_ Hall].
    eapply all_impl; [|exact Hall]. exact code_char_not_slash.
  - intros Hlast. apply last_char_rstrip in Hlast. discriminate.
  - now apply well_formed_match_code.
  - exists r. split; [|reflexivity].
    unfold unique_codes, codes in Hunique. unfold find_url.
    clear Hvalid Hwf. induction (urls (db w)) as [|a rows IH]; [contradiction|].
    cbn in *. inversion Hunique as [|x l Hnotin Hrest]; subst.
    destruct Hin as [-> | Hin].
    + now rewrite String.eqb_refl.
    + destruct (String.eqb_spec (short_code a) (short_code r)) as [Heq | Hne].
      * exfalso. apply Hnotin. rewrite Heq. now apply in_map.
      * now apply IH.
Qed.

Lemma listed_short_url_round_trip_witness :
  returned (get_recent_urls (mkRequest false None "http://sho.rt//")
              (fresh_world Sample.one_mapping))
  = Some (mkResponse
            (JsonRecent
               [mkRecentItem "abc123" "http://sho.rt/abc123" "https://x.com" 0
                  1714550000]) 200)
  /\ Str.rpartition "/" "http://sho.rt/abc123" = ("http://sho.rt", true, "abc123")
  /\ exists items w',
       get_recent_urls (mkRequest false None "http://sho.rt//")
         (fresh_world Sample.one_mapping)
       = Done (mkResponse (JsonRecent items) 200) w'.
Proof.
  split; [reflexivity|]. split; [reflexivity|].
  destruct (listed_short_url_round_trip (mkRequest false None "http://sho.rt//")
              (fresh_world Sample.one_mapping))
    as (items & w' & Hrun & _).
  - repeat constructor.
  - repeat constructor. intros [].
  - now exists items, w'.
Defined.

(** ** After a request got stuck *)

(** X20. A writing handler never reports success. No run of [shorten_url]
    returns status 200 and no run of [redirect_to_url] returns a redirect:
    whatever [shorten_url] returns has status 400 or 500, whatever
    [redirect_to_url] returns has status 400 or 404. *)
Theorem writers_never_report_success (env : Env) (request : Request) (code : string)
  (w : World) :
  (forall resp w', shorten_url env request w = Done resp w' ->
                   status resp = 400 \/ status resp = 500)
  /\ (forall resp w', redirect_to_url env code w = Done resp w' ->
                      (status resp = 400 \/ status resp = 404)
                      /\ forall location, body resp <> Redirect location).
Proof.
  split.
  - intros resp w' H. apply shorten_url_responses in H.
    destruct H as [-> | [-> | [-> | [-> | [-> | [-> | [-> | [-> | (e & _ & ->)]]]]]]]];
      cbn; auto.
  - intros resp w' H. destruct (Re.match_code code) eqn:Hm.
    + destruct (lock_held w) eqn:Hlock.
      * unfold redirect_to_url, try_except in H. rewrite Hm in H. cbn [negb] in H.
        rewrite with_lock_held in H by assumption. discriminate.
      * destruct (find_url code (db w)) as [r|] eqn:E.
        -- rewrite (redirect_existing_blocks env code w r Hm Hlock E) in H. discriminate.
        -- rewrite (redirect_unknown env code w Hm Hlock E) in H.
           inversion H; subst. cbn. split; [auto | discriminate].
    + rewrite redirect_refuses_unmatched in H by assumption.
      inversion H; subst. cbn. split; [auto | discriminate].
Qed.

Lemma writers_never_report_success_witness :
  shorten_url Sample.env (Sample.post "ftp://x.com" None) (fresh_world empty_db)
  = Done invalid_url_response (fresh_world empty_db)
  /\ (status invalid_url_response = 400 \/ status invalid_url_response = 500).
Proof.
  split; [reflexivity|].
  apply (proj1 (writers_never_report_success Sample.env
                  (Sample.post "ftp://x.com" None) "abc" (fresh_world empty_db))
           invalid_url_response (fresh_world empty_db)).
  reflexivity.
Defined.


